(** * Session manager of disclaude-improved: a shallow embedding

    The development embeds [src/sessionManager.ts] (the session manager
    whose tmux sessions are named [disco_{guildId}_{channelId}]) and the
    second session manager file of the repository (the one whose sessions
    are named [claude-{id}] and which keeps the channel registry), and
    proves properties of the path guard, the output differ, the channel
    registry and the host calls the manager issues.

    JavaScript strings are modelled as [string]: a character stands for one
    code unit (restricted to the range 0..255), so [String.length] is the
    [.length] of the source. *)

From Stdlib Require Import String Ascii List Bool Arith ZArith Lia DecimalString.
From stdpp Require Import gmap strings.
Import ListNotations.

Local Open Scope Z_scope.
Local Open Scope nat_scope.

(** ** The string and array methods the source calls *)

Module JS.

(** [s.startsWith(searchString)] *)
Fixpoint startsWith (s searchString : string) {struct searchString} : bool :=
  match searchString with
  | EmptyString => true
  | String c p =>
      match s with
      | EmptyString => false
      | String d s' => Ascii.eqb d c && startsWith s' p
      end
  end.

Fixpoint take (n : nat) (s : string) : string :=
  match n, s with
  | S n', String c s' => String c (take n' s')
  | _, _ => EmptyString
  end.

Fixpoint drop (n : nat) (s : string) : string :=
  match n, s with
  | S n', String _ s' => drop n' s'
  | _, _ => s
  end.

(** A relative index of [slice]: negative counts from the end, and the
    result is clamped to [0 .. len]. *)
Definition relativeIndex (len i : Z) : Z :=
  if (i <? 0)%Z then Z.max (len + i) 0 else Z.min i len.

(** [s.slice(start, end)]; [end_ = None] is an omitted second argument. *)
Definition slice (s : string) (start : Z) (end_ : option Z) : string :=
  let len := Z.of_nat (String.length s) in
  let from := relativeIndex len start in
  let to := match end_ with
            | None => len
            | Some e => relativeIndex len e
            end in
  take (Z.to_nat (Z.max (to - from) 0)) (drop (Z.to_nat from) s).

(** [s.endsWith(searchString)] *)
Definition endsWith (s searchString : string) : bool :=
  (String.length searchString <=? String.length s) &&
  String.eqb (drop (String.length s - String.length searchString) s)
             searchString.

(** White space and line terminators among the code units 0..255:
    TAB, LF, VT, FF, CR, SP and NBSP. *)
Definition isWhiteSpace (c : ascii) : bool :=
  let n := nat_of_ascii c in
  ((9 <=? n) && (n <=? 13)) || (n =? 32) || (n =? 160).

Fixpoint trimStart (s : string) : string :=
  match s with
  | EmptyString => EmptyString
  | String c s' => if isWhiteSpace c then trimStart s' else s
  end.

Fixpoint trimEnd (s : string) : string :=
  match s with
  | EmptyString => EmptyString
  | String c s' =>
      match trimEnd s' with
      | EmptyString => if isWhiteSpace c then EmptyString
                       else String c EmptyString
      | t => String c t
      end
  end.

(** [s.trim()] *)
Definition trim (s : string) : string := trimEnd (trimStart s).

(** [s.split(sep)] for a separator of one character (the source splits on
    newline, on the vertical bar and on the underscore). *)
Fixpoint split (sep : ascii) (s : string) : list string :=
  match s with
  | EmptyString => [EmptyString]
  | String c s' =>
      if Ascii.eqb c sep then EmptyString :: split sep s'
      else match split sep s' with
           | x :: xs => String c x :: xs
           | [] => [String c EmptyString]
           end
  end.

(** [parts.join(sep)] *)
Fixpoint join (sep : string) (parts : list string) : string :=
  match parts with
  | [] => EmptyString
  | [x] => x
  | x :: xs => x +:+ sep +:+ join sep xs
  end.

(** [array.includes(x)] on an array of strings *)
Definition includes (array : list string) (x : string) : bool :=
  existsb (String.eqb x) array.

(** [array.slice(start)] for [0 <= start] *)
Definition arraySlice {A : Type} (array : list A) (start : nat) : list A :=
  skipn start array.

(** The expansion of the dollar patterns of a replacement text when the
    pattern is a string (there are no capture groups, so a dollar followed
    by a digit stays as it is). *)
Fixpoint getSubstitution (matched before after replacement : string)
    {struct replacement} : string :=
  match replacement with
  | EmptyString => EmptyString
  | String c r =>
      if Ascii.eqb c "$" then
        match r with
        | EmptyString => String c EmptyString
        | String d r' =>
            if Ascii.eqb d "$" then
              String "$" (getSubstitution matched before after r')
            else if Ascii.eqb d "&" then
              matched +:+ getSubstitution matched before after r'
            else if Ascii.eqb d "`" then
              before +:+ getSubstitution matched before after r'
            else if Ascii.eqb d "'" then
              after +:+ getSubstitution matched before after r'
            else String c (getSubstitution matched before after r)
        end
      else String c (getSubstitution matched before after r)
  end.

Fixpoint replaceFrom (before s pattern replacement : string)
    {struct s} : string :=
  if startsWith s pattern then
    let after := drop (String.length pattern) s in
    before +:+ getSubstitution pattern before after replacement +:+ after
  else
    match s with
    | EmptyString => before
    | String c s' =>
        replaceFrom (before +:+ String c EmptyString) s' pattern replacement
    end.

(** [s.replace(pattern, replacement)] with a string pattern: the first
    occurrence only. *)
Definition replace (s pattern replacement : string) : string :=
  replaceFrom EmptyString s pattern replacement.

(** [s.replace(/c/g, replacement)] for a one-character pattern and a
    replacement text without dollar patterns. *)
Fixpoint replaceAllChar (c : ascii) (replacement : string) (s : string)
    : string :=
  match s with
  | EmptyString => EmptyString
  | String d s' =>
      if Ascii.eqb d c then replacement +:+ replaceAllChar c replacement s'
      else String d (replaceAllChar c replacement s')
  end.

(** Truthiness of a string: only the empty string is falsy. *)
Definition truthy (s : string) : bool :=
  match s with
  | EmptyString => false
  | String _ _ => true
  end.

(** [x || fallback] where [x] is a string or [undefined]/[null]. *)
Definition orElse (x : option string) (fallback : string) : string :=
  match x with
  | Some s => if truthy s then s else fallback
  | None => fallback
  end.

End JS.

(** Characters the source writes with an escape. *)
Definition LF : ascii := ascii_of_nat 10.
Definition newline : string := String LF EmptyString.
Definition dquote : string := String (ascii_of_nat 34) EmptyString.
Definition backslash : string := String (ascii_of_nat 92) EmptyString.

(** ** The Node.js environment and the effects of the manager *)

(** What a call returns, or the message of the [Error] it throws. *)
Inductive outcome (A : Type) : Type :=
| Returned (value : A)
| Thrown (message : string).
Arguments Returned {A} value.
Arguments Thrown {A} message.

(** The fields of the object [spawnSync] returns that the source reads. *)
Record SpawnResult : Type := mkSpawnResult {
  status : option Z;        (* the exit code, or [null] *)
  stderr : option string    (* the error stream, when present *)
}.

(** The calls through which the manager reaches the outside: a command line
    given to the shell ([execSync]), a program with its argument vector, no
    shell involved ([spawnSync]), and a timer the caller awaits. *)
Inductive HostCall : Type :=
| ExecSync (command : string)
| SpawnSync (file : string) (args : list string)
| SetTimeout (ms : Z).

(** The modules the source imports: [child_process], [fs], [os], [path].
    [World] is whatever the outside consists of (the tmux server, the file
    system); [resolve] is [path.resolve] in the working directory of the
    process. *)
Class Node : Type := {
  World : Type;
  execSync : string -> World -> outcome string * World;
  spawnSync : string -> list string -> World -> SpawnResult * World;
  existsSync : string -> World -> bool;
  homedir : string;
  resolve : string -> string
}.

(** A date object, kept as the expression that builds it. *)
Inductive Date : Type :=
| DateNow                               (* [new Date()] *)
| DateOfSeconds (created : string).     (* [new Date(parseInt(created) * 1000)] *)

(** A number written in a template literal (integers only). *)
Definition numberToString (n : Z) : string :=
  NilZero.string_of_int (Z.to_int n).

Section Effects.
Context `{Node}.

(** The state a call can read and change: the outside, the record of host
    calls issued so far (oldest first), the module variable [allowedPaths]
    and the fields [self] of the manager object. *)
Record State (Self : Type) : Type := mkState {
    world : World;
    calls : list HostCall;
    allowedPaths : list string;
    self : Self
  }.
Arguments mkState {Self} _ _ _ _.
Arguments world {Self} _.
Arguments calls {Self} _.
Arguments allowedPaths {Self} _.
Arguments self {Self} _.

Definition M (Self A : Type) : Type := State Self -> outcome A * State Self.

Definition ret {Self A} (a : A) : M Self A := fun st => (Returned a, st).

Definition throw {Self A} (message : string) : M Self A :=
  fun st => (Thrown message, st).

Definition bind {Self A B} (m : M Self A) (k : A -> M Self B) : M Self B :=
  fun st =>
    match m st with
    | (Returned a, st') => k a st'
    | (Thrown message, st') => (Thrown message, st')
    end.

(** [try { m } catch (error) { handler(error.message) }] *)
Definition tryCatch {Self A} (m : M Self A) (handler : string -> M Self A)
    : M Self A :=
  fun st =>
    match m st with
    | (Returned a, st') => (Returned a, st')
    | (Thrown message, st') => handler message st'
    end.

Definition gets {Self A} (f : State Self -> A) : M Self A :=
  fun st => (Returned (f st), st).

Definition modifySelf {Self} (f : Self -> Self) : M Self unit :=
  fun st => (Returned tt,
             mkState (world st) (calls st) (allowedPaths st) (f (self st))).

Definition callExecSync {Self} (command : string) : M Self string :=
  fun st =>
    let (r, w) := execSync command (world st) in
    (r, mkState w (calls st ++ [ExecSync command]) (allowedPaths st) (self st)).

Definition callSpawnSync {Self} (file : string) (args : list string)
    : M Self SpawnResult :=
  fun st =>
    let (r, w) := spawnSync file args (world st) in
    (Returned r,
     mkState w (calls st ++ [SpawnSync file args]) (allowedPaths st) (self st)).

(** [await new Promise(resolve => setTimeout(resolve, ms))] *)
Definition awaitTimeout {Self} (ms : Z) : M Self unit :=
  fun st =>
    (Returned tt,
     mkState (world st) (calls st ++ [SetTimeout ms]) (allowedPaths st) (self st)).

End Effects.

Arguments mkState {_ Self} _ _ _ _.
Arguments world {_ Self} _.
Arguments calls {_ Self} _.
Arguments allowedPaths {_ Self} _.
Arguments self {_ Self} _.

Notation "x <- m ;; k" := (bind m (fun x => k))
  (at level 90, m at next level, right associativity).
Notation "m ;;; k" := (bind m (fun _ => k))
  (at level 90, right associativity).

(** ** What the two session manager files share word for word *)

Section PathGuard.
Context `{Node}.

(** [dir.startsWith('~') ? dir.replace('~', homedir()) : dir] *)
Definition expandHome (dir : string) : string :=
  if JS.startsWith dir "~" then JS.replace dir "~" homedir else dir.

(** [setAllowedPaths(paths)]: the value the module variable
    [allowedPaths] is set to. *)
Definition setAllowedPaths (paths : list string) : list string :=
  map (fun p => resolve (expandHome p)) paths.

(** [isPathAllowed(targetPath)], the module variable being passed in. *)
Definition isPathAllowed (allowedPaths : list string) (targetPath : string)
    : bool :=
  if List.length allowedPaths =? 0 then true
  else
    let resolved := resolve targetPath in
    existsb (fun allowed =>
               JS.startsWith resolved (allowed +:+ "/")
               || String.eqb resolved allowed)
            allowedPaths.

End PathGuard.

Section OutputDiffer.

(** The loop of [getNewOutput] that walks the new lines: [newLines] is what
    is left from index [i] on. *)
Fixpoint walkLines (lastLines newLines : list string) (i diffStart : nat)
    : nat :=
  match newLines with
  | [] => diffStart
  | line :: rest =>
      if JS.includes lastLines line
      then walkLines lastLines rest (S i) (S i)
      else diffStart
  end.

(** [getNewOutput] from the point where [output] has been captured and
    [last] has been read from the cache. *)
Definition newOutput (last output : string) : option string :=
  if negb (JS.truthy last) || String.eqb output last then None
  else if (String.length last <? String.length output)
          && JS.endsWith output (JS.slice last (-500) None)
  then Some (JS.slice output 0
               (Some (Z.of_nat (String.length output)
                      - Z.of_nat (String.length last))%Z))
  else
    let lastLines := JS.split LF (JS.trim last) in
    let newLines := JS.split LF (JS.trim output) in
    let diffStart := walkLines lastLines newLines 0 0 in
    let newContent :=
      JS.trim (JS.join newline (JS.arraySlice newLines diffStart)) in
    if JS.truthy newContent then Some newContent else None.

End OutputDiffer.

(** The command line of [listSessions] *)
Definition LIST_COMMAND : string :=
  "tmux list-sessions -F " +:+ dquote
  +:+ "#{session_name}|#{session_created}|#{pane_current_path}"
  +:+ dquote +:+ " 2>/dev/null".

(** [created ? new Date(parseInt(created) * 1000) : null] *)
Definition dateOfCreated (created : option string) : option Date :=
  match created with
  | Some c => if JS.truthy c then Some (DateOfSeconds c) else None
  | None => None
  end.

(** [result.status !== 0] *)
Definition statusNotZero (result : SpawnResult) : bool :=
  match status result with
  | Some 0%Z => false
  | _ => true
  end.

(** [text.replace(/'/g, "'\\''")] *)
Definition escapeQuotes (text : string) : string :=
  JS.replaceAllChar "'" ("'" +:+ backslash +:+ "''") text.

(** ** The session manager that keeps the channel registry
       (sessions named [claude-{id}]) *)

Module ClaudeManager.

Definition SESSION_PREFIX : string := "claude-".

Record SessionInfo : Type := mkSessionInfo {
    id : string;
    tmuxName : string;
    directory : string;
    channelId : option string;
    attachCommand : string;
    createdAt : option Date
  }.

(** The private fields of [class SessionManager]. *)
Record SessionManager : Type := mkManager {
    channelMap : gmap string string;     (* session ID -> channel ID *)
    reverseMap : gmap string string;     (* channel ID -> session ID *)
    lastOutput : gmap string string
  }.

Definition fresh : SessionManager := mkManager ∅ ∅ ∅.

Section Methods.
Context `{Node}.

Definition getTmuxName (sessionId : string) : string :=
  SESSION_PREFIX +:+ sessionId.

Definition sessionExists (sessionId : string) : M SessionManager bool :=
  let tmuxName := getTmuxName sessionId in
  tryCatch
    (callExecSync ("tmux has-session -t " +:+ dquote +:+ tmuxName
                   +:+ dquote +:+ " 2>/dev/null") ;;;
     ret true)
    (fun _ => ret false).

Definition createSession (sessionId directory channelId : string)
    : M SessionManager SessionInfo :=
  let tmuxName := getTmuxName sessionId in
  let expandedDir := expandHome directory in
  let resolvedDir := resolve expandedDir in
  allowed <- gets (fun st => isPathAllowed (allowedPaths st) resolvedDir) ;;
  if negb allowed
  then throw ("Directory not in allowed paths: " +:+ resolvedDir)
  else
  present <- gets (fun st => existsSync resolvedDir (world st)) ;;
  if negb present
  then throw ("Directory does not exist: " +:+ resolvedDir)
  else
  running <- sessionExists sessionId ;;
  if running
  then throw ("Session " +:+ dquote +:+ sessionId +:+ dquote
              +:+ " already exists")
  else
  tryCatch
    (result <- callSpawnSync "tmux"
                 ["new-session"; "-d";
                  "-x"; "200"; "-y"; "50";
                  "-s"; tmuxName;
                  "-c"; resolvedDir;
                  "claude"; "--dangerously-skip-permissions"] ;;
     if statusNotZero result
     then throw (JS.orElse (stderr result) "tmux command failed")
     else
     modifySelf (fun m =>
       mkManager (<[sessionId := channelId]> (channelMap m))
                 (<[channelId := sessionId]> (reverseMap m))
                 (lastOutput m)) ;;;
     ret {| id := sessionId;
            directory := resolvedDir;
            tmuxName := tmuxName;
            channelId := Some channelId;
            attachCommand := "tmux attach -t " +:+ tmuxName;
            createdAt := Some DateNow |})
    (fun message => throw ("Failed to create session: " +:+ message)).

Definition linkChannel (sessionId channelId : string)
    : M SessionManager unit :=
  modifySelf (fun m =>
    mkManager (<[sessionId := channelId]> (channelMap m))
              (<[channelId := sessionId]> (reverseMap m))
              (lastOutput m)).

Definition getSessionByChannel (channelId : string)
    : M SessionManager (option string) :=
  gets (fun st => reverseMap (self st) !! channelId).

Definition getChannelBySession (sessionId : string)
    : M SessionManager (option string) :=
  gets (fun st => channelMap (self st) !! sessionId).

(** The callback of [.map] in [listSessions]. *)
Definition sessionOfLine (m : SessionManager) (line : string)
    : SessionInfo :=
  let parts := JS.split "|" line in
  let name := List.hd EmptyString parts in
  let created := nth_error parts 1 in
  let path := nth_error parts 2 in
  let id := JS.replace name SESSION_PREFIX EmptyString in
  {| id := id;
     tmuxName := name;
     directory := JS.orElse path "unknown";
     channelId := channelMap m !! id;
     createdAt := dateOfCreated created;
     attachCommand := "tmux attach -t " +:+ name |}.

Definition listSessions : M SessionManager (list SessionInfo) :=
  tryCatch
    (output <- callExecSync LIST_COMMAND ;;
     m <- gets self ;;
     ret (map (sessionOfLine m)
            (List.filter (fun line => JS.startsWith line SESSION_PREFIX)
               (JS.split LF (JS.trim output)))))
    (fun _ => ret []).

Definition sendToSession (sessionId text : string)
    : M SessionManager bool :=
  let tmuxName := getTmuxName sessionId in
  running <- sessionExists sessionId ;;
  if negb running
  then throw ("Session " +:+ dquote +:+ sessionId +:+ dquote
              +:+ " does not exist")
  else
  tryCatch
    (let escapedText := escapeQuotes text in
     callExecSync ("tmux send-keys -t " +:+ dquote +:+ tmuxName +:+ dquote
                   +:+ " -l '" +:+ escapedText +:+ "'") ;;;
     callExecSync ("tmux send-keys -t " +:+ dquote +:+ tmuxName +:+ dquote
                   +:+ " Enter") ;;;
     ret true)
    (fun message => throw ("Failed to send to session: " +:+ message)).

Definition captureOutput (sessionId : string) (lines : Z)
    : M SessionManager string :=
  let tmuxName := getTmuxName sessionId in
  running <- sessionExists sessionId ;;
  if negb running
  then throw ("Session " +:+ dquote +:+ sessionId +:+ dquote
              +:+ " does not exist")
  else
  tryCatch
    (output <- callExecSync
                 ("tmux capture-pane -t " +:+ dquote +:+ tmuxName
                  +:+ dquote +:+ " -p -e -S -" +:+ numberToString lines
                  +:+ " -E ''") ;;
     ret output)
    (fun message => throw ("Failed to capture output: " +:+ message)).

Definition getNewOutput (sessionId : string) (lines : Z)
    : M SessionManager (option string) :=
  output <- captureOutput sessionId lines ;;
  last <- gets (fun st =>
            JS.orElse (lastOutput (self st) !! sessionId) EmptyString) ;;
  modifySelf (fun m =>
    mkManager (channelMap m) (reverseMap m)
              (<[sessionId := output]> (lastOutput m))) ;;;
  ret (newOutput last output).

(** The clean-up of [killSession] after the host call. *)
Definition cleanUp (sessionId : string) (m : SessionManager)
    : SessionManager :=
  let channelId := channelMap m !! sessionId in
  let reverseMap' :=
    match channelId with
    | Some c => if JS.truthy c then delete c (reverseMap m)
                else reverseMap m
    | None => reverseMap m
    end in
  mkManager (delete sessionId (channelMap m))
            reverseMap'
            (delete sessionId (lastOutput m)).

Definition killSession (sessionId : string) : M SessionManager bool :=
  let tmuxName := getTmuxName sessionId in
  running <- sessionExists sessionId ;;
  if negb running
  then throw ("Session " +:+ dquote +:+ sessionId +:+ dquote
              +:+ " does not exist")
  else
  tryCatch
    (callExecSync ("tmux kill-session -t " +:+ dquote +:+ tmuxName
                   +:+ dquote) ;;;
     modifySelf (cleanUp sessionId) ;;;
     ret true)
    (fun message => throw ("Failed to kill session: " +:+ message)).

Definition getSession (sessionId : string)
    : M SessionManager (option SessionInfo) :=
  let tmuxName := getTmuxName sessionId in
  running <- sessionExists sessionId ;;
  if negb running then ret None
  else
  tryCatch
    (output <- callExecSync
                 ("tmux list-sessions -F " +:+ dquote
                  +:+ "#{session_name}|#{session_created}|#{pane_current_path}"
                  +:+ dquote +:+ " -f " +:+ dquote
                  +:+ "#{==:#{session_name}," +:+ tmuxName +:+ "}"
                  +:+ dquote +:+ " 2>/dev/null") ;;
     let line := JS.trim output in
     if negb (JS.truthy line) then ret None
     else
     let parts := JS.split "|" line in
     let name := List.hd EmptyString parts in
     let created := nth_error parts 1 in
     let path := nth_error parts 2 in
     m <- gets self ;;
     ret (Some {| id := sessionId;
                  tmuxName := name;
                  directory := JS.orElse path "unknown";
                  channelId := channelMap m !! sessionId;
                  createdAt := dateOfCreated created;
                  attachCommand := "tmux attach -t " +:+ name |}))
    (fun _ => ret None).

Definition unlinkChannel (channelId : string) : M SessionManager unit :=
  modifySelf (fun m =>
    match reverseMap m !! channelId with
    | Some sessionId =>
        if JS.truthy sessionId
        then mkManager (delete sessionId (channelMap m))
                       (delete channelId (reverseMap m))
                       (lastOutput m)
        else m
    | None => m
    end).

Definition checkTmux : M SessionManager bool :=
  tryCatch (callExecSync "which tmux" ;;; ret true) (fun _ => ret false).

Definition sendEscape (sessionId : string) : M SessionManager bool :=
  let tmuxName := getTmuxName sessionId in
  running <- sessionExists sessionId ;;
  if negb running
  then throw ("Session " +:+ dquote +:+ sessionId +:+ dquote
              +:+ " does not exist")
  else
  tryCatch
    (callExecSync ("tmux send-keys -t " +:+ dquote +:+ tmuxName +:+ dquote
                   +:+ " Escape") ;;;
     ret true)
    (fun message => throw ("Failed to send escape: " +:+ message)).

End Methods.

End ClaudeManager.

(** ** The session manager of [src/sessionManager.ts]
       (sessions named [disco_{guildId}_{channelId}]) *)

Module DiscoManager.

Definition SESSION_PREFIX : string := "disco_".

Record SessionInfo : Type := mkSessionInfo {
    id : string;
    tmuxName : string;
    directory : string;
    guildId : string;
    channelId : string;
    attachCommand : string;
    createdAt : option Date
  }.

(** The object [parseSessionId] returns. *)
Record ParsedId : Type := mkParsedId {
    parsedGuildId : string;
    parsedChannelId : string
  }.

Definition makeSessionId (guildId channelId : string) : string :=
  guildId +:+ "_" +:+ channelId.

Definition parseSessionId (sessionId : string) : option ParsedId :=
  let parts := JS.split "_" sessionId in
  if negb (List.length parts =? 2) then None
  else Some (mkParsedId (nth 0 parts EmptyString) (nth 1 parts EmptyString)).

(** The private field of [class SessionManager]. *)
Record SessionManager : Type := mkManager {
    lastOutput : gmap string string
  }.

Definition fresh : SessionManager := mkManager ∅.

Definition getTmuxName (sessionId : string) : string :=
  SESSION_PREFIX +:+ sessionId.

Definition getSessionIdFromTmuxName (tmuxName : string) : option string :=
  if negb (JS.startsWith tmuxName SESSION_PREFIX) then None
  else Some (JS.slice tmuxName
               (Z.of_nat (String.length SESSION_PREFIX)) None).

(** The callback of [.map] in [listSessions]. *)
Definition sessionOfLine (line : string) : SessionInfo :=
  let parts := JS.split "|" line in
  let name := List.hd EmptyString parts in
  let created := nth_error parts 1 in
  let path := nth_error parts 2 in
  let sessionId := getSessionIdFromTmuxName name in
  let parsed :=
    match sessionId with
    | Some s => if JS.truthy s then parseSessionId s else None
    | None => None
    end in
  {| id := JS.orElse sessionId name;
     tmuxName := name;
     directory := JS.orElse path "unknown";
     guildId := JS.orElse (option_map parsedGuildId parsed) EmptyString;
     channelId := JS.orElse (option_map parsedChannelId parsed) EmptyString;
     createdAt := dateOfCreated created;
     attachCommand := "tmux attach -t " +:+ name |}.

Section Methods.
Context `{Node}.

Definition sessionExists (sessionId : string) : M SessionManager bool :=
  let tmuxName := getTmuxName sessionId in
  tryCatch
    (callExecSync ("tmux has-session -t " +:+ dquote +:+ tmuxName
                   +:+ dquote +:+ " 2>/dev/null") ;;;
     ret true)
    (fun _ => ret false).

Definition createSession (guildId channelId directory : string)
    : M SessionManager SessionInfo :=
  let sessionId := makeSessionId guildId channelId in
  let tmuxName := getTmuxName sessionId in
  let expandedDir := expandHome directory in
  let resolvedDir := resolve expandedDir in
  allowed <- gets (fun st => isPathAllowed (allowedPaths st) resolvedDir) ;;
  if negb allowed
  then throw ("Directory not in allowed paths: " +:+ resolvedDir)
  else
  present <- gets (fun st => existsSync resolvedDir (world st)) ;;
  if negb present
  then throw ("Directory does not exist: " +:+ resolvedDir)
  else
  running <- sessionExists sessionId ;;
  if running
  then throw "Session for this channel already exists"
  else
  tryCatch
    (result <- callSpawnSync "tmux"
                 ["new-session"; "-d";
                  "-x"; "200"; "-y"; "50";
                  "-s"; tmuxName;
                  "-c"; resolvedDir;
                  "claude"; "--dangerously-skip-permissions"] ;;
     if statusNotZero result
     then throw (JS.orElse (stderr result) "tmux command failed")
     else
     ret {| id := sessionId;
            directory := resolvedDir;
            tmuxName := tmuxName;
            guildId := guildId;
            channelId := channelId;
            attachCommand := "tmux attach -t " +:+ tmuxName;
            createdAt := Some DateNow |})
    (fun message => throw ("Failed to create session: " +:+ message)).

Definition listSessions : M SessionManager (list SessionInfo) :=
  tryCatch
    (output <- callExecSync LIST_COMMAND ;;
     ret (map sessionOfLine
            (List.filter (fun line => JS.startsWith line SESSION_PREFIX)
               (JS.split LF (JS.trim output)))))
    (fun _ => ret []).

Definition sendToSession (sessionId text : string)
    : M SessionManager bool :=
  let tmuxName := getTmuxName sessionId in
  running <- sessionExists sessionId ;;
  if negb running
  then throw "Session does not exist"
  else
  tryCatch
    (let escapedText := escapeQuotes text in
     callExecSync ("tmux send-keys -t " +:+ dquote +:+ tmuxName +:+ dquote
                   +:+ " -l '" +:+ escapedText +:+ "'") ;;;
     awaitTimeout 1500 ;;;
     callExecSync ("tmux send-keys -t " +:+ dquote +:+ tmuxName +:+ dquote
                   +:+ " Enter") ;;;
     ret true)
    (fun message => throw ("Failed to send to session: " +:+ message)).

Definition captureOutput (sessionId : string) (lines : Z)
    : M SessionManager string :=
  let tmuxName := getTmuxName sessionId in
  running <- sessionExists sessionId ;;
  if negb running
  then throw "Session does not exist"
  else
  tryCatch
    (output <- callExecSync
                 ("tmux capture-pane -t " +:+ dquote +:+ tmuxName
                  +:+ dquote +:+ " -p -e -S -" +:+ numberToString lines
                  +:+ " -E ''") ;;
     ret output)
    (fun message => throw ("Failed to capture output: " +:+ message)).

Definition getNewOutput (sessionId : string) (lines : Z)
    : M SessionManager (option string) :=
  output <- captureOutput sessionId lines ;;
  last <- gets (fun st =>
            JS.orElse (lastOutput (self st) !! sessionId) EmptyString) ;;
  modifySelf (fun m => mkManager (<[sessionId := output]> (lastOutput m))) ;;;
  ret (newOutput last output).

Definition killSession (sessionId : string) : M SessionManager bool :=
  let tmuxName := getTmuxName sessionId in
  running <- sessionExists sessionId ;;
  if negb running
  then throw "Session does not exist"
  else
  tryCatch
    (callExecSync ("tmux kill-session -t " +:+ dquote +:+ tmuxName
                   +:+ dquote) ;;;
     modifySelf (fun m => mkManager (delete sessionId (lastOutput m))) ;;;
     ret true)
    (fun message => throw ("Failed to kill session: " +:+ message)).

Definition getSession (sessionId : string)
    : M SessionManager (option SessionInfo) :=
  let tmuxName := getTmuxName sessionId in
  running <- sessionExists sessionId ;;
  if negb running then ret None
  else
  tryCatch
    (output <- callExecSync
                 ("tmux list-sessions -F " +:+ dquote
                  +:+ "#{session_name}|#{session_created}|#{pane_current_path}"
                  +:+ dquote +:+ " -f " +:+ dquote
                  +:+ "#{==:#{session_name}," +:+ tmuxName +:+ "}"
                  +:+ dquote +:+ " 2>/dev/null") ;;
     let line := JS.trim output in
     if negb (JS.truthy line) then ret None
     else
     let parts := JS.split "|" line in
     let name := List.hd EmptyString parts in
     let created := nth_error parts 1 in
     let path := nth_error parts 2 in
     let parsed := parseSessionId sessionId in
     ret (Some {| id := sessionId;
                  tmuxName := name;
                  directory := JS.orElse path "unknown";
                  guildId :=
                    JS.orElse (option_map parsedGuildId parsed) EmptyString;
                  channelId :=
                    JS.orElse (option_map parsedChannelId parsed) EmptyString;
                  createdAt := dateOfCreated created;
                  attachCommand := "tmux attach -t " +:+ name |}))
    (fun _ => ret None).

Definition checkTmux : M SessionManager bool :=
  tryCatch (callExecSync "which tmux" ;;; ret true) (fun _ => ret false).

Definition sessionExistsForChannel (guildId channelId : string)
    : M SessionManager bool :=
  sessionExists (makeSessionId guildId channelId).

Definition getSessionIdForChannel (guildId channelId : string)
    : M SessionManager (option string) :=
  let sessionId := makeSessionId guildId channelId in
  running <- sessionExists sessionId ;;
  ret (if running then Some sessionId else None).

Definition sendEscape (sessionId : string) : M SessionManager bool :=
  let tmuxName := getTmuxName sessionId in
  running <- sessionExists sessionId ;;
  if negb running
  then throw "Session does not exist"
  else
  tryCatch
    (callExecSync ("tmux send-keys -t " +:+ dquote +:+ tmuxName +:+ dquote
                   +:+ " Escape") ;;;
     ret true)
    (fun message => throw ("Failed to send escape: " +:+ message)).

Definition getSessionForChannel (guildId channelId : string)
    : M SessionManager (option SessionInfo) :=
  let sessionId := makeSessionId guildId channelId in
  getSession sessionId.

End Methods.

End DiscoManager.

(** ** A host that replays scripted replies

    The same device as the mocks of [test/sessionManager.test.ts]: each
    [execSync] call takes the next scripted reply (and throws once the
    script is used up), [spawnSync] answers with one fixed result and
    [existsSync] looks the path up in a fixed list.  [path.resolve] is the
    POSIX one for a single argument, with [/srv/bot] as working directory. *)

Module Scripted.

(** [path.resolve(p)] on POSIX with working directory [cwd]: the path is
    made absolute, then [.] and empty segments are dropped and [..] pops a
    segment (never above the root). *)
Fixpoint normalizeSegments (segments kept : list string) : list string :=
  match segments with
  | [] => rev kept
  | seg :: rest =>
      if String.eqb seg EmptyString || String.eqb seg "."
      then normalizeSegments rest kept
      else if String.eqb seg ".."
      then normalizeSegments rest (tl kept)
      else normalizeSegments rest (seg :: kept)
  end.

Definition posixResolve (cwd p : string) : string :=
  let full := if JS.startsWith p "/" then p else cwd +:+ "/" +:+ p in
  "/" +:+ JS.join "/" (normalizeSegments (JS.split "/" full) []).

Record Script : Type := mkScript {
    replies : list (outcome string);
    spawnReply : SpawnResult;
    directories : list string
  }.

Definition scriptedExecSync (command : string) (w : Script)
    : outcome string * Script :=
  match replies w with
  | r :: rest => (r, mkScript rest (spawnReply w) (directories w))
  | [] => (Thrown "Command failed", w)
  end.

#[export] Instance node : Node := {|
    World := Script;
    execSync := scriptedExecSync;
    spawnSync := fun _ _ w => (spawnReply w, w);
    existsSync := fun p w => existsb (String.eqb p) (directories w);
    homedir := "/home/user";
    resolve := posixResolve "/srv/bot"
  |}.

Definition spawnOk : SpawnResult := mkSpawnResult (Some 0%Z) None.

(** The state of a manager [m] in front of a script. *)
Definition start {Self : Type} (m : Self) (allowed : list string)
    (w : Script) : State Self :=
  mkState w [] allowed m.

End Scripted.

(** ** The session workspace of [src/sessionManager.ts] *)

Module Workspace.

(** What the workspace code does to the outside, in order. *)
Inductive FsEvent : Type :=
| Mkdir (path : string)                    (* [mkdirSync(path, { recursive: true })] *)
| WriteFile (path data : string)           (* [writeFileSync(path, data, 'utf-8')] *)
| ConsoleLog (text : string)
| ConsoleError (text detail : string).

(** The rest of [fs] and [path] the workspace code calls; [moduleDirname]
    is the directory of the module file ([__dirname]). *)
Class Files `{Node} : Type := {
  mkdirSync : string -> World -> outcome unit * World;
  writeFileSync : string -> string -> World -> outcome unit * World;
  readFileSync : string -> World -> outcome string;
  join : list string -> string;
  moduleDirname : string
}.

(** The remainder of [s] after the first occurrence of [pattern]. *)
Fixpoint afterFirst (pattern s : string) {struct s} : option string :=
  if JS.startsWith s pattern then Some (JS.drop (String.length pattern) s)
  else
    match s with
    | EmptyString => None
    | String _ s' => afterFirst pattern s'
    end.

(** [s.replace(/<!--[\s\S]*?-->/g, '')]: at each comment opener that has a
    closer after it, the text up to the first such closer goes; an opener
    with no closer after it ends the matching.  Every step uses up at least
    one character of [s], which [fuel] counts. *)
Fixpoint stripCommentsFuel (fuel : nat) (s : string) : string :=
  match fuel with
  | 0 => s
  | S fuel' =>
      if JS.startsWith s "<!--" then
        match afterFirst "-->" (JS.drop 4 s) with
        | Some rest => stripCommentsFuel fuel' rest
        | None => s
        end
      else
        match s with
        | EmptyString => EmptyString
        | String c s' => String c (stripCommentsFuel fuel' s')
        end
  end.

Definition stripComments (s : string) : string :=
  stripCommentsFuel (S (String.length s)) s.

(** [s.replace(/\n{3,}/g, '\n\n')]: of a run of newlines only the first two
    stay; [run] is the number of newlines just before [s]. *)
Fixpoint collapseNewlinesFrom (run : nat) (s : string) : string :=
  match s with
  | EmptyString => EmptyString
  | String c s' =>
      if Ascii.eqb c LF then
        if 2 <=? run then collapseNewlinesFrom (S run) s'
        else String c (collapseNewlinesFrom (S run) s')
      else String c (collapseNewlinesFrom 0 s')
  end.

Definition collapseNewlines (s : string) : string := collapseNewlinesFrom 0 s.

Definition FALLBACK_TEMPLATE : string :=
  "# Discord Bot Session" +:+ newline +:+ newline
  +:+ "Your output is being relayed to Discord.".

Section Functions.
Context `{Files}.

Definition TEMPLATE_PATH : string :=
  join [moduleDirname; ".."; "config"; "session-claude.md"].

(** The journal of events is the [self] of the state here. *)
Definition emit (e : FsEvent) : M (list FsEvent) unit :=
  modifySelf (fun journal => journal ++ [e]).

Definition callMkdirSync (path : string) : M (list FsEvent) unit :=
  fun st =>
    let (r, w) := mkdirSync path (world st) in
    (r, mkState w (calls st) (allowedPaths st) (self st ++ [Mkdir path])).

Definition callWriteFileSync (path data : string) : M (list FsEvent) unit :=
  fun st =>
    let (r, w) := writeFileSync path data (world st) in
    (r, mkState w (calls st) (allowedPaths st)
          (self st ++ [WriteFile path data])).

Definition callReadFileSync (path : string) : M (list FsEvent) string :=
  fun st => (readFileSync path (world st), st).

Definition callExistsSync (path : string) : M (list FsEvent) bool :=
  gets (fun st => existsSync path (world st)).

Definition getSessionTemplate : M (list FsEvent) string :=
  tryCatch
    (template <- callReadFileSync TEMPLATE_PATH ;;
     ret (JS.trim (collapseNewlines (stripComments template))))
    (fun err =>
       emit (ConsoleError "Failed to read session template:" err) ;;;
       ret FALLBACK_TEMPLATE).

Definition ensureSessionWorkspace (dir : string) : M (list FsEvent) unit :=
  let expandedDir := expandHome dir in
  let resolvedDir := resolve expandedDir in
  present <- callExistsSync resolvedDir ;;
  (if negb present
   then callMkdirSync resolvedDir ;;;
        emit (ConsoleLog ("Created session directory: " +:+ resolvedDir))
   else ret tt) ;;;
  let claudeDir := join [resolvedDir; ".claude"] in
  present <- callExistsSync claudeDir ;;
  (if negb present then callMkdirSync claudeDir else ret tt) ;;;
  let claudeMdPath := join [claudeDir; "CLAUDE.md"] in
  present <- callExistsSync claudeMdPath ;;
  if negb present
  then template <- getSessionTemplate ;;
       callWriteFileSync claudeMdPath template ;;;
       emit (ConsoleLog ("Created Discord formatting guide: " +:+ claudeMdPath))
  else ret tt.

End Functions.

End Workspace.

(** ** The configuration module (the file that reads the environment) *)

Module Config.

(** A number: [parseInt] gives an integer or [NaN]. *)
Inductive Number : Type :=
| NaN
| Int (value : Z).

Definition isDigit (c : ascii) : bool :=
  let n := nat_of_ascii c in (48 <=? n) && (n <=? 57).

Definition digitValue (c : ascii) : Z := Z.of_nat (nat_of_ascii c - 48).

(** The digits at the front of [s], read in base ten from [acc] on, and
    whether there was one. *)
Fixpoint readDigits (s : string) (acc : Z) (seen : bool) : Z * bool :=
  match s with
  | EmptyString => (acc, seen)
  | String c s' =>
      if isDigit c then readDigits s' (10 * acc + digitValue c)%Z true
      else (acc, seen)
  end.

(** [parseInt(s, 10)]: leading white space goes, a sign may follow, then
    the digits count up to the first character that is none.  (Integers are
    kept exactly, also beyond the range a double holds exactly.) *)
Definition parseInt10 (s : string) : Number :=
  let s := JS.trimStart s in
  let (negative, digits) :=
    match s with
    | String c rest =>
        if Ascii.eqb c "-" then (true, rest)
        else if Ascii.eqb c "+" then (false, rest)
        else (false, s)
    | EmptyString => (false, s)
    end in
  match readDigits digits 0 false with
  | (n, true) => Int (if negative then - n else n)%Z
  | (_, false) => NaN
  end.

Record Config : Type := mkConfig {
  token : string;
  clientId : string;
  guildId : option string;
  categoryName : string;
  defaultDirectory : string;
  allowedUsers : list string;
  allowAllUsers : bool;
  allowedPaths : list string;
  messageRetentionDays : option Number;
  rateLimitMs : Number
}.

Inductive ConsoleLine : Type :=
| Log (text : string)
| Warn (text : string)
| Error (text : string).

(** How loading the module ends: the process exits, or the configuration
    is exported; either way with what was written to the console. *)
Inductive Startup : Type :=
| Exited (code : Z) (console : list ConsoleLine)
| Loaded (config : Config) (console : list ConsoleLine).

(** [process.env.X?.split(',').map(s => s.trim()).filter(Boolean) || []] *)
Definition parseList (value : option string) : list string :=
  match value with
  | Some v => List.filter JS.truthy (map JS.trim (JS.split "," v))
  | None => []
  end.

(** Truthiness of an environment variable: set and not empty. *)
Definition envTruthy (value : option string) : bool :=
  match value with
  | Some v => JS.truthy v
  | None => false
  end.

(** Truthiness of [config.messageRetentionDays]. *)
Definition retentionTruthy (days : option Number) : bool :=
  match days with
  | Some (Int n) => negb (n =? 0)%Z
  | _ => false
  end.

Definition numberText (n : Number) : string :=
  match n with
  | NaN => "NaN"
  | Int z => numberToString z
  end.

(** The console lines of [getEnvOrExit] before it exits. *)
Definition missingVariable (name : string) : list ConsoleLine :=
  [Error ("ERROR: " +:+ name +:+ " environment variable is required");
   Error "Set it in your .env file or export it before running"].

(** The module body: [env] is [process.env] once dotenv has loaded, [cwd]
    is [process.cwd()]. *)
Definition loadConfig (env : string -> option string) (cwd : string)
    : Startup :=
  if negb (envTruthy (env "DISCORD_TOKEN"))
  then Exited 1 (missingVariable "DISCORD_TOKEN")
  else if negb (envTruthy (env "DISCORD_CLIENT_ID"))
  then Exited 1 (missingVariable "DISCORD_CLIENT_ID")
  else
    let config :=
      {| token := JS.orElse (env "DISCORD_TOKEN") EmptyString;
         clientId := JS.orElse (env "DISCORD_CLIENT_ID") EmptyString;
         guildId := if envTruthy (env "DISCORD_GUILD_ID")
                    then env "DISCORD_GUILD_ID" else None;
         categoryName := JS.orElse (env "CATEGORY_NAME") "Claude Sessions";
         defaultDirectory := JS.orElse (env "DEFAULT_DIRECTORY") cwd;
         allowedUsers := parseList (env "ALLOWED_USERS");
         allowAllUsers :=
           match env "ALLOW_ALL_USERS" with
           | Some v => String.eqb v "true"
           | None => false
           end;
         allowedPaths := parseList (env "ALLOWED_PATHS");
         messageRetentionDays :=
           match env "MESSAGE_RETENTION_DAYS" with
           | Some v => if JS.truthy v then Some (parseInt10 v) else None
           | None => None
           end;
         rateLimitMs :=
           match env "RATE_LIMIT_MS" with
           | Some v => if JS.truthy v then parseInt10 v else Int 1000
           | None => Int 1000
           end |} in
    let users :=
      if 0 <? List.length (allowedUsers config)
      then Some [Log ("User whitelist enabled: "
                      +:+ numberToString
                            (Z.of_nat (List.length (allowedUsers config)))
                      +:+ " user(s) allowed")]
      else if allowAllUsers config
      then Some [Warn "WARNING: ALLOW_ALL_USERS=true - anyone in the guild can use this bot"]
      else None in
    match users with
    | None =>
        Exited 1
          [Error "ERROR: Security misconfiguration - set ALLOWED_USERS or ALLOW_ALL_USERS=true"]
    | Some userLines =>
        let pathLines :=
          if 0 <? List.length (allowedPaths config)
          then [Log ("Path restrictions enabled: "
                     +:+ numberToString
                           (Z.of_nat (List.length (allowedPaths config)))
                     +:+ " path(s) allowed")]
          else [Warn "WARNING: No ALLOWED_PATHS set - sessions can access any directory"] in
        let retentionLines :=
          if retentionTruthy (messageRetentionDays config)
          then match messageRetentionDays config with
               | Some days => [Log ("Message retention: " +:+ numberText days
                                    +:+ " day(s)")]
               | None => []
               end
          else [] in
        Loaded config (userLines ++ pathLines ++ retentionLines)
    end.

End Config.

(** ** A scripted file system for the workspace code

    Directories and files are the paths of the script; making a directory
    or writing a file adds its path; reading the template gives a fixed
    text. *)

Module ScriptedFiles.

Definition TEMPLATE : string :=
  "<!-- notes for maintainers -->" +:+ newline
  +:+ "# Formatting" +:+ newline +:+ newline +:+ newline +:+ newline
  +:+ "Use short lines." +:+ newline.

Definition addPath (p : string) (w : Scripted.Script) : Scripted.Script :=
  Scripted.mkScript (Scripted.replies w) (Scripted.spawnReply w)
    (p :: Scripted.directories w).

Definition scriptedMkdirSync (p : string) (w : @World Scripted.node)
    : outcome unit * @World Scripted.node :=
  (Returned tt, addPath p w).

Definition scriptedWriteFileSync (p data : string) (w : @World Scripted.node)
    : outcome unit * @World Scripted.node :=
  (Returned tt, addPath p w).

#[export] Instance files : @Workspace.Files Scripted.node := {|
  Workspace.mkdirSync := scriptedMkdirSync;
  Workspace.writeFileSync := scriptedWriteFileSync;
  Workspace.readFileSync := fun _ _ => Returned TEMPLATE;
  Workspace.join := JS.join "/";
  Workspace.moduleDirname := "/srv/bot/dist"
|}.

End ScriptedFiles.

(** ** Tactics and notions used by the properties *)

Ltac unfold_effects :=
  unfold bind, tryCatch, ret, throw, gets, modifySelf,
         callExecSync, callSpawnSync, awaitTimeout in *.

Ltac case_execSync :=
  match goal with
  | |- context [execSync ?c ?w] =>
      let r := fresh "reply" in
      let w' := fresh "w" in
      let E := fresh "Hexec" in
      destruct (execSync c w) as [r w'] eqn:E; destruct r; simpl
  end.

Ltac case_spawnSync :=
  match goal with
  | |- context [spawnSync ?f ?a ?w] =>
      let r := fresh "result" in
      let w' := fresh "w" in
      let E := fresh "Hspawn" in
      destruct (spawnSync f a w) as [r w'] eqn:E; simpl
  end.

(** The calls a run added to the record of host calls. *)
Definition newCalls {N : Node} {Self : Type} (before after : State Self)
    : list HostCall :=
  skipn (List.length (calls before)) (calls after).

Definition isSpawn (c : HostCall) : bool :=
  match c with
  | SpawnSync _ _ => true
  | _ => false
  end.

(** The command lines of the template literals, for a session of tmux name
    [tmuxName]. *)
Definition hasSessionCommand (tmuxName : string) : string :=
  "tmux has-session -t " +:+ dquote +:+ tmuxName +:+ dquote +:+ " 2>/dev/null".

Definition sendTextCommand (tmuxName escapedText : string) : string :=
  "tmux send-keys -t " +:+ dquote +:+ tmuxName +:+ dquote
  +:+ " -l '" +:+ escapedText +:+ "'".

Definition sendEnterCommand (tmuxName : string) : string :=
  "tmux send-keys -t " +:+ dquote +:+ tmuxName +:+ dquote +:+ " Enter".

(** The argument vector of the [tmux new-session] call. *)
Definition newSessionArgs (tmuxName resolvedDir : string) : list string :=
  ["new-session"; "-d"; "-x"; "200"; "-y"; "50";
   "-s"; tmuxName; "-c"; resolvedDir;
   "claude"; "--dangerously-skip-permissions"].

(** The registry as a one-to-one relation: the two maps are inverses of
    each other. *)
Definition inverseMaps (m : ClaudeManager.SessionManager) : Prop :=
  forall sessionId channelId : string,
    ClaudeManager.channelMap m !! sessionId = Some channelId
    <-> ClaudeManager.reverseMap m !! channelId = Some sessionId.

(** The text [s] holds no character [sep]. *)
Definition noSeparator (sep : ascii) (s : string) : Prop :=
  ~ In sep (list_ascii_of_string s).

(** [s.includes(pattern)] on texts. *)
Fixpoint textIncludes (s pattern : string) {struct s} : bool :=
  JS.startsWith s pattern ||
  match s with
  | EmptyString => false
  | String _ s' => textIncludes s' pattern
  end.

Definition threeNewlines : string := String LF (String LF (String LF EmptyString)).

Definition captureCommand (tmuxName : string) (lines : Z) : string :=
  "tmux capture-pane -t " +:+ dquote +:+ tmuxName +:+ dquote
  +:+ " -p -e -S -" +:+ numberToString lines +:+ " -E ''".

Definition sendEscapeCommand (tmuxName : string) : string :=
  "tmux send-keys -t " +:+ dquote +:+ tmuxName +:+ dquote +:+ " Escape".

Definition killSessionCommand (tmuxName : string) : string :=
  "tmux kill-session -t " +:+ dquote +:+ tmuxName +:+ dquote.

(** The command line of the filtered listing of [getSession]. *)
Definition listOneCommand (tmuxName : string) : string :=
  "tmux list-sessions -F " +:+ dquote
  +:+ "#{session_name}|#{session_created}|#{pane_current_path}"
  +:+ dquote +:+ " -f " +:+ dquote
  +:+ "#{==:#{session_name}," +:+ tmuxName +:+ "}"
  +:+ dquote +:+ " 2>/dev/null".

Ltac run_method :=
  cbv zeta;
  unfold hasSessionCommand, captureCommand, sendEscapeCommand,
         killSessionCommand, sendTextCommand, sendEnterCommand,
         listOneCommand, newCalls in *;
  unfold_effects; cbn [world calls allowedPaths self fst snd].

Ltac close_calls :=
  rewrite <- ?app_assoc; cbn [app]; rewrite ?drop_app_length; auto.

(** The number of newlines at the front of a text. *)
Fixpoint leadingNewlines (s : string) : nat :=
  match s with
  | EmptyString => 0
  | String c s' => if Ascii.eqb c LF then S (leadingNewlines s') else 0
  end.


(** * Properties *)

(** ** The string methods *)

Module JSFacts.
Import JS.

Lemma startsWith_app (s p : string) :
  startsWith s p = true <-> exists rest, s = p +:+ rest.
Proof.
  revert s. induction p as [|c p IH]; intros s; simpl.
  - split; [intros _; now exists s | reflexivity].
  - destruct s as [|d s]; simpl.
    + split; [discriminate | intros [rest E]; discriminate].
    + rewrite andb_true_iff, Ascii.eqb_eq, IH. split.
      * intros [-> [rest ->]]. now exists rest.
      * intros [rest E]. injection E as -> ->. split; [reflexivity | now exists rest].
Qed.

Lemma append_cons (c : ascii) (s t : string) :
  String c s +:+ t = String c (s +:+ t).
Proof. reflexivity. Qed.

Lemma append_assoc (s t u : string) : (s +:+ t) +:+ u = s +:+ t +:+ u.
Proof.
  induction s as [|c s IH]; [reflexivity|].
  rewrite !append_cons. now rewrite IH.
Qed.

Lemma length_append (s t : string) :
  String.length (s +:+ t) = String.length s + String.length t.
Proof.
  induction s as [|c s IH]; [reflexivity|].
  rewrite append_cons. simpl. now rewrite IH.
Qed.

Lemma take_drop (n : nat) (s : string) : take n s +:+ drop n s = s.
Proof.
  revert s. induction n as [|n IH]; intros [|c s]; simpl; try reflexivity.
  rewrite append_cons. f_equal. apply IH.
Qed.

Lemma length_take (n : nat) (s : string) :
  String.length (take n s) = Nat.min n (String.length s).
Proof.
  revert s. induction n as [|n IH]; intros [|c s]; simpl; try reflexivity.
  now rewrite IH.
Qed.

Lemma length_drop (n : nat) (s : string) :
  String.length (drop n s) = String.length s - n.
Proof.
  revert s. induction n as [|n IH]; intros [|c s]; simpl; try reflexivity.
  apply IH.
Qed.

(** [s.slice(0, n)] for [0 <= n <= s.length] is the prefix of length [n]. *)
Lemma slice_prefix (s : string) (n : nat) :
  n <= String.length s ->
  slice s 0 (Some (Z.of_nat n)) = take n s.
Proof.
  intros Hn. unfold slice, relativeIndex. simpl.
  destruct (Z.of_nat n <? 0)%Z eqn:E; [apply Z.ltb_lt in E; lia|].
  rewrite Z.min_l by lia. rewrite Z.min_l by lia.
  replace (Z.to_nat (Z.max (Z.of_nat n - 0) 0)) with n by lia.
  reflexivity.
Qed.

Lemma startsWith_split_hd (sep : ascii) (p line : string) :
  ~ In sep (list_ascii_of_string p) ->
  startsWith line p = true ->
  startsWith (List.hd EmptyString (split sep line)) p = true.
Proof.
  revert line. induction p as [|c p IH]; intros line Hno Hs.
  - reflexivity.
  - destruct line as [|d line]; simpl in Hs; [discriminate|].
    apply andb_true_iff in Hs as [Hc Hs]. apply Ascii.eqb_eq in Hc. subst d.
    simpl in Hno. simpl. destruct (Ascii.eqb c sep) eqn:Ec.
    + apply Ascii.eqb_eq in Ec. subst c. exfalso. apply Hno. now left.
    + assert (IH' : startsWith (List.hd EmptyString (split sep line)) p = true).
      { apply IH; [|exact Hs]. intros Hin. apply Hno. now right. }
      destruct (split sep line) as [|x xs] eqn:Ex; simpl in *.
      * destruct p; [now rewrite Ascii.eqb_refl | discriminate].
      * now rewrite Ascii.eqb_refl, IH'.
Qed.

Lemma drop_append (p rest : string) :
  drop (String.length p) (p +:+ rest) = rest.
Proof. induction p as [|c p IH]; [reflexivity | exact IH]. Qed.

(** [s.slice(n)] for [0 <= n <= s.length] drops the first [n] characters. *)
Lemma slice_from (s : string) (n : nat) :
  n <= String.length s ->
  slice s (Z.of_nat n) None = drop n s.
Proof.
  intros Hn. unfold slice, relativeIndex.
  destruct (Z.of_nat n <? 0)%Z eqn:E; [apply Z.ltb_lt in E; lia|].
  rewrite Z.min_l by lia. rewrite Nat2Z.id.
  replace (Z.to_nat (Z.max (Z.of_nat (String.length s) - Z.of_nat n) 0))
    with (String.length (drop n s)) by (rewrite length_drop; lia).
  generalize (drop n s). intros t.
  induction t as [|c t IH]; simpl; [reflexivity | now rewrite IH].
Qed.

Lemma replaceFrom_match (before s p r : string) :
  startsWith s p = true ->
  replaceFrom before s p r
  = before +:+ getSubstitution p before (drop (String.length p) s) r
    +:+ drop (String.length p) s.
Proof. intros Hs. destruct s; simpl; rewrite Hs; reflexivity. Qed.

(** Removing a pattern the text starts with strips it from the front. *)
Lemma replace_leading (p rest : string) :
  replace (p +:+ rest) p EmptyString = rest.
Proof.
  unfold replace. rewrite replaceFrom_match
    by (apply startsWith_app; now exists rest).
  simpl getSubstitution. rewrite drop_append. reflexivity.
Qed.

Lemma append_inj_r (p s t : string) : p +:+ s = p +:+ t -> s = t.
Proof.
  induction p as [|c p IH]; [trivial|].
  rewrite !append_cons. intros E. injection E as E. auto.
Qed.

End JSFacts.

(** ** The path guard *)

Section PathGuardFacts.
Context `{Node}.

Lemma setAllowedPaths_nil (paths : list string) :
  setAllowedPaths paths = [] <-> paths = [].
Proof.
  unfold setAllowedPaths. destruct paths; simpl; split; congruence.
Qed.

Lemma isPathAllowed_nonempty (allowed : list string) (p : string) :
  allowed <> [] ->
  isPathAllowed allowed p = true <->
  exists root, In root allowed /\
    (resolve p = root \/ exists rest, resolve p = root +:+ "/" +:+ rest).
Proof.
  intros Hne. unfold isPathAllowed.
  destruct allowed as [|a allowed]; [congruence|].
  change (List.length (a :: allowed) =? 0) with false. cbv iota.
  rewrite existsb_exists. split.
  - intros [root [Hin Hroot]]. exists root. split; [exact Hin|].
    apply orb_true_iff in Hroot as [Hpre | Heq].
    + right. apply JSFacts.startsWith_app in Hpre as [rest E].
      exists rest. rewrite E. apply JSFacts.append_assoc.
    + left. now apply String.eqb_eq.
  - intros [root [Hin [Heq | [rest E]]]]; exists root; (split; [exact Hin|]);
      apply orb_true_iff.
    + right. now apply String.eqb_eq.
    + left. apply JSFacts.startsWith_app. exists rest.
      rewrite E. symmetry. apply JSFacts.append_assoc.
Qed.

(** C1. With an empty allowlist every path is allowed; otherwise a path is
    allowed exactly when its resolved form is one of the resolved roots or
    is such a root followed by a slash and anything; the root
    [/home/projects] does not admit [/home/projects-evil]. *)
Theorem isPathAllowed_containment (paths : list string) (p : string) :
  let allowed := setAllowedPaths paths in
  (paths = [] -> isPathAllowed allowed p = true) /\
  (paths <> [] ->
     (isPathAllowed allowed p = true <->
      exists root, In root allowed /\
        (resolve p = root \/
         exists rest, resolve p = root +:+ "/" +:+ rest))) /\
  (resolve "/home/projects" = "/home/projects" ->
   resolve "/home/projects-evil" = "/home/projects-evil" ->
   isPathAllowed (setAllowedPaths ["/home/projects"]) "/home/projects-evil"
   = false).
Proof.
  cbv zeta. split; [|split].
  - intros ->. reflexivity.
  - intros Hne. apply isPathAllowed_nonempty.
    now rewrite setAllowedPaths_nil.
  - intros Hroot Hevil. unfold setAllowedPaths, isPathAllowed, expandHome.
    simpl. rewrite Hroot, Hevil. reflexivity.
Qed.

End PathGuardFacts.

(** The guard of C1 at work in front of the POSIX [path.resolve]: a sibling
    directory that only shares the text of the root is refused, the root and
    a directory below it are admitted. *)
Lemma isPathAllowed_containment_witness :
  @isPathAllowed Scripted.node
    (@setAllowedPaths Scripted.node ["/home/projects"]) "/home/projects-evil"
  = false
  /\ (@isPathAllowed Scripted.node
        (@setAllowedPaths Scripted.node ["/home/projects"]) "/home/projects/app"
      = true <->
      exists root, In root (@setAllowedPaths Scripted.node ["/home/projects"]) /\
        (@resolve Scripted.node "/home/projects/app" = root \/
         exists rest, @resolve Scripted.node "/home/projects/app"
                      = root +:+ "/" +:+ rest)).
Proof.
  split.
  - apply (@isPathAllowed_containment Scripted.node ["/home/projects"] "/home/projects-evil");
      reflexivity.
  - apply (@isPathAllowed_containment Scripted.node ["/home/projects"] "/home/projects/app").
    discriminate.
Defined.

(** ** The output differ *)

Section OutputDifferFacts.
Import JS.

Lemma newOutput_first_or_same (last output : string) :
  last = EmptyString \/ last = output -> newOutput last output = None.
Proof.
  intros [-> | ->]; unfold newOutput.
  - reflexivity.
  - rewrite String.eqb_refl, orb_true_r. reflexivity.
Qed.

Lemma newOutput_nonempty (last output : string) :
  newOutput last output <> Some EmptyString.
Proof.
  unfold newOutput.
  destruct (negb (truthy last) || String.eqb output last); [discriminate|].
  destruct (String.length last <? String.length output) eqn:Hlen; simpl.
  - destruct (endsWith output (slice last (-500) None)).
    + apply Nat.ltb_lt in Hlen.
      rewrite <- Nat2Z.inj_sub by lia.
      rewrite JSFacts.slice_prefix by lia.
      destruct output as [|c output]; [simpl in Hlen; lia|].
      destruct (String.length (String c output) - String.length last) eqn:E;
        [lia|]. simpl. discriminate.
    + match goal with |- context [truthy ?s] => destruct s end;
        simpl; discriminate.
  - match goal with |- context [truthy ?s] => destruct s end;
      simpl; discriminate.
Qed.

(** C6, amended. When the previous capture is not empty, the current one
    is strictly longer and ends with the last 500 characters of the
    previous one, the differ answers with the prefix of the current
    capture that is left once a region as long as the previous capture is
    cut from its end. *)
Theorem newOutput_fast_path (last output : string) :
  last <> EmptyString ->
  String.length last < String.length output ->
  endsWith output (slice last (-500) None) = true ->
  exists fresh rest,
    newOutput last output = Some fresh
    /\ output = fresh +:+ rest
    /\ String.length rest = String.length last
    /\ String.length fresh = String.length output - String.length last.
Proof.
  intros Hlast Hlen Hends.
  set (n := String.length output - String.length last).
  exists (take n output), (drop n output).
  repeat split.
  - unfold newOutput.
    destruct last as [|c last]; [congruence|].
    assert (Hneq : String.eqb output (String c last) = false).
    { apply String.eqb_neq. intros ->. lia. }
    rewrite Hneq. simpl negb. simpl orb. cbv iota.
    apply Nat.ltb_lt in Hlen. rewrite Hlen, Hends. simpl andb. cbv iota.
    apply Nat.ltb_lt in Hlen.
    rewrite <- Nat2Z.inj_sub by lia.
    rewrite JSFacts.slice_prefix by lia. reflexivity.
  - symmetry. apply JSFacts.take_drop.
  - rewrite JSFacts.length_drop. unfold n. lia.
  - rewrite JSFacts.length_take. unfold n. lia.
Qed.

End OutputDifferFacts.

(** The fast path of C6 on a capture that grew at the front. *)
Lemma newOutput_fast_path_witness :
  exists fresh rest,
    newOutput "abc" "xyzabc" = Some fresh
    /\ "xyzabc" = fresh +:+ rest
    /\ String.length rest = String.length "abc"
    /\ String.length fresh = String.length "xyzabc" - String.length "abc".
Proof.
  apply (newOutput_fast_path "abc" "xyzabc").
  - discriminate.
  - simpl. lia.
  - reflexivity.
Defined.

(** On a first observation the cache holds nothing, every capture is longer
    than the empty text and ends with its tail, and yet the differ answers
    with nothing instead of the whole capture. *)
Lemma newOutput_first_observation_counterexample :
  String.length EmptyString < String.length "x"
  /\ JS.endsWith "x" (JS.slice EmptyString (-500) None) = true
  /\ newOutput EmptyString "x" = None
  /\ JS.slice "x" 0 (Some (Z.of_nat (String.length "x")
                           - Z.of_nat (String.length EmptyString))%Z) = "x".
Proof. repeat split. simpl. lia. Qed.

(** ** Running the methods *)

Lemma skipn_length_app {A : Type} (l delta : list A) :
  skipn (List.length l) (l ++ delta) = delta.
Proof. induction l; simpl; auto. Qed.

Section ClaudeOutputFacts.
Context `{Node}.
Import ClaudeManager.

Lemma claude_captureOutput_self sessionId lines (st : State SessionManager) :
  self (snd (captureOutput sessionId lines st)) = self st.
Proof.
  unfold captureOutput, sessionExists. unfold_effects. simpl.
  case_execSync; [case_execSync|]; reflexivity.
Qed.

Lemma claude_getNewOutput_run sessionId lines (st st' : State SessionManager)
    (output : string) :
  captureOutput sessionId lines st = (Returned output, st') ->
  fst (getNewOutput sessionId lines st)
  = Returned (newOutput
                (JS.orElse (lastOutput (self st) !! sessionId) EmptyString)
                output)
  /\ lastOutput (self (snd (getNewOutput sessionId lines st))) !! sessionId
     = Some output.
Proof.
  intros Hcap.
  pose proof (claude_captureOutput_self sessionId lines st) as Hself.
  rewrite Hcap in Hself. simpl in Hself.
  assert (E : getNewOutput sessionId lines st
              = bind (fun _ => (Returned output, st'))
                  (fun output =>
                     last <- gets (fun st =>
                               JS.orElse (lastOutput (self st) !! sessionId)
                                 EmptyString) ;;
                     modifySelf (fun m =>
                       mkManager (channelMap m) (reverseMap m)
                         (<[sessionId := output]> (lastOutput m))) ;;;
                     ret (newOutput last output)) st).
  { unfold getNewOutput, bind at 1 3. now rewrite Hcap. }
  rewrite E. unfold_effects. simpl. rewrite Hself. split; [reflexivity|].
  apply lookup_insert_eq.
Qed.

Lemma claude_getNewOutput_nonempty sessionId lines (st : State SessionManager) :
  fst (getNewOutput sessionId lines st) <> Returned (Some EmptyString).
Proof.
  unfold getNewOutput. unfold bind at 1.
  destruct (captureOutput sessionId lines st) as [[output|message] st'];
    [|discriminate].
  unfold_effects. simpl. intros E. injection E as E.
  exact (newOutput_nonempty _ _ E).
Qed.

End ClaudeOutputFacts.

Section DiscoOutputFacts.
Context `{Node}.
Import DiscoManager.

Lemma disco_captureOutput_self sessionId lines (st : State SessionManager) :
  self (snd (captureOutput sessionId lines st)) = self st.
Proof.
  unfold captureOutput, sessionExists. unfold_effects. simpl.
  case_execSync; [case_execSync|]; reflexivity.
Qed.

Lemma disco_getNewOutput_run sessionId lines (st st' : State SessionManager)
    (output : string) :
  captureOutput sessionId lines st = (Returned output, st') ->
  fst (getNewOutput sessionId lines st)
  = Returned (newOutput
                (JS.orElse (lastOutput (self st) !! sessionId) EmptyString)
                output)
  /\ lastOutput (self (snd (getNewOutput sessionId lines st))) !! sessionId
     = Some output.
Proof.
  intros Hcap.
  pose proof (disco_captureOutput_self sessionId lines st) as Hself.
  rewrite Hcap in Hself. simpl in Hself.
  assert (E : getNewOutput sessionId lines st
              = bind (fun _ => (Returned output, st'))
                  (fun output =>
                     last <- gets (fun st =>
                               JS.orElse (lastOutput (self st) !! sessionId)
                                 EmptyString) ;;
                     modifySelf (fun m =>
                       mkManager (<[sessionId := output]> (lastOutput m))) ;;;
                     ret (newOutput last output)) st).
  { unfold getNewOutput, bind at 1 3. now rewrite Hcap. }
  rewrite E. unfold_effects. simpl. rewrite Hself. split; [reflexivity|].
  apply lookup_insert_eq.
Qed.

Lemma disco_getNewOutput_nonempty sessionId lines (st : State SessionManager) :
  fst (getNewOutput sessionId lines st) <> Returned (Some EmptyString).
Proof.
  unfold getNewOutput. unfold bind at 1.
  destruct (captureOutput sessionId lines st) as [[output|message] st'];
    [|discriminate].
  unfold_effects. simpl. intros E. injection E as E.
  exact (newOutput_nonempty _ _ E).
Qed.

End DiscoOutputFacts.

(** C5. In both managers, once the capture has succeeded, [getNewOutput]
    returns [null] when the cache holds nothing or the empty text for the
    session (first observation) and when it holds the very text just
    captured; with the two lines A, B cached and the three lines A, B, C
    captured it returns the text C. *)
Theorem getNewOutput_nothing_new `{Node} :
  (forall sessionId lines (st st' : State ClaudeManager.SessionManager) output,
      ClaudeManager.captureOutput sessionId lines st = (Returned output, st') ->
      let cached := ClaudeManager.lastOutput (self st) !! sessionId in
      (cached = None \/ cached = Some EmptyString \/ cached = Some output ->
       fst (ClaudeManager.getNewOutput sessionId lines st) = Returned None)
      /\ (cached = Some ("A" +:+ newline +:+ "B") ->
          output = "A" +:+ newline +:+ "B" +:+ newline +:+ "C" ->
          fst (ClaudeManager.getNewOutput sessionId lines st)
          = Returned (Some "C")))
  /\
  (forall sessionId lines (st st' : State DiscoManager.SessionManager) output,
      DiscoManager.captureOutput sessionId lines st = (Returned output, st') ->
      let cached := DiscoManager.lastOutput (self st) !! sessionId in
      (cached = None \/ cached = Some EmptyString \/ cached = Some output ->
       fst (DiscoManager.getNewOutput sessionId lines st) = Returned None)
      /\ (cached = Some ("A" +:+ newline +:+ "B") ->
          output = "A" +:+ newline +:+ "B" +:+ newline +:+ "C" ->
          fst (DiscoManager.getNewOutput sessionId lines st)
          = Returned (Some "C"))).
Proof.
  split; intros sessionId lines st st' output Hcap cached; subst cached.
  - destruct (claude_getNewOutput_run _ _ _ _ _ Hcap) as [-> _]. split.
    + intros Hc. f_equal. apply newOutput_first_or_same.
      destruct Hc as [-> | [-> | ->]]; simpl; auto.
      destruct output; simpl; auto.
    + intros -> ->. reflexivity.
  - destruct (disco_getNewOutput_run _ _ _ _ _ Hcap) as [-> _]. split.
    + intros Hc. f_equal. apply newOutput_first_or_same.
      destruct Hc as [-> | [-> | ->]]; simpl; auto.
      destruct output; simpl; auto.
    + intros -> ->. reflexivity.
Qed.

(** C5 in front of the scripted host: the session is reported running, the
    pane holds A, B, C; a cache holding A, B yields C and an empty cache
    yields nothing. *)
Lemma getNewOutput_nothing_new_witness :
  fst (@ClaudeManager.getNewOutput Scripted.node "s" 200
         (Scripted.start
            (ClaudeManager.mkManager ∅ ∅ {[ "s" := "A" +:+ newline +:+ "B" ]})
            []
            (Scripted.mkScript
               [Returned EmptyString;
                Returned ("A" +:+ newline +:+ "B" +:+ newline +:+ "C")]
               Scripted.spawnOk [])))
  = Returned (Some "C")
  /\
  fst (@DiscoManager.getNewOutput Scripted.node "1_2" 200
         (Scripted.start DiscoManager.fresh []
            (Scripted.mkScript
               [Returned EmptyString;
                Returned ("A" +:+ newline +:+ "B" +:+ newline +:+ "C")]
               Scripted.spawnOk [])))
  = Returned None.
Proof.
  split.
  - eapply (proj1 (@getNewOutput_nothing_new Scripted.node)); reflexivity.
  - eapply (proj2 (@getNewOutput_nothing_new Scripted.node));
      [reflexivity | left; reflexivity].
Defined.

(** C10. In both managers [getNewOutput] never returns the empty text:
    whatever the state, the session and the number of lines, its result is
    [null] or a text with at least one character (or the call throws). *)
Theorem getNewOutput_never_empty `{Node} :
  (forall sessionId lines (st : State ClaudeManager.SessionManager),
      fst (ClaudeManager.getNewOutput sessionId lines st)
      <> Returned (Some EmptyString))
  /\
  (forall sessionId lines (st : State DiscoManager.SessionManager),
      fst (DiscoManager.getNewOutput sessionId lines st)
      <> Returned (Some EmptyString)).
Proof.
  split; intros.
  - apply claude_getNewOutput_nonempty.
  - apply disco_getNewOutput_nonempty.
Qed.

(** ** The channel registry *)

Section RegistryFacts.
Context `{Node}.
Import ClaudeManager.

Lemma linkChannel_lookups sessionId channelId (st : State SessionManager) :
  let st' := snd (linkChannel sessionId channelId st) in
  fst (getChannelBySession sessionId st') = Returned (Some channelId)
  /\ fst (getSessionByChannel channelId st') = Returned (Some sessionId).
Proof.
  unfold linkChannel, getChannelBySession, getSessionByChannel.
  unfold_effects. simpl. now rewrite !lookup_insert_eq.
Qed.

Lemma unlinkChannel_lookups channelId sessionId (st : State SessionManager) :
  reverseMap (self st) !! channelId = Some sessionId ->
  sessionId <> EmptyString ->
  let st' := snd (unlinkChannel channelId st) in
  fst (getSessionByChannel channelId st') = Returned None
  /\ fst (getChannelBySession sessionId st') = Returned None.
Proof.
  intros Hrev Hne.
  unfold unlinkChannel, getChannelBySession, getSessionByChannel.
  unfold_effects. simpl. rewrite Hrev.
  destruct sessionId; [congruence|]. simpl.
  now rewrite !lookup_delete_eq.
Qed.

(** What the clean-up of [killSession] removes: the entry of the session in
    the forward map and in the cache, and the reverse entry of the one
    channel the forward map held for the session, when that channel is not
    the empty text. *)
Lemma cleanUp_removes sessionId (m : SessionManager) :
  channelMap (cleanUp sessionId m) !! sessionId = None
  /\ lastOutput (cleanUp sessionId m) !! sessionId = None
  /\ (forall channelId,
         channelMap m !! sessionId = Some channelId ->
         channelId <> EmptyString ->
         reverseMap (cleanUp sessionId m) !! channelId = None).
Proof.
  unfold cleanUp. simpl. rewrite !lookup_delete_eq. repeat split.
  intros channelId -> Hne. destruct channelId; [congruence|]. simpl.
  apply lookup_delete_eq.
Qed.

Lemma killSession_success sessionId (st : State SessionManager) :
  fst (killSession sessionId st) = Returned true ->
  self (snd (killSession sessionId st)) = cleanUp sessionId (self st).
Proof.
  unfold killSession, sessionExists. unfold_effects. simpl.
  case_execSync; [case_execSync|]; simpl; try discriminate. reflexivity.
Qed.

(** After a successful [killSession] the session has no entry in the
    forward map and none in the cache, and the channel the forward map held
    for it, if not the empty text, has no entry in the reverse map. *)
Lemma killSession_evicts sessionId (st : State SessionManager) :
  fst (killSession sessionId st) = Returned true ->
  let st' := snd (killSession sessionId st) in
  fst (getChannelBySession sessionId st') = Returned None
  /\ lastOutput (self st') !! sessionId = None
  /\ (forall channelId,
         channelMap (self st) !! sessionId = Some channelId ->
         channelId <> EmptyString ->
         fst (getSessionByChannel channelId st') = Returned None).
Proof.
  intros Hok. cbv zeta.
  unfold getChannelBySession, getSessionByChannel, gets. cbn [fst].
  rewrite (killSession_success _ _ Hok).
  destruct (cleanUp_removes sessionId (self st)) as [Hc [Hl Hr]].
  rewrite Hc, Hl. repeat split.
  intros channelId Hm Hne. now rewrite (Hr channelId Hm Hne).
Qed.

(** When the host no longer knows the session, [getSession] returns [null]. *)
Lemma getSession_absent sessionId (st : State SessionManager) message w :
  execSync (hasSessionCommand (getTmuxName sessionId)) (world st)
  = (Thrown message, w) ->
  fst (getSession sessionId st) = Returned None.
Proof.
  intros Hexec. unfold getSession, sessionExists. unfold_effects. simpl.
  unfold hasSessionCommand in Hexec. now rewrite Hexec.
Qed.

(** C3. The registry does not stay one-to-one: from any state, linking the
    session s1 and then the session s2 to the same channel c1 leaves both
    sessions mapped to c1 in the forward map while the reverse map sends c1
    to s2 only, so the two maps are not inverses of each other. *)
Theorem linkChannel_not_one_to_one (st : State SessionManager) :
  let st' := snd ((linkChannel "s1" "c1" ;;; linkChannel "s2" "c1") st) in
  fst (getChannelBySession "s1" st') = Returned (Some "c1")
  /\ fst (getChannelBySession "s2" st') = Returned (Some "c1")
  /\ fst (getSessionByChannel "c1" st') = Returned (Some "s2")
  /\ (inverseMaps (self st') -> False).
Proof.
  cbv zeta. unfold linkChannel, getChannelBySession, getSessionByChannel.
  unfold_effects. simpl.
  assert (H1 : <["s2":="c1"]> (<["s1":="c1"]> (channelMap (self st))) !! "s1"
               = Some "c1").
  { rewrite lookup_insert_ne by discriminate. apply lookup_insert_eq. }
  repeat split.
  - now rewrite H1.
  - now rewrite lookup_insert_eq.
  - now rewrite lookup_insert_eq.
  - intros Hinv. apply (Hinv "s1" "c1") in H1. simpl in H1.
    rewrite lookup_insert_eq in H1. discriminate.
Qed.

End RegistryFacts.

(** C7. A successful [killSession] can leave a channel mapped to the killed
    session.  In front of a host that reports the session running and kills
    it: after s was linked to c1 and then to c2, killing s clears the entry
    of s and the reverse entry of c2, and [getSession] finds s no more, but
    c1 still maps to s; and after s was linked to the empty channel id,
    killing s leaves that reverse entry in place as well. *)
Theorem killSession_leaves_reverse_entries :
  let host := Scripted.mkScript [Returned EmptyString; Returned EmptyString]
                Scripted.spawnOk [] in
  let relinked :=
    (@ClaudeManager.linkChannel Scripted.node "s" "c1" ;;;
     @ClaudeManager.linkChannel Scripted.node "s" "c2" ;;;
     @ClaudeManager.killSession Scripted.node "s")
      (Scripted.start ClaudeManager.fresh [] host) in
  let emptyChannel :=
    (@ClaudeManager.linkChannel Scripted.node "s" EmptyString ;;;
     @ClaudeManager.killSession Scripted.node "s")
      (Scripted.start ClaudeManager.fresh [] host) in
  (fst relinked = Returned true
   /\ fst (@ClaudeManager.getChannelBySession Scripted.node "s" (snd relinked))
      = Returned None
   /\ fst (@ClaudeManager.getSessionByChannel Scripted.node "c2" (snd relinked))
      = Returned None
   /\ fst (@ClaudeManager.getSession Scripted.node "s" (snd relinked))
      = Returned None
   /\ fst (@ClaudeManager.getSessionByChannel Scripted.node "c1" (snd relinked))
      = Returned (Some "s"))
  /\
  (fst emptyChannel = Returned true
   /\ fst (@ClaudeManager.getSessionByChannel Scripted.node EmptyString
             (snd emptyChannel))
      = Returned (Some "s")).
Proof. cbv zeta. vm_compute. repeat split; reflexivity. Qed.

(** ** Listing the sessions *)

Lemma claude_sessionOfLine_name (m : ClaudeManager.SessionManager)
    (line : string) :
  JS.startsWith line ClaudeManager.SESSION_PREFIX = true ->
  ClaudeManager.tmuxName (ClaudeManager.sessionOfLine m line)
  = ClaudeManager.SESSION_PREFIX
    +:+ ClaudeManager.id (ClaudeManager.sessionOfLine m line).
Proof.
  intros Hline. unfold ClaudeManager.sessionOfLine. simpl.
  assert (Hname : JS.startsWith (List.hd EmptyString (JS.split "|" line))
                    ClaudeManager.SESSION_PREFIX = true).
  { apply JSFacts.startsWith_split_hd; [|exact Hline].
    simpl. intuition discriminate. }
  apply JSFacts.startsWith_app in Hname as [rest ->].
  now rewrite JSFacts.replace_leading.
Qed.

Lemma disco_sessionOfLine_name (line : string) :
  JS.startsWith line DiscoManager.SESSION_PREFIX = true ->
  let e := DiscoManager.sessionOfLine line in
  JS.startsWith (DiscoManager.tmuxName e) DiscoManager.SESSION_PREFIX = true
  /\ (DiscoManager.tmuxName e = DiscoManager.SESSION_PREFIX ->
      DiscoManager.id e = DiscoManager.SESSION_PREFIX)
  /\ (DiscoManager.tmuxName e <> DiscoManager.SESSION_PREFIX ->
      DiscoManager.tmuxName e
      = DiscoManager.SESSION_PREFIX +:+ DiscoManager.id e).
Proof.
  intros Hline. unfold DiscoManager.sessionOfLine. simpl.
  assert (Hname : JS.startsWith (List.hd EmptyString (JS.split "|" line))
                    DiscoManager.SESSION_PREFIX = true).
  { apply JSFacts.startsWith_split_hd; [|exact Hline].
    simpl. intuition discriminate. }
  split; [exact Hname|].
  unfold DiscoManager.getSessionIdFromTmuxName. rewrite Hname. simpl negb.
  cbv iota.
  apply JSFacts.startsWith_app in Hname as [rest ->].
  rewrite JSFacts.slice_from
    by (rewrite JSFacts.length_append; lia).
  rewrite JSFacts.drop_append.
  destruct rest as [|c rest]; simpl; split.
  - reflexivity.
  - intros Hne. now contradiction Hne.
  - intros E. discriminate E.
  - reflexivity.
Qed.

(** C9, amended. [listSessions] never throws; when the host listing fails
    the list is empty; every entry has a tmux name that begins with the
    prefix of the manager.  In the manager of the [claude-] sessions the id
    of an entry is its name with the prefix stripped.  In the manager of the
    [disco_] sessions an entry whose name is the prefix alone has that
    whole name as its id, and the id of every other entry is its name with
    the prefix stripped. *)
Theorem listSessions_total_and_prefixed `{Node} :
  (forall st : State ClaudeManager.SessionManager,
      exists sessions,
        fst (ClaudeManager.listSessions st) = Returned sessions
        /\ (forall message w,
               execSync LIST_COMMAND (world st) = (Thrown message, w) ->
               sessions = [])
        /\ (forall e, In e sessions ->
               ClaudeManager.tmuxName e
               = ClaudeManager.SESSION_PREFIX +:+ ClaudeManager.id e))
  /\
  (forall st : State DiscoManager.SessionManager,
      exists sessions,
        fst (DiscoManager.listSessions st) = Returned sessions
        /\ (forall message w,
               execSync LIST_COMMAND (world st) = (Thrown message, w) ->
               sessions = [])
        /\ (forall e, In e sessions ->
               JS.startsWith (DiscoManager.tmuxName e)
                 DiscoManager.SESSION_PREFIX = true
               /\ (DiscoManager.tmuxName e = DiscoManager.SESSION_PREFIX ->
                   DiscoManager.id e = DiscoManager.SESSION_PREFIX)
               /\ (DiscoManager.tmuxName e <> DiscoManager.SESSION_PREFIX ->
                   DiscoManager.tmuxName e
                   = DiscoManager.SESSION_PREFIX +:+ DiscoManager.id e))).
Proof.
  split; intros st.
  - unfold ClaudeManager.listSessions. unfold_effects. cbn [world].
    destruct (execSync LIST_COMMAND (world st)) as [[output|message] w] eqn:E;
      cbn [fst]; eexists; (split; [reflexivity|]); split.
    + intros message w' E'. discriminate.
    + intros e He. apply in_map_iff in He as [line [<- Hline]].
      apply filter_In in Hline as [_ Hline].
      now apply claude_sessionOfLine_name.
    + reflexivity.
    + intros e [].
  - unfold DiscoManager.listSessions. unfold_effects. cbn [world].
    destruct (execSync LIST_COMMAND (world st)) as [[output|message] w] eqn:E;
      cbn [fst]; eexists; (split; [reflexivity|]); split.
    + intros message w' E'. discriminate.
    + intros e He. apply in_map_iff in He as [line [<- Hline]].
      apply filter_In in Hline as [_ Hline].
      exact (disco_sessionOfLine_name line Hline).
    + reflexivity.
    + intros e [].
Qed.

(** A tmux session named by the prefix alone is listed by the manager of
    the [disco_] sessions with its whole name as id, not with the empty
    text its name leaves once the prefix is stripped. *)
Lemma listSessions_bare_prefix_counterexample :
  fst (@DiscoManager.listSessions Scripted.node
         (Scripted.start DiscoManager.fresh []
            (Scripted.mkScript [Returned "disco_|1700000000|/tmp"]
               Scripted.spawnOk [])))
  = Returned
      [ {| DiscoManager.id := "disco_";
           DiscoManager.tmuxName := "disco_";
           DiscoManager.directory := "/tmp";
           DiscoManager.guildId := EmptyString;
           DiscoManager.channelId := EmptyString;
           DiscoManager.attachCommand := "tmux attach -t disco_";
           DiscoManager.createdAt := Some (DateOfSeconds "1700000000") |} ]
  /\ JS.slice "disco_" (Z.of_nat (String.length DiscoManager.SESSION_PREFIX))
       None = EmptyString.
Proof. split; reflexivity. Qed.

(** ** The host calls of [sendToSession] *)

Section SendFacts.
Context `{Node}.

Lemma claude_sendToSession_calls sessionId text
    (st : State ClaudeManager.SessionManager) :
  let name := ClaudeManager.getTmuxName sessionId in
  let r := ClaudeManager.sendToSession sessionId text st in
  (newCalls st (snd r) = [ExecSync (hasSessionCommand name)]
   /\ fst r <> Returned true)
  \/ (newCalls st (snd r)
      = [ExecSync (hasSessionCommand name);
         ExecSync (sendTextCommand name (escapeQuotes text))]
      /\ fst r <> Returned true)
  \/ newCalls st (snd r)
     = [ExecSync (hasSessionCommand name);
        ExecSync (sendTextCommand name (escapeQuotes text));
        ExecSync (sendEnterCommand name)].
Proof.
  cbv zeta. unfold ClaudeManager.sendToSession, ClaudeManager.sessionExists.
  unfold hasSessionCommand, sendTextCommand, sendEnterCommand, newCalls.
  unfold_effects. cbn [world calls].
  case_execSync; [case_execSync; [case_execSync|]|];
    rewrite <- ?app_assoc; cbn [app]; rewrite skipn_length_app;
    try (left; split; [reflexivity | discriminate]);
    try (right; left; split; [reflexivity | discriminate]);
    right; right; reflexivity.
Qed.

Lemma disco_sendToSession_calls sessionId text
    (st : State DiscoManager.SessionManager) :
  let name := DiscoManager.getTmuxName sessionId in
  let r := DiscoManager.sendToSession sessionId text st in
  (newCalls st (snd r) = [ExecSync (hasSessionCommand name)]
   /\ fst r <> Returned true)
  \/ (newCalls st (snd r)
      = [ExecSync (hasSessionCommand name);
         ExecSync (sendTextCommand name (escapeQuotes text))]
      /\ fst r <> Returned true)
  \/ newCalls st (snd r)
     = [ExecSync (hasSessionCommand name);
        ExecSync (sendTextCommand name (escapeQuotes text));
        SetTimeout 1500;
        ExecSync (sendEnterCommand name)].
Proof.
  cbv zeta. unfold DiscoManager.sendToSession, DiscoManager.sessionExists.
  unfold hasSessionCommand, sendTextCommand, sendEnterCommand, newCalls.
  unfold_effects. cbn [world calls].
  case_execSync; [case_execSync; [case_execSync|]|];
    rewrite <- ?app_assoc; cbn [app]; rewrite skipn_length_app;
    try (left; split; [reflexivity | discriminate]);
    try (right; left; split; [reflexivity | discriminate]);
    right; right; reflexivity.
Qed.

Lemma hasSession_not_enter (name : string) :
  ExecSync (hasSessionCommand name) <> ExecSync (sendEnterCommand name).
Proof.
  unfold hasSessionCommand, sendEnterCommand. intros E.
  apply (f_equal (fun call => match call with
                             | ExecSync command => JS.take 6 command
                             | _ => EmptyString
                             end)) in E.
  discriminate E.
Qed.

Lemma sendText_not_enter (name escapedText : string) :
  ExecSync (sendTextCommand name escapedText)
  <> ExecSync (sendEnterCommand name).
Proof.
  unfold sendTextCommand, sendEnterCommand. intros E.
  apply (f_equal (fun call => match call with
                             | ExecSync command => command
                             | _ => EmptyString
                             end)) in E.
  do 4 apply JSFacts.append_inj_r in E. discriminate E.
Qed.

(** C8. The manager of the [disco_] sessions delivers in order: the text,
    a timer of 1500 ms, then Enter, and Enter is never issued unless text
    and timer came before it.  The manager of the [claude-] sessions issues
    Enter right after the text: no timer stands between the two calls. *)
Theorem sendToSession_delay :
  (forall sessionId text (st : State DiscoManager.SessionManager),
      let name := DiscoManager.getTmuxName sessionId in
      let r := DiscoManager.sendToSession sessionId text st in
      (fst r = Returned true ->
       newCalls st (snd r)
       = [ExecSync (hasSessionCommand name);
          ExecSync (sendTextCommand name (escapeQuotes text));
          SetTimeout 1500;
          ExecSync (sendEnterCommand name)])
      /\ (In (ExecSync (sendEnterCommand name)) (newCalls st (snd r)) ->
          exists before,
            newCalls st (snd r)
            = before ++ [ExecSync (sendTextCommand name (escapeQuotes text));
                         SetTimeout 1500;
                         ExecSync (sendEnterCommand name)])
      /\ (1000 <= 1500 <= 2000)%Z)
  /\
  (forall sessionId text (st : State ClaudeManager.SessionManager),
      let name := ClaudeManager.getTmuxName sessionId in
      let r := ClaudeManager.sendToSession sessionId text st in
      (fst r = Returned true ->
       newCalls st (snd r)
       = [ExecSync (hasSessionCommand name);
          ExecSync (sendTextCommand name (escapeQuotes text));
          ExecSync (sendEnterCommand name)])
      /\ (forall ms, In (SetTimeout ms) (newCalls st (snd r)) -> False)).
Proof.
  split; intros sessionId text st; cbv zeta.
  - destruct (disco_sendToSession_calls sessionId text st)
      as [[E Hr] | [[E Hr] | E]]; cbv zeta in *; rewrite E;
      (split; [intros Hok; congruence || reflexivity|]);
      (split; [|lia]).
    + intros [Hin | []]. exfalso.
      exact (hasSession_not_enter _ Hin).
    + intros [Hin | [Hin | []]]; exfalso.
      * exact (hasSession_not_enter _ Hin).
      * exact (sendText_not_enter _ _ Hin).
    + intros _. exists [ExecSync (hasSessionCommand (DiscoManager.getTmuxName sessionId))].
      reflexivity.
  - destruct (claude_sendToSession_calls sessionId text st)
      as [[E Hr] | [[E Hr] | E]]; cbv zeta in *; rewrite E;
      (split; [intros Hok; congruence || reflexivity|]);
      intros ms Hin; simpl in Hin; intuition discriminate.
Qed.

End SendFacts.

(** ** The host calls of [createSession] *)

Section CreateFacts.
Context `{Node}.

Lemma claude_createSession_cases sessionId directory channelId
    (st : State ClaudeManager.SessionManager) :
  let resolvedDir := resolve (expandHome directory) in
  let name := ClaudeManager.getTmuxName sessionId in
  let r := ClaudeManager.createSession sessionId directory channelId st in
  if negb (isPathAllowed (allowedPaths st) resolvedDir)
  then r = (Thrown ("Directory not in allowed paths: " +:+ resolvedDir), st)
  else if negb (existsSync resolvedDir (world st))
  then r = (Thrown ("Directory does not exist: " +:+ resolvedDir), st)
  else
    match fst (ClaudeManager.sessionExists sessionId st) with
    | Returned true =>
        fst r = Thrown ("Session " +:+ dquote +:+ sessionId +:+ dquote
                        +:+ " already exists")
        /\ newCalls st (snd r) = [ExecSync (hasSessionCommand name)]
    | _ =>
        newCalls st (snd r)
        = [ExecSync (hasSessionCommand name);
           SpawnSync "tmux" (newSessionArgs name resolvedDir)]
    end.
Proof.
  cbv zeta. unfold ClaudeManager.createSession, ClaudeManager.sessionExists.
  unfold hasSessionCommand, newSessionArgs, newCalls.
  unfold_effects. cbn [world calls allowedPaths fst snd].
  destruct (isPathAllowed (allowedPaths st) (resolve (expandHome directory)));
    cbn [negb]; [|reflexivity].
  destruct (existsSync (resolve (expandHome directory)) (world st));
    cbn [negb]; [|reflexivity].
  case_execSync.
  - split; [reflexivity|]. apply skipn_length_app.
  - case_spawnSync. destruct (statusNotZero result); simpl;
      rewrite <- ?app_assoc; cbn [app]; apply skipn_length_app.
Qed.

Lemma disco_createSession_cases guildId channelId directory
    (st : State DiscoManager.SessionManager) :
  let resolvedDir := resolve (expandHome directory) in
  let sessionId := DiscoManager.makeSessionId guildId channelId in
  let name := DiscoManager.getTmuxName sessionId in
  let r := DiscoManager.createSession guildId channelId directory st in
  if negb (isPathAllowed (allowedPaths st) resolvedDir)
  then r = (Thrown ("Directory not in allowed paths: " +:+ resolvedDir), st)
  else if negb (existsSync resolvedDir (world st))
  then r = (Thrown ("Directory does not exist: " +:+ resolvedDir), st)
  else
    match fst (DiscoManager.sessionExists sessionId st) with
    | Returned true =>
        fst r = Thrown "Session for this channel already exists"
        /\ newCalls st (snd r) = [ExecSync (hasSessionCommand name)]
    | _ =>
        newCalls st (snd r)
        = [ExecSync (hasSessionCommand name);
           SpawnSync "tmux" (newSessionArgs name resolvedDir)]
    end.
Proof.
  cbv zeta. unfold DiscoManager.createSession, DiscoManager.sessionExists.
  unfold hasSessionCommand, newSessionArgs, newCalls.
  unfold_effects. cbn [world calls allowedPaths fst snd].
  destruct (isPathAllowed (allowedPaths st) (resolve (expandHome directory)));
    cbn [negb]; [|reflexivity].
  destruct (existsSync (resolve (expandHome directory)) (world st));
    cbn [negb]; [|reflexivity].
  case_execSync.
  - split; [reflexivity|]. apply skipn_length_app.
  - case_spawnSync. destruct (statusNotZero result); simpl;
      rewrite <- ?app_assoc; cbn [app]; apply skipn_length_app.
Qed.

Lemma newCalls_refl {Self : Type} (st : State Self) : newCalls st st = [].
Proof.
  unfold newCalls. rewrite <- (app_nil_r (calls st)) at 2.
  apply skipn_length_app.
Qed.

(** C4, amended. For a directory that passes the path guard: when the
    resolved directory is absent, [createSession] throws the does-not-exist
    error and issues no host call at all; when it is present and the host
    reports the session running, [createSession] throws the already-exists
    error after the one existence probe; [tmux new-session] is spawned in
    neither case. *)
Theorem createSession_rejections :
  (forall sessionId directory channelId
          (st : State ClaudeManager.SessionManager),
      let resolvedDir := resolve (expandHome directory) in
      let r := ClaudeManager.createSession sessionId directory channelId st in
      isPathAllowed (allowedPaths st) resolvedDir = true ->
      (existsSync resolvedDir (world st) = false ->
       fst r = Thrown ("Directory does not exist: " +:+ resolvedDir)
       /\ newCalls st (snd r) = [])
      /\ (existsSync resolvedDir (world st) = true ->
          fst (ClaudeManager.sessionExists sessionId st) = Returned true ->
          fst r = Thrown ("Session " +:+ dquote +:+ sessionId +:+ dquote
                          +:+ " already exists")
          /\ newCalls st (snd r)
             = [ExecSync (hasSessionCommand
                            (ClaudeManager.getTmuxName sessionId))])
      /\ (existsSync resolvedDir (world st) = false
          \/ fst (ClaudeManager.sessionExists sessionId st) = Returned true ->
          existsb isSpawn (newCalls st (snd r)) = false))
  /\
  (forall guildId channelId directory
          (st : State DiscoManager.SessionManager),
      let resolvedDir := resolve (expandHome directory) in
      let sessionId := DiscoManager.makeSessionId guildId channelId in
      let r := DiscoManager.createSession guildId channelId directory st in
      isPathAllowed (allowedPaths st) resolvedDir = true ->
      (existsSync resolvedDir (world st) = false ->
       fst r = Thrown ("Directory does not exist: " +:+ resolvedDir)
       /\ newCalls st (snd r) = [])
      /\ (existsSync resolvedDir (world st) = true ->
          fst (DiscoManager.sessionExists sessionId st) = Returned true ->
          fst r = Thrown "Session for this channel already exists"
          /\ newCalls st (snd r)
             = [ExecSync (hasSessionCommand
                            (DiscoManager.getTmuxName sessionId))])
      /\ (existsSync resolvedDir (world st) = false
          \/ fst (DiscoManager.sessionExists sessionId st) = Returned true ->
          existsb isSpawn (newCalls st (snd r)) = false)).
Proof.
  split.
  - intros sessionId directory channelId st resolvedDir r Hallowed.
    pose proof (claude_createSession_cases sessionId directory channelId st)
      as Hcases. cbv zeta in Hcases. fold resolvedDir r in Hcases.
    rewrite Hallowed in Hcases. cbn [negb] in Hcases.
    destruct (existsSync resolvedDir (world st)); cbn [negb] in Hcases.
    + split; [discriminate|]. split.
      * intros _ Hrun. rewrite Hrun in Hcases. exact Hcases.
      * intros [Hno | Hrun]; [discriminate|].
        rewrite Hrun in Hcases. destruct Hcases as [_ ->]. reflexivity.
    + rewrite Hcases. cbn [fst snd]. rewrite newCalls_refl.
      split; [auto|]. split; [discriminate | reflexivity].
  - intros guildId channelId directory st resolvedDir sessionId r Hallowed.
    pose proof (disco_createSession_cases guildId channelId directory st)
      as Hcases. cbv zeta in Hcases. fold resolvedDir sessionId r in Hcases.
    rewrite Hallowed in Hcases. cbn [negb] in Hcases.
    destruct (existsSync resolvedDir (world st)); cbn [negb] in Hcases.
    + split; [discriminate|]. split.
      * intros _ Hrun. rewrite Hrun in Hcases. exact Hcases.
      * intros [Hno | Hrun]; [discriminate|].
        rewrite Hrun in Hcases. destruct Hcases as [_ ->]. reflexivity.
    + rewrite Hcases. cbn [fst snd]. rewrite newCalls_refl.
      split; [auto|]. split; [discriminate | reflexivity].
Qed.

End CreateFacts.

(** C4 in front of the scripted host: with no allowlist, an absent
    directory is refused as such, and a running session is refused as
    already existing. *)
Lemma createSession_rejections_witness :
  fst (@ClaudeManager.createSession Scripted.node
         "test" "/nonexistent" "channel123"
         (Scripted.start ClaudeManager.fresh []
            (Scripted.mkScript [] Scripted.spawnOk [])))
  = Thrown "Directory does not exist: /nonexistent"
  /\
  fst (@DiscoManager.createSession Scripted.node "1" "2" "/tmp"
         (Scripted.start DiscoManager.fresh []
            (Scripted.mkScript [Returned EmptyString] Scripted.spawnOk
               ["/tmp"])))
  = Thrown "Session for this channel already exists".
Proof.
  split.
  - pose proof (proj1 (@createSession_rejections Scripted.node)
                  "test" "/nonexistent" "channel123"
                  (Scripted.start ClaudeManager.fresh []
                     (Scripted.mkScript [] Scripted.spawnOk []))
                  eq_refl) as [Habsent _].
    exact (proj1 (Habsent eq_refl)).
  - pose proof (proj2 (@createSession_rejections Scripted.node)
                  "1" "2" "/tmp"
                  (Scripted.start DiscoManager.fresh []
                     (Scripted.mkScript [Returned EmptyString]
                        Scripted.spawnOk ["/tmp"]))
                  eq_refl) as [_ [Hrunning _]].
    exact (proj1 (Hrunning eq_refl eq_refl)).
Defined.

(** The path guard comes first and the directory check second: an absent
    directory outside the allowlist is refused as not allowed, and an
    absent directory is refused as absent even when the session is
    reported running. *)
Lemma createSession_guard_order_counterexample :
  let guarded :=
    Scripted.start ClaudeManager.fresh
      (@setAllowedPaths Scripted.node ["/home/user/projects"])
      (Scripted.mkScript [Returned EmptyString] Scripted.spawnOk []) in
  let unguarded :=
    Scripted.start ClaudeManager.fresh []
      (Scripted.mkScript [Returned EmptyString] Scripted.spawnOk []) in
  (@existsSync Scripted.node "/nonexistent" (world guarded) = false
   /\ fst (@ClaudeManager.createSession Scripted.node
             "test" "/nonexistent" "channel123" guarded)
      = Thrown "Directory not in allowed paths: /nonexistent")
  /\
  (fst (@ClaudeManager.sessionExists Scripted.node "test" unguarded)
   = Returned true
   /\ fst (@ClaudeManager.createSession Scripted.node
             "test" "/nonexistent" "channel123" unguarded)
      = Thrown "Directory does not exist: /nonexistent").
Proof. cbv zeta. repeat split; reflexivity. Qed.

(** ** Shell command lines and argument vectors *)

(** C2. Every [sendToSession] call, in both managers, reaches tmux through
    [execSync] only, that is through command lines given to the shell: the
    first one has the tmux name of the session spliced in between double
    quotes, the next one has the text spliced in between single quotes; no
    call passes an argument vector. *)
Theorem sendToSession_shell_command_lines `{Node} :
  (forall sessionId text (st : State ClaudeManager.SessionManager),
      let name := ClaudeManager.getTmuxName sessionId in
      let r := ClaudeManager.sendToSession sessionId text st in
      exists rest,
        newCalls st (snd r) = ExecSync (hasSessionCommand name) :: rest
        /\ (rest = []
            \/ exists rest',
                rest = ExecSync (sendTextCommand name (escapeQuotes text))
                       :: rest')
        /\ existsb isSpawn (newCalls st (snd r)) = false)
  /\
  (forall sessionId text (st : State DiscoManager.SessionManager),
      let name := DiscoManager.getTmuxName sessionId in
      let r := DiscoManager.sendToSession sessionId text st in
      exists rest,
        newCalls st (snd r) = ExecSync (hasSessionCommand name) :: rest
        /\ (rest = []
            \/ exists rest',
                rest = ExecSync (sendTextCommand name (escapeQuotes text))
                       :: rest')
        /\ existsb isSpawn (newCalls st (snd r)) = false).
Proof.
  split; intros sessionId text st; cbv zeta.
  - destruct (claude_sendToSession_calls sessionId text st)
      as [[E _] | [[E _] | E]]; cbv zeta in E; rewrite E;
      eexists; (split; [reflexivity|]); (split; [|reflexivity]); eauto.
  - destruct (disco_sendToSession_calls sessionId text st)
      as [[E _] | [[E _] | E]]; cbv zeta in E; rewrite E;
      eexists; (split; [reflexivity|]); (split; [|reflexivity]); eauto.
Qed.

(** A session id that holds a command substitution reaches the shell inside
    the command line of the existence probe and of the two key injections. *)
Example sendToSession_shell_command_lines_example :
  calls (snd (@ClaudeManager.sendToSession Scripted.node "$(reboot)" "hi"
                (Scripted.start ClaudeManager.fresh []
                   (Scripted.mkScript
                      [Returned EmptyString; Returned EmptyString;
                       Returned EmptyString]
                      Scripted.spawnOk []))))
  = [ExecSync ("tmux has-session -t " +:+ dquote +:+ "claude-$(reboot)"
               +:+ dquote +:+ " 2>/dev/null");
     ExecSync ("tmux send-keys -t " +:+ dquote +:+ "claude-$(reboot)"
               +:+ dquote +:+ " -l 'hi'");
     ExecSync ("tmux send-keys -t " +:+ dquote +:+ "claude-$(reboot)"
               +:+ dquote +:+ " Enter")].
Proof. reflexivity. Qed.

(** [createSession] does pass the directory as one element of the argument
    vector of [tmux new-session], shell metacharacters included. *)
Example createSession_argument_vector_example :
  calls (snd (@ClaudeManager.createSession Scripted.node
                "inject" "/tmp/$(whoami)" "channel1"
                (Scripted.start ClaudeManager.fresh
                   (@setAllowedPaths Scripted.node ["/tmp"])
                   (Scripted.mkScript [Thrown "no session"] Scripted.spawnOk
                      ["/tmp/$(whoami)"]))))
  = [ExecSync ("tmux has-session -t " +:+ dquote +:+ "claude-inject"
               +:+ dquote +:+ " 2>/dev/null");
     SpawnSync "tmux"
       ["new-session"; "-d"; "-x"; "200"; "-y"; "50";
        "-s"; "claude-inject"; "-c"; "/tmp/$(whoami)";
        "claude"; "--dangerously-skip-permissions"]].
Proof. reflexivity. Qed.

(** * Further properties of the code *)

(** ** Splitting and joining *)

Module SplitFacts.
Import JS.

Lemma noSeparator_cons (sep c : ascii) (s : string) :
  noSeparator sep (String c s) <-> c <> sep /\ noSeparator sep s.
Proof.
  unfold noSeparator. simpl. split.
  - intros Hno. split; intros E; apply Hno; [left | right]; assumption.
  - intros [Hc Hs] [E | E]; [exact (Hc E) | exact (Hs E)].
Qed.

Lemma noSeparator_append (sep : ascii) (s t : string) :
  noSeparator sep (s +:+ t) <-> noSeparator sep s /\ noSeparator sep t.
Proof.
  induction s as [|c s IH].
  - change (EmptyString +:+ t) with t. split; [split; [intros []|] | intros [_ Ht]]; auto.
  - rewrite JSFacts.append_cons, !noSeparator_cons, IH. tauto.
Qed.

Lemma split_noSeparator (sep : ascii) (s : string) :
  noSeparator sep s -> split sep s = [s].
Proof.
  induction s as [|c s IH]; intros Hno; [reflexivity|].
  apply noSeparator_cons in Hno as [Hc Hs]. simpl.
  destruct (Ascii.eqb c sep) eqn:E; [apply Ascii.eqb_eq in E; contradiction|].
  now rewrite (IH Hs).
Qed.

Lemma split_append (sep : ascii) (s t : string) :
  noSeparator sep s ->
  split sep (s +:+ String sep t) = s :: split sep t.
Proof.
  induction s as [|c s IH]; intros Hno.
  - change (EmptyString +:+ String sep t) with (String sep t). simpl.
    now rewrite Ascii.eqb_refl.
  - apply noSeparator_cons in Hno as [Hc Hs].
    rewrite JSFacts.append_cons. simpl.
    destruct (Ascii.eqb c sep) eqn:E; [apply Ascii.eqb_eq in E; contradiction|].
    now rewrite (IH Hs).
Qed.

Lemma split_not_nil (sep : ascii) (s : string) : split sep s <> [].
Proof.
  destruct s as [|c s]; simpl; [discriminate|].
  destruct (Ascii.eqb c sep); [discriminate|].
  destruct (split sep s); discriminate.
Qed.

Lemma split_parts_noSeparator (sep : ascii) (s : string) :
  Forall (noSeparator sep) (split sep s).
Proof.
  induction s as [|c s IH]; simpl.
  - constructor; [intros [] | constructor].
  - destruct (Ascii.eqb c sep) eqn:E.
    + constructor; [intros [] | exact IH].
    + destruct (split sep s) as [|x xs]; [constructor; [|constructor]|].
      * apply noSeparator_cons. split; [|intros []].
        intros ->. now rewrite Ascii.eqb_refl in E.
      * inversion IH as [|? ? Hx Hxs]; subst. constructor; [|exact Hxs].
        apply noSeparator_cons. split; [|exact Hx].
        intros ->. now rewrite Ascii.eqb_refl in E.
Qed.

Lemma join_split (sep : ascii) (s : string) :
  join (String sep EmptyString) (split sep s) = s.
Proof.
  induction s as [|c s IH]; [reflexivity|]. simpl.
  destruct (Ascii.eqb c sep) eqn:E.
  - apply Ascii.eqb_eq in E. subst c.
    pose proof (split_not_nil sep s) as Hne.
    destruct (split sep s) as [|x xs]; [congruence|].
    change (join (String sep EmptyString) (EmptyString :: x :: xs))
      with (EmptyString +:+ String sep EmptyString
            +:+ join (String sep EmptyString) (x :: xs)).
    now rewrite IH.
  - pose proof (split_not_nil sep s) as Hne.
    destruct (split sep s) as [|x xs]; [congruence|].
    destruct xs as [|y ys].
    + simpl in *. now rewrite IH.
    + change (join (String sep EmptyString) (String c x :: y :: ys))
        with (String c x +:+ String sep EmptyString
              +:+ join (String sep EmptyString) (y :: ys)).
      change (join (String sep EmptyString) (x :: y :: ys))
        with (x +:+ String sep EmptyString
              +:+ join (String sep EmptyString) (y :: ys)) in IH.
      rewrite JSFacts.append_cons. now rewrite IH.
Qed.

End SplitFacts.

(** ** Session ids and tmux names of [src/sessionManager.ts] *)

Lemma disco_sessionId_of_tmuxName (sessionId : string) :
  DiscoManager.getSessionIdFromTmuxName (DiscoManager.getTmuxName sessionId)
  = Some sessionId.
Proof.
  unfold DiscoManager.getSessionIdFromTmuxName, DiscoManager.getTmuxName.
  assert (Hs : JS.startsWith (DiscoManager.SESSION_PREFIX +:+ sessionId)
                 DiscoManager.SESSION_PREFIX = true)
    by (apply JSFacts.startsWith_app; now exists sessionId).
  rewrite Hs. cbn [negb].
  rewrite JSFacts.slice_from by (rewrite JSFacts.length_append; lia).
  now rewrite JSFacts.drop_append.
Qed.

Lemma disco_parse_of_make (guildId channelId : string) :
  noSeparator "_" guildId ->
  noSeparator "_" channelId ->
  DiscoManager.parseSessionId (DiscoManager.makeSessionId guildId channelId)
  = Some (DiscoManager.mkParsedId guildId channelId).
Proof.
  intros Hg Hc. unfold DiscoManager.parseSessionId, DiscoManager.makeSessionId.
  change (guildId +:+ "_" +:+ channelId)
    with (guildId +:+ String "_" channelId).
  rewrite (SplitFacts.split_append "_" guildId channelId Hg).
  rewrite (SplitFacts.split_noSeparator "_" channelId Hc). reflexivity.
Qed.

(** X1. [getSessionIdFromTmuxName] undoes [getTmuxName]: it gives back the
    session id of every tmux name built by [getTmuxName], it gives an id
    only for such names, and it gives [null] exactly for the names that do
    not begin with the prefix. *)
Theorem getSessionIdFromTmuxName_inverts_getTmuxName (name sessionId : string) :
  DiscoManager.getSessionIdFromTmuxName (DiscoManager.getTmuxName sessionId)
  = Some sessionId
  /\ (DiscoManager.getSessionIdFromTmuxName name = Some sessionId
      <-> name = DiscoManager.getTmuxName sessionId)
  /\ (DiscoManager.getSessionIdFromTmuxName name = None
      <-> JS.startsWith name DiscoManager.SESSION_PREFIX = false).
Proof.
  split; [apply disco_sessionId_of_tmuxName|]. split.
  - split; [|intros ->; apply disco_sessionId_of_tmuxName].
    unfold DiscoManager.getSessionIdFromTmuxName.
    destruct (JS.startsWith name DiscoManager.SESSION_PREFIX) eqn:Hs;
      cbn [negb]; [|discriminate].
    apply JSFacts.startsWith_app in Hs as [rest ->].
    rewrite JSFacts.slice_from by (rewrite JSFacts.length_append; lia).
    rewrite JSFacts.drop_append. intros E. injection E as ->. reflexivity.
  - unfold DiscoManager.getSessionIdFromTmuxName.
    destruct (JS.startsWith name DiscoManager.SESSION_PREFIX);
      cbn [negb]; split; congruence.
Qed.

(** X2. [parseSessionId] undoes [makeSessionId] on guild and channel ids
    that hold no underscore (Discord ids are digits). *)
Theorem parseSessionId_makeSessionId (guildId channelId : string) :
  noSeparator "_" guildId ->
  noSeparator "_" channelId ->
  DiscoManager.parseSessionId (DiscoManager.makeSessionId guildId channelId)
  = Some (DiscoManager.mkParsedId guildId channelId).
Proof.
  exact (disco_parse_of_make guildId channelId).
Qed.

Lemma parseSessionId_makeSessionId_witness :
  DiscoManager.parseSessionId (DiscoManager.makeSessionId "1234" "5678")
  = Some (DiscoManager.mkParsedId "1234" "5678").
Proof.
  apply (parseSessionId_makeSessionId "1234" "5678");
    unfold noSeparator; simpl; intuition discriminate.
Defined.

(** X3. Whatever [parseSessionId] accepts is a session id of
    [makeSessionId]: the two parts it returns hold no underscore and give
    the session id back. *)
Theorem parseSessionId_sound (sessionId : string) (parsed : DiscoManager.ParsedId) :
  DiscoManager.parseSessionId sessionId = Some parsed ->
  DiscoManager.makeSessionId (DiscoManager.parsedGuildId parsed)
    (DiscoManager.parsedChannelId parsed) = sessionId
  /\ noSeparator "_" (DiscoManager.parsedGuildId parsed)
  /\ noSeparator "_" (DiscoManager.parsedChannelId parsed).
Proof.
  unfold DiscoManager.parseSessionId, DiscoManager.makeSessionId.
  pose proof (SplitFacts.join_split "_" sessionId) as Hjoin.
  pose proof (SplitFacts.split_parts_noSeparator "_" sessionId) as Hparts.
  destruct (JS.split "_" sessionId) as [|a [|b [|c rest]]];
    cbn [List.length Nat.eqb negb]; try discriminate.
  intros E. injection E as <-. cbn [DiscoManager.parsedGuildId
    DiscoManager.parsedChannelId nth].
  split; [exact Hjoin|].
  apply Forall_cons_iff in Hparts as [Ha Hrest].
  apply Forall_cons_iff in Hrest as [Hb _].
  split; assumption.
Qed.

Lemma parseSessionId_sound_witness :
  DiscoManager.makeSessionId "1234" "5678" = "1234_5678"
  /\ noSeparator "_" "1234" /\ noSeparator "_" "5678".
Proof.
  apply (parseSessionId_sound "1234_5678"
           (DiscoManager.mkParsedId "1234" "5678")).
  reflexivity.
Defined.

(** ** Probing, capturing, interrupting and killing *)

(** X4. [sessionExists] never throws, in either manager: it issues the one
    existence probe, answers true exactly when the probe succeeds, and
    leaves the fields of the manager alone.  [getSessionIdForChannel]
    answers with the session id of the channel exactly when the probe
    succeeds and with [null] otherwise. *)
Theorem sessionExists_collapses_failures `{Node} :
  (forall sessionId (st : State ClaudeManager.SessionManager),
      let probe := hasSessionCommand (ClaudeManager.getTmuxName sessionId) in
      let r := ClaudeManager.sessionExists sessionId st in
      exists running,
        fst r = Returned running
        /\ (running = true
            <-> exists out, fst (execSync probe (world st)) = Returned out)
        /\ newCalls st (snd r) = [ExecSync probe]
        /\ self (snd r) = self st)
  /\
  (forall sessionId (st : State DiscoManager.SessionManager),
      let probe := hasSessionCommand (DiscoManager.getTmuxName sessionId) in
      let r := DiscoManager.sessionExists sessionId st in
      exists running,
        fst r = Returned running
        /\ (running = true
            <-> exists out, fst (execSync probe (world st)) = Returned out)
        /\ newCalls st (snd r) = [ExecSync probe]
        /\ self (snd r) = self st)
  /\
  (forall guildId channelId (st : State DiscoManager.SessionManager),
      let sessionId := DiscoManager.makeSessionId guildId channelId in
      let probe := hasSessionCommand (DiscoManager.getTmuxName sessionId) in
      let r := DiscoManager.getSessionIdForChannel guildId channelId st in
      (fst r = Returned (Some sessionId)
       <-> exists out, fst (execSync probe (world st)) = Returned out)
      /\ (fst r = Returned None
          <-> exists message,
                fst (execSync probe (world st)) = Thrown message)).
Proof.
  split; [|split].
  - intros sessionId st. unfold ClaudeManager.sessionExists. run_method.
    case_execSync; eexists; (split; [reflexivity|]);
      (split; [|split; [close_calls | reflexivity]]).
    + split; eauto.
    + split; [discriminate | intros [out E]; discriminate].
  - intros sessionId st. unfold DiscoManager.sessionExists. run_method.
    case_execSync; eexists; (split; [reflexivity|]);
      (split; [|split; [close_calls | reflexivity]]).
    + split; eauto.
    + split; [discriminate | intros [out E]; discriminate].
  - intros guildId channelId st.
    unfold DiscoManager.getSessionIdForChannel, DiscoManager.sessionExists.
    run_method. case_execSync; split; split;
      try discriminate; try (intros [x E]; discriminate); eauto.
Qed.

(** [checkTmux] never throws, in either manager: it answers true exactly
    when the lookup of the tmux binary succeeds. *)
Lemma checkTmux_collapses_failures `{Node} :
  (forall st : State ClaudeManager.SessionManager,
      exists found,
        fst (ClaudeManager.checkTmux st) = Returned found
        /\ (found = true
            <-> exists out, fst (execSync "which tmux" (world st))
                            = Returned out))
  /\
  (forall st : State DiscoManager.SessionManager,
      exists found,
        fst (DiscoManager.checkTmux st) = Returned found
        /\ (found = true
            <-> exists out, fst (execSync "which tmux" (world st))
                            = Returned out)).
Proof.
  split; intros st.
  - unfold ClaudeManager.checkTmux. run_method.
    case_execSync; eexists; (split; [reflexivity|]); split;
      try discriminate; try (intros [x E]; discriminate); eauto.
  - unfold DiscoManager.checkTmux. run_method.
    case_execSync; eexists; (split; [reflexivity|]); split;
      try discriminate; try (intros [x E]; discriminate); eauto.
Qed.

(** X6. [captureOutput], in either manager: without a running session it
    throws the does-not-exist error after the probe alone; with one it
    returns what the capture command printed, unchanged, or throws the
    message of the failed capture behind a fixed prefix; it never touches
    the fields of the manager. *)
Theorem captureOutput_outcomes `{Node} :
  (forall sessionId lines (st : State ClaudeManager.SessionManager),
      let name := ClaudeManager.getTmuxName sessionId in
      let r := ClaudeManager.captureOutput sessionId lines st in
      self (snd r) = self st
      /\ (forall message w,
             execSync (hasSessionCommand name) (world st) = (Thrown message, w) ->
             fst r = Thrown ("Session " +:+ dquote +:+ sessionId +:+ dquote
                             +:+ " does not exist")
             /\ newCalls st (snd r) = [ExecSync (hasSessionCommand name)])
      /\ (forall out w reply w',
             execSync (hasSessionCommand name) (world st) = (Returned out, w) ->
             execSync (captureCommand name lines) w = (reply, w') ->
             fst r = match reply with
                     | Returned output => Returned output
                     | Thrown message =>
                         Thrown ("Failed to capture output: " +:+ message)
                     end
             /\ newCalls st (snd r)
                = [ExecSync (hasSessionCommand name);
                   ExecSync (captureCommand name lines)]))
  /\
  (forall sessionId lines (st : State DiscoManager.SessionManager),
      let name := DiscoManager.getTmuxName sessionId in
      let r := DiscoManager.captureOutput sessionId lines st in
      self (snd r) = self st
      /\ (forall message w,
             execSync (hasSessionCommand name) (world st) = (Thrown message, w) ->
             fst r = Thrown "Session does not exist"
             /\ newCalls st (snd r) = [ExecSync (hasSessionCommand name)])
      /\ (forall out w reply w',
             execSync (hasSessionCommand name) (world st) = (Returned out, w) ->
             execSync (captureCommand name lines) w = (reply, w') ->
             fst r = match reply with
                     | Returned output => Returned output
                     | Thrown message =>
                         Thrown ("Failed to capture output: " +:+ message)
                     end
             /\ newCalls st (snd r)
                = [ExecSync (hasSessionCommand name);
                   ExecSync (captureCommand name lines)])).
Proof.
  split; intros sessionId lines st.
  - split; [apply claude_captureOutput_self|].
    unfold ClaudeManager.captureOutput, ClaudeManager.sessionExists.
    run_method. split.
    + intros message w E. rewrite E. cbn. split; [reflexivity | close_calls].
    + intros out w reply w' E E'. rewrite E. cbn. rewrite E'.
      destruct reply; cbn; (split; [reflexivity | close_calls]).
  - split; [apply disco_captureOutput_self|].
    unfold DiscoManager.captureOutput, DiscoManager.sessionExists.
    run_method. split.
    + intros message w E. rewrite E. cbn. split; [reflexivity | close_calls].
    + intros out w reply w' E E'. rewrite E. cbn. rewrite E'.
      destruct reply; cbn; (split; [reflexivity | close_calls]).
Qed.

(** X7. [sendEscape], in either manager: without a running session it
    throws the does-not-exist error and sends no key; with one it sends
    the Escape key once and returns true, or throws the message of the
    failed call behind a fixed prefix. *)
Theorem sendEscape_outcomes `{Node} :
  (forall sessionId (st : State ClaudeManager.SessionManager),
      let name := ClaudeManager.getTmuxName sessionId in
      let r := ClaudeManager.sendEscape sessionId st in
      self (snd r) = self st
      /\ (forall message w,
             execSync (hasSessionCommand name) (world st) = (Thrown message, w) ->
             fst r = Thrown ("Session " +:+ dquote +:+ sessionId +:+ dquote
                             +:+ " does not exist")
             /\ newCalls st (snd r) = [ExecSync (hasSessionCommand name)])
      /\ (forall out w reply w',
             execSync (hasSessionCommand name) (world st) = (Returned out, w) ->
             execSync (sendEscapeCommand name) w = (reply, w') ->
             fst r = match reply with
                     | Returned _ => Returned true
                     | Thrown message =>
                         Thrown ("Failed to send escape: " +:+ message)
                     end
             /\ newCalls st (snd r)
                = [ExecSync (hasSessionCommand name);
                   ExecSync (sendEscapeCommand name)]))
  /\
  (forall sessionId (st : State DiscoManager.SessionManager),
      let name := DiscoManager.getTmuxName sessionId in
      let r := DiscoManager.sendEscape sessionId st in
      self (snd r) = self st
      /\ (forall message w,
             execSync (hasSessionCommand name) (world st) = (Thrown message, w) ->
             fst r = Thrown "Session does not exist"
             /\ newCalls st (snd r) = [ExecSync (hasSessionCommand name)])
      /\ (forall out w reply w',
             execSync (hasSessionCommand name) (world st) = (Returned out, w) ->
             execSync (sendEscapeCommand name) w = (reply, w') ->
             fst r = match reply with
                     | Returned _ => Returned true
                     | Thrown message =>
                         Thrown ("Failed to send escape: " +:+ message)
                     end
             /\ newCalls st (snd r)
                = [ExecSync (hasSessionCommand name);
                   ExecSync (sendEscapeCommand name)])).
Proof.
  split; intros sessionId st.
  - unfold ClaudeManager.sendEscape, ClaudeManager.sessionExists.
    run_method. split; [|split].
    + case_execSync; [case_execSync|]; reflexivity.
    + intros message w E. rewrite E. cbn. split; [reflexivity | close_calls].
    + intros out w reply w' E E'. rewrite E. cbn. rewrite E'.
      destruct reply; cbn; (split; [reflexivity | close_calls]).
  - unfold DiscoManager.sendEscape, DiscoManager.sessionExists.
    run_method. split; [|split].
    + case_execSync; [case_execSync|]; reflexivity.
    + intros message w E. rewrite E. cbn. split; [reflexivity | close_calls].
    + intros out w reply w' E E'. rewrite E. cbn. rewrite E'.
      destruct reply; cbn; (split; [reflexivity | close_calls]).
Qed.

(** X8. [killSession], in either manager: without a running session it
    throws the does-not-exist error and issues no kill; when the kill
    command fails it throws that message behind a fixed prefix and leaves
    the registry and the cache as they were; only when the kill command
    succeeds does it return true and clean up. *)
Theorem killSession_outcomes `{Node} :
  (forall sessionId (st : State ClaudeManager.SessionManager),
      let name := ClaudeManager.getTmuxName sessionId in
      let r := ClaudeManager.killSession sessionId st in
      (forall message w,
          execSync (hasSessionCommand name) (world st) = (Thrown message, w) ->
          fst r = Thrown ("Session " +:+ dquote +:+ sessionId +:+ dquote
                          +:+ " does not exist")
          /\ newCalls st (snd r) = [ExecSync (hasSessionCommand name)]
          /\ self (snd r) = self st)
      /\ (forall out w reply w',
             execSync (hasSessionCommand name) (world st) = (Returned out, w) ->
             execSync (killSessionCommand name) w = (reply, w') ->
             newCalls st (snd r)
             = [ExecSync (hasSessionCommand name);
                ExecSync (killSessionCommand name)]
             /\ match reply with
                | Returned _ =>
                    fst r = Returned true
                    /\ self (snd r) = ClaudeManager.cleanUp sessionId (self st)
                | Thrown message =>
                    fst r = Thrown ("Failed to kill session: " +:+ message)
                    /\ self (snd r) = self st
                end))
  /\
  (forall sessionId (st : State DiscoManager.SessionManager),
      let name := DiscoManager.getTmuxName sessionId in
      let r := DiscoManager.killSession sessionId st in
      (forall message w,
          execSync (hasSessionCommand name) (world st) = (Thrown message, w) ->
          fst r = Thrown "Session does not exist"
          /\ newCalls st (snd r) = [ExecSync (hasSessionCommand name)]
          /\ self (snd r) = self st)
      /\ (forall out w reply w',
             execSync (hasSessionCommand name) (world st) = (Returned out, w) ->
             execSync (killSessionCommand name) w = (reply, w') ->
             newCalls st (snd r)
             = [ExecSync (hasSessionCommand name);
                ExecSync (killSessionCommand name)]
             /\ match reply with
                | Returned _ =>
                    fst r = Returned true
                    /\ DiscoManager.lastOutput (self (snd r))
                       = delete sessionId (DiscoManager.lastOutput (self st))
                | Thrown message =>
                    fst r = Thrown ("Failed to kill session: " +:+ message)
                    /\ self (snd r) = self st
                end)).
Proof.
  split; intros sessionId st.
  - unfold ClaudeManager.killSession, ClaudeManager.sessionExists.
    run_method. split.
    + intros message w E. rewrite E. cbn.
      split; [reflexivity | split; [close_calls | reflexivity]].
    + intros out w reply w' E E'. rewrite E. cbn. rewrite E'.
      destruct reply; cbn; (split; [close_calls | split; reflexivity]).
  - unfold DiscoManager.killSession, DiscoManager.sessionExists.
    run_method. split.
    + intros message w E. rewrite E. cbn.
      split; [reflexivity | split; [close_calls | reflexivity]].
    + intros out w reply w' E E'. rewrite E. cbn. rewrite E'.
      destruct reply; cbn; (split; [close_calls | split; reflexivity]).
Qed.

(** X9. [sendToSession], in either manager: without a running session it
    throws the does-not-exist error and injects nothing; when injecting the
    text fails it throws that message behind a fixed prefix and Enter is
    not sent; it returns true only when the text and Enter both went
    through; the fields of the manager stay as they were. *)
Theorem sendToSession_outcomes `{Node} :
  (forall sessionId text (st : State ClaudeManager.SessionManager),
      let name := ClaudeManager.getTmuxName sessionId in
      let r := ClaudeManager.sendToSession sessionId text st in
      self (snd r) = self st
      /\ (forall message w,
             execSync (hasSessionCommand name) (world st) = (Thrown message, w) ->
             fst r = Thrown ("Session " +:+ dquote +:+ sessionId +:+ dquote
                             +:+ " does not exist")
             /\ newCalls st (snd r) = [ExecSync (hasSessionCommand name)])
      /\ (forall out w message w',
             execSync (hasSessionCommand name) (world st) = (Returned out, w) ->
             execSync (sendTextCommand name (escapeQuotes text)) w
             = (Thrown message, w') ->
             fst r = Thrown ("Failed to send to session: " +:+ message)
             /\ newCalls st (snd r)
                = [ExecSync (hasSessionCommand name);
                   ExecSync (sendTextCommand name (escapeQuotes text))])
      /\ (forall out w out' w' reply w'',
             execSync (hasSessionCommand name) (world st) = (Returned out, w) ->
             execSync (sendTextCommand name (escapeQuotes text)) w
             = (Returned out', w') ->
             execSync (sendEnterCommand name) w' = (reply, w'') ->
             fst r = match reply with
                     | Returned _ => Returned true
                     | Thrown message =>
                         Thrown ("Failed to send to session: " +:+ message)
                     end))
  /\
  (forall sessionId text (st : State DiscoManager.SessionManager),
      let name := DiscoManager.getTmuxName sessionId in
      let r := DiscoManager.sendToSession sessionId text st in
      self (snd r) = self st
      /\ (forall message w,
             execSync (hasSessionCommand name) (world st) = (Thrown message, w) ->
             fst r = Thrown "Session does not exist"
             /\ newCalls st (snd r) = [ExecSync (hasSessionCommand name)])
      /\ (forall out w message w',
             execSync (hasSessionCommand name) (world st) = (Returned out, w) ->
             execSync (sendTextCommand name (escapeQuotes text)) w
             = (Thrown message, w') ->
             fst r = Thrown ("Failed to send to session: " +:+ message)
             /\ newCalls st (snd r)
                = [ExecSync (hasSessionCommand name);
                   ExecSync (sendTextCommand name (escapeQuotes text))])
      /\ (forall out w out' w' reply w'',
             execSync (hasSessionCommand name) (world st) = (Returned out, w) ->
             execSync (sendTextCommand name (escapeQuotes text)) w
             = (Returned out', w') ->
             execSync (sendEnterCommand name) w' = (reply, w'') ->
             fst r = match reply with
                     | Returned _ => Returned true
                     | Thrown message =>
                         Thrown ("Failed to send to session: " +:+ message)
                     end)).
Proof.
  split; intros sessionId text st.
  - unfold ClaudeManager.sendToSession, ClaudeManager.sessionExists.
    run_method. split; [|split; [|split]].
    + case_execSync; [case_execSync; [case_execSync|]|]; reflexivity.
    + intros message w E. rewrite E. cbn. split; [reflexivity | close_calls].
    + intros out w message w' E E'. rewrite E. cbn. rewrite E'. cbn.
      split; [reflexivity | close_calls].
    + intros out w out' w' reply w'' E E' E''. rewrite E. cbn. rewrite E'.
      cbn. rewrite E''. destruct reply; reflexivity.
  - unfold DiscoManager.sendToSession, DiscoManager.sessionExists.
    run_method. split; [|split; [|split]].
    + case_execSync; [case_execSync; [case_execSync|]|]; reflexivity.
    + intros message w E. rewrite E. cbn. split; [reflexivity | close_calls].
    + intros out w message w' E E'. rewrite E. cbn. rewrite E'. cbn.
      split; [reflexivity | close_calls].
    + intros out w out' w' reply w'' E E' E''. rewrite E. cbn. rewrite E'.
      cbn. rewrite E''. destruct reply; reflexivity.
Qed.

(** ** The cache of [getNewOutput] and the walk over the lines *)

Lemma claude_getNewOutput_eq `{Node} sessionId lines
    (st : State ClaudeManager.SessionManager) :
  ClaudeManager.getNewOutput sessionId lines st
  = match ClaudeManager.captureOutput sessionId lines st with
    | (Returned output, st') =>
        (Returned
           (newOutput
              (JS.orElse (ClaudeManager.lastOutput (self st') !! sessionId)
                 EmptyString) output),
         mkState (world st') (calls st') (allowedPaths st')
           (ClaudeManager.mkManager
              (ClaudeManager.channelMap (self st'))
              (ClaudeManager.reverseMap (self st'))
              (<[sessionId := output]> (ClaudeManager.lastOutput (self st')))))
    | (Thrown message, st') => (Thrown message, st')
    end.
Proof.
  unfold ClaudeManager.getNewOutput. unfold bind at 1.
  destruct (ClaudeManager.captureOutput sessionId lines st) as [[output|message] st'];
    reflexivity.
Qed.

Lemma disco_getNewOutput_eq `{Node} sessionId lines
    (st : State DiscoManager.SessionManager) :
  DiscoManager.getNewOutput sessionId lines st
  = match DiscoManager.captureOutput sessionId lines st with
    | (Returned output, st') =>
        (Returned
           (newOutput
              (JS.orElse (DiscoManager.lastOutput (self st') !! sessionId)
                 EmptyString) output),
         mkState (world st') (calls st') (allowedPaths st')
           (DiscoManager.mkManager
              (<[sessionId := output]> (DiscoManager.lastOutput (self st')))))
    | (Thrown message, st') => (Thrown message, st')
    end.
Proof.
  unfold DiscoManager.getNewOutput. unfold bind at 1.
  destruct (DiscoManager.captureOutput sessionId lines st) as [[output|message] st'];
    reflexivity.
Qed.

(** X10. [getNewOutput], in either manager: when the capture succeeds, the
    cache entry of the session becomes the captured text and every other
    entry and field stays as it was; when the capture throws,
    [getNewOutput] throws the same error and the cache is left alone. *)
Theorem getNewOutput_cache `{Node} :
  (forall sessionId lines (st : State ClaudeManager.SessionManager),
      let r := ClaudeManager.getNewOutput sessionId lines st in
      match fst (ClaudeManager.captureOutput sessionId lines st) with
      | Returned output =>
          self (snd r)
          = ClaudeManager.mkManager
              (ClaudeManager.channelMap (self st))
              (ClaudeManager.reverseMap (self st))
              (<[sessionId := output]> (ClaudeManager.lastOutput (self st)))
      | Thrown message => fst r = Thrown message /\ self (snd r) = self st
      end)
  /\
  (forall sessionId lines (st : State DiscoManager.SessionManager),
      let r := DiscoManager.getNewOutput sessionId lines st in
      match fst (DiscoManager.captureOutput sessionId lines st) with
      | Returned output =>
          self (snd r)
          = DiscoManager.mkManager
              (<[sessionId := output]> (DiscoManager.lastOutput (self st)))
      | Thrown message => fst r = Thrown message /\ self (snd r) = self st
      end).
Proof.
  split; intros sessionId lines st; cbv zeta.
  - pose proof (claude_captureOutput_self sessionId lines st) as Hself.
    rewrite claude_getNewOutput_eq.
    destruct (ClaudeManager.captureOutput sessionId lines st)
      as [[output|message] st']; cbn [fst snd self] in *.
    + now rewrite Hself.
    + split; [reflexivity | exact Hself].
  - pose proof (disco_captureOutput_self sessionId lines st) as Hself.
    rewrite disco_getNewOutput_eq.
    destruct (DiscoManager.captureOutput sessionId lines st)
      as [[output|message] st']; cbn [fst snd self] in *.
    + now rewrite Hself.
    + split; [reflexivity | exact Hself].
Qed.

Lemma newOutput_cached_again (output : string) :
  newOutput (JS.orElse (Some output) EmptyString) output = None.
Proof.
  apply newOutput_first_or_same. destruct output; simpl; auto.
Qed.

(** X11. Polling twice: when two [getNewOutput] calls in a row for the same
    session capture the same text, the second one returns [null], whatever
    the first one returned and whatever the numbers of lines asked for. *)
Theorem getNewOutput_twice `{Node} :
  (forall sessionId lines lines' output
          (st st1 st2 : State ClaudeManager.SessionManager),
      ClaudeManager.captureOutput sessionId lines st = (Returned output, st1) ->
      ClaudeManager.captureOutput sessionId lines'
        (snd (ClaudeManager.getNewOutput sessionId lines st))
      = (Returned output, st2) ->
      fst (ClaudeManager.getNewOutput sessionId lines'
             (snd (ClaudeManager.getNewOutput sessionId lines st)))
      = Returned None)
  /\
  (forall sessionId lines lines' output
          (st st1 st2 : State DiscoManager.SessionManager),
      DiscoManager.captureOutput sessionId lines st = (Returned output, st1) ->
      DiscoManager.captureOutput sessionId lines'
        (snd (DiscoManager.getNewOutput sessionId lines st))
      = (Returned output, st2) ->
      fst (DiscoManager.getNewOutput sessionId lines'
             (snd (DiscoManager.getNewOutput sessionId lines st)))
      = Returned None).
Proof.
  split; intros sessionId lines lines' output st st1 st2 Hfirst Hsecond.
  - destruct (claude_getNewOutput_run _ _ _ _ _ Hfirst) as [_ Hcache].
    destruct (claude_getNewOutput_run _ _ _ _ _ Hsecond) as [-> _].
    rewrite Hcache. f_equal. apply newOutput_cached_again.
  - destruct (disco_getNewOutput_run _ _ _ _ _ Hfirst) as [_ Hcache].
    destruct (disco_getNewOutput_run _ _ _ _ _ Hsecond) as [-> _].
    rewrite Hcache. f_equal. apply newOutput_cached_again.
Qed.

(** Two polls of a pane that shows the same prompt both times. *)
Lemma getNewOutput_twice_witness :
  let st :=
    Scripted.start DiscoManager.fresh []
      (Scripted.mkScript
         [Returned EmptyString; Returned "ready>";
          Returned EmptyString; Returned "ready>"]
         Scripted.spawnOk []) in
  fst (@DiscoManager.getNewOutput Scripted.node "1_2" 100
         (snd (@DiscoManager.getNewOutput Scripted.node "1_2" 200 st)))
  = Returned None.
Proof.
  cbv zeta.
  eapply (proj2 (@getNewOutput_twice Scripted.node)); reflexivity.
Defined.

Lemma walkLines_offset (lastLines newLines : list string) (i : nat) :
  walkLines lastLines newLines i i = i + walkLines lastLines newLines 0 0.
Proof.
  revert i. induction newLines as [|line rest IH]; intros i; simpl; [lia|].
  destruct (JS.includes lastLines line); [|lia].
  rewrite (IH (S i)), (IH 1). lia.
Qed.

(** X12. The walk of [getNewOutput] over the new lines stops at the first
    line that the previous capture does not hold: every line before the
    index it returns is a line of the previous capture, and the line at
    that index, when there is one, is not. *)
Theorem walkLines_first_unknown (lastLines newLines : list string) :
  let diffStart := walkLines lastLines newLines 0 0 in
  diffStart <= List.length newLines
  /\ (forall line, In line (firstn diffStart newLines) ->
                   JS.includes lastLines line = true)
  /\ (forall line, nth_error newLines diffStart = Some line ->
                   JS.includes lastLines line = false).
Proof.
  cbv zeta. induction newLines as [|line rest IH]; simpl.
  - split; [lia|]. split; [intros line [] | intros line E; discriminate].
  - destruct (JS.includes lastLines line) eqn:Hin.
    + rewrite (walkLines_offset lastLines rest 1).
      destruct IH as [Hle [Hbefore Hat]]. simpl.
      split; [lia|]. split; [|exact Hat].
      intros l [<- | Hl]; [exact Hin | now apply Hbefore].
    + simpl. split; [lia|]. split; [intros l []|].
      intros l E. injection E as <-. exact Hin.
Qed.

Lemma walkLines_all_known (lastLines newLines : list string) :
  (forall line, In line newLines -> JS.includes lastLines line = true) ->
  walkLines lastLines newLines 0 0 = List.length newLines.
Proof.
  induction newLines as [|line rest IH]; intros Hall; simpl; [reflexivity|].
  rewrite (Hall line) by now left.
  rewrite (walkLines_offset lastLines rest 1).
  rewrite IH by (intros l Hl; apply Hall; now right). reflexivity.
Qed.

(** X13. Outside the fast path, a capture all of whose lines already occur
    in the previous capture yields nothing new, in whatever order and
    number the lines now stand. *)
Theorem newOutput_known_lines (last output : string) :
  (String.length last <? String.length output)
  && JS.endsWith output (JS.slice last (-500) None) = false ->
  (forall line, In line (JS.split LF (JS.trim output)) ->
                JS.includes (JS.split LF (JS.trim last)) line = true) ->
  newOutput last output = None.
Proof.
  intros Hslow Hknown. unfold newOutput.
  destruct (negb (JS.truthy last) || String.eqb output last); [reflexivity|].
  rewrite Hslow. rewrite (walkLines_all_known _ _ Hknown).
  unfold JS.arraySlice. rewrite skipn_all. reflexivity.
Qed.

(** The lines A and B seen before, now in the order B, A, A. *)
Lemma newOutput_known_lines_witness :
  newOutput ("A" +:+ newline +:+ "B")
            ("B" +:+ newline +:+ "A" +:+ newline +:+ "A") = None.
Proof.
  apply newOutput_known_lines.
  - reflexivity.
  - simpl. intros line [<- | [<- | [<- | []]]]; reflexivity.
Defined.

(** ** Creating a session *)

(** X14. [createSession] of the manager with the registry, for an allowed
    and present directory and a session that is not running: when tmux
    exits with status 0 the descriptor names the session, its tmux name,
    the resolved directory, the channel and the attach command, and the
    session and the channel are registered to each other; otherwise the
    call throws the error text of tmux (or a fixed text when there is
    none) behind a fixed prefix and registers nothing. *)
Theorem createSession_registers `{Node} sessionId directory channelId
    (st : State ClaudeManager.SessionManager) message w result w' :
  let resolvedDir := resolve (expandHome directory) in
  let name := ClaudeManager.getTmuxName sessionId in
  let r := ClaudeManager.createSession sessionId directory channelId st in
  isPathAllowed (allowedPaths st) resolvedDir = true ->
  existsSync resolvedDir (world st) = true ->
  execSync (hasSessionCommand name) (world st) = (Thrown message, w) ->
  spawnSync "tmux" (newSessionArgs name resolvedDir) w = (result, w') ->
  if statusNotZero result
  then fst r = Thrown ("Failed to create session: "
                       +:+ JS.orElse (stderr result) "tmux command failed")
       /\ self (snd r) = self st
  else fst r = Returned
                 {| ClaudeManager.id := sessionId;
                    ClaudeManager.tmuxName := name;
                    ClaudeManager.directory := resolvedDir;
                    ClaudeManager.channelId := Some channelId;
                    ClaudeManager.attachCommand := "tmux attach -t " +:+ name;
                    ClaudeManager.createdAt := Some DateNow |}
       /\ fst (ClaudeManager.getChannelBySession sessionId (snd r))
          = Returned (Some channelId)
       /\ fst (ClaudeManager.getSessionByChannel channelId (snd r))
          = Returned (Some sessionId)
       /\ ClaudeManager.lastOutput (self (snd r))
          = ClaudeManager.lastOutput (self st).
Proof.
  intros resolvedDir name r Hallowed Hpresent Hprobe Hspawn.
  subst r resolvedDir name.
  unfold ClaudeManager.createSession, ClaudeManager.sessionExists,
    ClaudeManager.getChannelBySession, ClaudeManager.getSessionByChannel.
  unfold newSessionArgs in Hspawn. run_method.
  rewrite Hallowed. cbn [negb]. rewrite Hpresent. cbn [negb].
  rewrite Hprobe. cbn [world]. rewrite Hspawn.
  destruct (statusNotZero result); cbn [fst snd self].
  - split; reflexivity.
  - cbn [ClaudeManager.channelMap ClaudeManager.reverseMap
         ClaudeManager.lastOutput].
    rewrite !lookup_insert_eq. repeat split.
Qed.

(** A session created in /tmp for a channel, tmux exiting with status 0. *)
Lemma createSession_registers_witness :
  let r :=
    @ClaudeManager.createSession Scripted.node "test" "/tmp" "channel123"
      (Scripted.start ClaudeManager.fresh []
         (Scripted.mkScript [Thrown "no session"] Scripted.spawnOk ["/tmp"])) in
  fst r = Returned
            {| ClaudeManager.id := "test";
               ClaudeManager.tmuxName := "claude-test";
               ClaudeManager.directory := "/tmp";
               ClaudeManager.channelId := Some "channel123";
               ClaudeManager.attachCommand := "tmux attach -t claude-test";
               ClaudeManager.createdAt := Some DateNow |}
  /\ fst (@ClaudeManager.getChannelBySession Scripted.node "test" (snd r))
     = Returned (Some "channel123")
  /\ fst (@ClaudeManager.getSessionByChannel Scripted.node "channel123" (snd r))
     = Returned (Some "test")
  /\ ClaudeManager.lastOutput (self (snd r)) = ∅.
Proof.
  cbv zeta.
  apply (@createSession_registers Scripted.node "test" "/tmp" "channel123"
           (Scripted.start ClaudeManager.fresh []
              (Scripted.mkScript [Thrown "no session"] Scripted.spawnOk
                 ["/tmp"]))
           "no session"
           (Scripted.mkScript [] Scripted.spawnOk ["/tmp"])
           Scripted.spawnOk
           (Scripted.mkScript [] Scripted.spawnOk ["/tmp"]));
    reflexivity.
Defined.

(** X15. [createSession] of [src/sessionManager.ts], for an allowed and
    present directory and a channel without a running session: when tmux
    exits with status 0 the descriptor carries the guild and the channel,
    the session id made of both, the tmux name made of that id and the
    resolved directory; otherwise the call throws the error text of tmux
    (or a fixed text when there is none) behind a fixed prefix.  The cache
    is untouched either way. *)
Theorem createSession_descriptor `{Node} guildId channelId directory
    (st : State DiscoManager.SessionManager) message w result w' :
  let resolvedDir := resolve (expandHome directory) in
  let sessionId := DiscoManager.makeSessionId guildId channelId in
  let name := DiscoManager.getTmuxName sessionId in
  let r := DiscoManager.createSession guildId channelId directory st in
  isPathAllowed (allowedPaths st) resolvedDir = true ->
  existsSync resolvedDir (world st) = true ->
  execSync (hasSessionCommand name) (world st) = (Thrown message, w) ->
  spawnSync "tmux" (newSessionArgs name resolvedDir) w = (result, w') ->
  self (snd r) = self st
  /\ fst r = if statusNotZero result
             then Thrown ("Failed to create session: "
                          +:+ JS.orElse (stderr result) "tmux command failed")
             else Returned
                    {| DiscoManager.id := sessionId;
                       DiscoManager.tmuxName := name;
                       DiscoManager.directory := resolvedDir;
                       DiscoManager.guildId := guildId;
                       DiscoManager.channelId := channelId;
                       DiscoManager.attachCommand := "tmux attach -t " +:+ name;
                       DiscoManager.createdAt := Some DateNow |}.
Proof.
  intros resolvedDir sessionId name r Hallowed Hpresent Hprobe Hspawn.
  subst r resolvedDir name sessionId.
  unfold DiscoManager.createSession, DiscoManager.sessionExists.
  unfold newSessionArgs in Hspawn. run_method.
  rewrite Hallowed. cbn [negb]. rewrite Hpresent. cbn [negb].
  rewrite Hprobe. cbn [world]. rewrite Hspawn.
  destruct (statusNotZero result); cbn [fst snd self]; split; reflexivity.
Qed.

(** tmux refusing to start, with a diagnostic on its error stream. *)
Lemma createSession_descriptor_witness :
  let st :=
    Scripted.start DiscoManager.fresh []
      (Scripted.mkScript [Thrown "no session"]
         (mkSpawnResult (Some 1%Z) (Some "duplicate session"))
         ["/tmp"]) in
  let r := @DiscoManager.createSession Scripted.node "1" "2" "/tmp" st in
  self (snd r) = self st
  /\ fst r = Thrown "Failed to create session: duplicate session".
Proof.
  cbv zeta.
  apply (@createSession_descriptor Scripted.node "1" "2" "/tmp"
           (Scripted.start DiscoManager.fresh []
              (Scripted.mkScript [Thrown "no session"]
                 (mkSpawnResult (Some 1%Z) (Some "duplicate session"))
                 ["/tmp"]))
           "no session"
           (Scripted.mkScript []
              (mkSpawnResult (Some 1%Z) (Some "duplicate session")) ["/tmp"])
           (mkSpawnResult (Some 1%Z) (Some "duplicate session"))
           (Scripted.mkScript []
              (mkSpawnResult (Some 1%Z) (Some "duplicate session")) ["/tmp"]));
    reflexivity.
Defined.

(** ** The registry under its operations *)

Section MoreRegistryFacts.
Context `{Node}.
Import ClaudeManager.

Lemma inverse_delete (forward backward : gmap string string) (s c : string) :
  (forall s' c', forward !! s' = Some c' <-> backward !! c' = Some s') ->
  forward !! s = Some c ->
  forall s' c',
    delete s forward !! s' = Some c' <-> delete c backward !! c' = Some s'.
Proof.
  intros Hinv Hsc s' c'. rewrite !lookup_delete_Some. split.
  - intros [Hne Hf]. split; [|now apply Hinv].
    intros <-. apply Hinv in Hsc. apply Hinv in Hf. congruence.
  - intros [Hne Hb]. split; [|now apply Hinv].
    intros <-. apply Hinv in Hb. congruence.
Qed.

Lemma inverse_insert (forward backward : gmap string string) (s c : string) :
  (forall s' c', forward !! s' = Some c' <-> backward !! c' = Some s') ->
  forward !! s = None ->
  backward !! c = None ->
  forall s' c',
    <[s := c]> forward !! s' = Some c' <-> <[c := s]> backward !! c' = Some s'.
Proof.
  intros Hinv Hs Hc s' c'. rewrite !lookup_insert_Some. split.
  - intros [[<- <-] | [Hne Hf]]; [left; auto|]. right.
    split; [|now apply Hinv]. intros <-. apply Hinv in Hf. congruence.
  - intros [[<- <-] | [Hne Hb]]; [left; auto|]. right.
    split; [|now apply Hinv]. intros <-. apply Hinv in Hb. congruence.
Qed.

(** X16. Linking and unlinking undo each other: after [linkChannel] of a
    session and a channel that were both unlinked, [unlinkChannel] of the
    channel gives back the registry as it was (the session id not being
    the empty text). *)
Theorem unlinkChannel_undoes_linkChannel sessionId channelId
    (st : State SessionManager) :
  channelMap (self st) !! sessionId = None ->
  reverseMap (self st) !! channelId = None ->
  sessionId <> EmptyString ->
  self (snd (unlinkChannel channelId (snd (linkChannel sessionId channelId st))))
  = self st.
Proof.
  intros Hs Hc Hne. unfold unlinkChannel, linkChannel. run_method.
  cbn [reverseMap channelMap lastOutput]. rewrite lookup_insert_eq.
  destruct sessionId as [|a sessionId]; [congruence|]. cbn [JS.truthy].
  rewrite (delete_insert_id _ _ _ Hs), (delete_insert_id _ _ _ Hc).
  now destruct (self st).
Qed.

(** X17. The operations that remove keep a one-to-one registry one-to-one:
    [unlinkChannel] always, and the clean-up of a successful [killSession]
    unless the session is linked to the empty channel id. *)
Theorem removals_keep_inverseMaps (st : State SessionManager) :
  inverseMaps (self st) ->
  (forall channelId, inverseMaps (self (snd (unlinkChannel channelId st))))
  /\ (forall sessionId,
         channelMap (self st) !! sessionId <> Some EmptyString ->
         fst (killSession sessionId st) = Returned true ->
         inverseMaps (self (snd (killSession sessionId st)))).
Proof.
  intros Hinv. split.
  - intros channelId. unfold unlinkChannel. run_method.
    destruct (reverseMap (self st) !! channelId) as [s|] eqn:Hrev;
      [|exact Hinv].
    destruct (JS.truthy s); [|exact Hinv].
    unfold inverseMaps. cbn [channelMap reverseMap].
    apply inverse_delete; [exact Hinv | now apply Hinv].
  - intros sessionId Hne Hok. rewrite (killSession_success _ _ Hok).
    unfold cleanUp, inverseMaps. cbn [channelMap reverseMap].
    destruct (channelMap (self st) !! sessionId) as [c|] eqn:Hfw.
    + destruct c as [|a c]; [congruence|]. cbn [JS.truthy].
      apply inverse_delete; [exact Hinv | exact Hfw].
    + intros s' c'. rewrite lookup_delete_Some. split.
      * intros [_ Hf]. now apply Hinv.
      * intros Hb. apply Hinv in Hb. split; [congruence | exact Hb].
Qed.

(** X18. [linkChannel] keeps a one-to-one registry one-to-one when the
    session and the channel are both unlinked before the call. *)
Theorem linkChannel_keeps_inverseMaps sessionId channelId
    (st : State SessionManager) :
  inverseMaps (self st) ->
  channelMap (self st) !! sessionId = None ->
  reverseMap (self st) !! channelId = None ->
  inverseMaps (self (snd (linkChannel sessionId channelId st))).
Proof.
  intros Hinv Hs Hc. unfold linkChannel. run_method.
  unfold inverseMaps. cbn [channelMap reverseMap].
  now apply inverse_insert.
Qed.

End MoreRegistryFacts.

Lemma inverseMaps_fresh : inverseMaps ClaudeManager.fresh.
Proof.
  intros s c. unfold ClaudeManager.fresh. simpl.
  rewrite !lookup_empty. split; discriminate.
Qed.

Lemma unlinkChannel_undoes_linkChannel_witness :
  self (snd (@ClaudeManager.unlinkChannel Scripted.node "channel-x"
               (snd (@ClaudeManager.linkChannel Scripted.node
                       "session-x" "channel-x"
                       (Scripted.start ClaudeManager.fresh []
                          (Scripted.mkScript [] Scripted.spawnOk []))))))
  = ClaudeManager.fresh.
Proof.
  apply (@unlinkChannel_undoes_linkChannel Scripted.node
           "session-x" "channel-x"
           (Scripted.start ClaudeManager.fresh []
              (Scripted.mkScript [] Scripted.spawnOk [])));
    [reflexivity | reflexivity | discriminate].
Defined.

Lemma inverseMaps_single (s c : string) :
  inverseMaps (ClaudeManager.mkManager {[ s := c ]} {[ c := s ]} ∅).
Proof.
  intros s' c'. simpl. rewrite !lookup_singleton_Some.
  split; intros [-> ->]; auto.
Qed.

(** A registry that links s and c, in front of a host that kills s. *)
Lemma removals_keep_inverseMaps_witness :
  let st :=
    Scripted.start
      (ClaudeManager.mkManager {[ "s" := "c" ]} {[ "c" := "s" ]} ∅) []
      (Scripted.mkScript [Returned EmptyString; Returned EmptyString]
         Scripted.spawnOk []) in
  inverseMaps (self (snd (@ClaudeManager.unlinkChannel Scripted.node "c" st)))
  /\ inverseMaps (self (snd (@ClaudeManager.killSession Scripted.node "s" st))).
Proof.
  cbv zeta.
  pose proof (@removals_keep_inverseMaps Scripted.node
                (Scripted.start
                   (ClaudeManager.mkManager {[ "s" := "c" ]} {[ "c" := "s" ]} ∅)
                   []
                   (Scripted.mkScript
                      [Returned EmptyString; Returned EmptyString]
                      Scripted.spawnOk []))
                (inverseMaps_single "s" "c")) as [Hunlink Hkill].
  split; [apply Hunlink|]. apply Hkill; [|reflexivity].
  vm_compute. discriminate.
Defined.

Lemma linkChannel_keeps_inverseMaps_witness :
  inverseMaps
    (self (snd (@ClaudeManager.linkChannel Scripted.node "s1" "c1"
                  (Scripted.start ClaudeManager.fresh []
                     (Scripted.mkScript [] Scripted.spawnOk []))))).
Proof.
  apply (@linkChannel_keeps_inverseMaps Scripted.node "s1" "c1"
           (Scripted.start ClaudeManager.fresh []
              (Scripted.mkScript [] Scripted.spawnOk [])));
    [exact inverseMaps_fresh | reflexivity | reflexivity].
Defined.

(** ** Looking sessions up *)

(** X19. [getSession] never throws, in either manager, and leaves the
    fields of the manager alone: it returns [null] when the probe fails,
    when the filtered listing fails and when that listing prints nothing
    but white space; a descriptor it returns carries the session id it was
    asked for. *)
Theorem getSession_outcomes `{Node} :
  (forall sessionId (st : State ClaudeManager.SessionManager),
      let name := ClaudeManager.getTmuxName sessionId in
      let r := ClaudeManager.getSession sessionId st in
      self (snd r) = self st
      /\ exists found,
          fst r = Returned found
          /\ (forall info, found = Some info ->
                ClaudeManager.id info = sessionId
                /\ ClaudeManager.channelId info
                   = ClaudeManager.channelMap (self st) !! sessionId)
          /\ (forall message w,
                execSync (hasSessionCommand name) (world st)
                = (Thrown message, w) -> found = None)
          /\ (forall out w reply w',
                execSync (hasSessionCommand name) (world st)
                = (Returned out, w) ->
                execSync (listOneCommand name) w = (reply, w') ->
                match reply with
                | Thrown _ => found = None
                | Returned listing =>
                    JS.trim listing = EmptyString <-> found = None
                end))
  /\
  (forall sessionId (st : State DiscoManager.SessionManager),
      let name := DiscoManager.getTmuxName sessionId in
      let r := DiscoManager.getSession sessionId st in
      self (snd r) = self st
      /\ exists found,
          fst r = Returned found
          /\ (forall info, found = Some info ->
                DiscoManager.id info = sessionId)
          /\ (forall message w,
                execSync (hasSessionCommand name) (world st)
                = (Thrown message, w) -> found = None)
          /\ (forall out w reply w',
                execSync (hasSessionCommand name) (world st)
                = (Returned out, w) ->
                execSync (listOneCommand name) w = (reply, w') ->
                match reply with
                | Thrown _ => found = None
                | Returned listing =>
                    JS.trim listing = EmptyString <-> found = None
                end)).
Proof.
  split; intros sessionId st.
  - unfold ClaudeManager.getSession, ClaudeManager.sessionExists.
    run_method.
    destruct (execSync _ (world st)) as [[out|message] w] eqn:Hprobe;
      cbn [negb fst snd self world].
    + destruct (execSync _ w) as [[listing|message] w'] eqn:Hlist;
        cbn [fst snd self].
      * destruct (JS.trim listing) as [|c t] eqn:Htrim;
          cbn [JS.truthy negb fst snd self];
          (split; [reflexivity|]); eexists; (split; [reflexivity|]);
          (split; [|split]).
        -- intros info E. discriminate.
        -- intros message w0 E. discriminate.
        -- intros out0 w0 reply w1 E E'. injection E as <- <-.
           rewrite Hlist in E'. injection E' as <- <-.
           rewrite Htrim. split; reflexivity.
        -- intros info E. injection E as <-. split; reflexivity.
        -- intros message w0 E. discriminate.
        -- intros out0 w0 reply w1 E E'. injection E as <- <-.
           rewrite Hlist in E'. injection E' as <- <-.
           rewrite Htrim. split; discriminate.
      * (split; [reflexivity|]); eexists; (split; [reflexivity|]);
          (split; [|split]).
        -- intros info E. discriminate.
        -- intros message0 w0 E. discriminate.
        -- intros out0 w0 reply w1 E E'. injection E as <- <-.
           rewrite Hlist in E'. injection E' as <- <-. reflexivity.
    + (split; [reflexivity|]); eexists; (split; [reflexivity|]);
        (split; [|split]).
      * intros info E. discriminate.
      * reflexivity.
      * intros out0 w0 reply w1 E. discriminate.
  - unfold DiscoManager.getSession, DiscoManager.sessionExists.
    run_method.
    destruct (execSync _ (world st)) as [[out|message] w] eqn:Hprobe;
      cbn [negb fst snd self world].
    + destruct (execSync _ w) as [[listing|message] w'] eqn:Hlist;
        cbn [fst snd self].
      * destruct (JS.trim listing) as [|c t] eqn:Htrim;
          cbn [JS.truthy negb fst snd self];
          (split; [reflexivity|]); eexists; (split; [reflexivity|]);
          (split; [|split]).
        -- intros info E. discriminate.
        -- intros message w0 E. discriminate.
        -- intros out0 w0 reply w1 E E'. injection E as <- <-.
           rewrite Hlist in E'. injection E' as <- <-.
           rewrite Htrim. split; reflexivity.
        -- intros info E. injection E as <-. reflexivity.
        -- intros message w0 E. discriminate.
        -- intros out0 w0 reply w1 E E'. injection E as <- <-.
           rewrite Hlist in E'. injection E' as <- <-.
           rewrite Htrim. split; discriminate.
      * (split; [reflexivity|]); eexists; (split; [reflexivity|]);
          (split; [|split]).
        -- intros info E. discriminate.
        -- intros message0 w0 E. discriminate.
        -- intros out0 w0 reply w1 E E'. injection E as <- <-.
           rewrite Hlist in E'. injection E' as <- <-. reflexivity.
    + (split; [reflexivity|]); eexists; (split; [reflexivity|]);
        (split; [|split]).
      * intros info E. discriminate.
      * reflexivity.
      * intros out0 w0 reply w1 E. discriminate.
Qed.

(** X20. What [createSession] names, [listSessions] recovers.  Take the
    tmux name of a guild and a channel (ids with neither underscore nor
    vertical bar), a creation time without vertical bar and any path at
    all.  The line of the host listing made of the three passes the prefix
    filter and becomes an entry with the session id of the two, the guild,
    the channel and the creation date; its directory is the path up to its
    first vertical bar (the word unknown when that is empty), which is the
    whole path when the path holds no vertical bar. *)
Theorem sessionOfLine_recovers_ids (guildId channelId created path : string) :
  noSeparator "_" guildId -> noSeparator "_" channelId ->
  noSeparator "|" guildId -> noSeparator "|" channelId ->
  noSeparator "|" created ->
  let sessionId := DiscoManager.makeSessionId guildId channelId in
  let name := DiscoManager.getTmuxName sessionId in
  let line := name +:+ "|" +:+ created +:+ "|" +:+ path in
  let dir := List.hd EmptyString (JS.split "|" path) in
  JS.startsWith line DiscoManager.SESSION_PREFIX = true
  /\ DiscoManager.sessionOfLine line
     = {| DiscoManager.id := sessionId;
          DiscoManager.tmuxName := name;
          DiscoManager.directory :=
            if JS.truthy dir then dir else "unknown";
          DiscoManager.guildId := guildId;
          DiscoManager.channelId := channelId;
          DiscoManager.attachCommand := "tmux attach -t " +:+ name;
          DiscoManager.createdAt := dateOfCreated (Some created) |}
  /\ (noSeparator "|" path -> dir = path).
Proof.
  intros Hg_ Hc_ Hg Hc Hcreated sessionId name line dir.
  assert (Hname : noSeparator "|" name).
  { subst name sessionId. unfold DiscoManager.getTmuxName,
      DiscoManager.makeSessionId.
    repeat (apply SplitFacts.noSeparator_append; split); auto;
      unfold noSeparator; simpl; intuition discriminate. }
  assert (Hparts : JS.split "|" line = name :: created :: JS.split "|" path).
  { subst line.
    change (name +:+ "|" +:+ created +:+ "|" +:+ path)
      with (name +:+ String "|" (created +:+ String "|" path)).
    rewrite (SplitFacts.split_append "|" name _ Hname).
    now rewrite (SplitFacts.split_append "|" created _ Hcreated). }
  split; [|split].
  - subst line name. unfold DiscoManager.getTmuxName.
    rewrite <- JSFacts.append_assoc. apply JSFacts.startsWith_app. eauto.
  - unfold DiscoManager.sessionOfLine. rewrite Hparts.
    assert (Hdir : nth_error (name :: created :: JS.split "|" path) 2
                   = Some dir).
    { subst dir. pose proof (SplitFacts.split_not_nil "|" path) as Hne.
      destruct (JS.split "|" path); [congruence | reflexivity]. }
    rewrite Hdir. cbn [List.hd nth_error].
    pose proof (disco_sessionId_of_tmuxName sessionId) as Hid.
    fold name in Hid. rewrite Hid.
    assert (Htruthy : JS.truthy sessionId = true).
    { subst sessionId. unfold DiscoManager.makeSessionId.
      destruct guildId; reflexivity. }
    rewrite Htruthy.
    subst sessionId. rewrite (disco_parse_of_make _ _ Hg_ Hc_).
    cbn [option_map DiscoManager.parsedGuildId DiscoManager.parsedChannelId].
    unfold JS.orElse. rewrite Htruthy.
    f_equal.
    + destruct guildId; reflexivity.
    + destruct channelId; reflexivity.
  - intros Hpath. subst dir.
    now rewrite (SplitFacts.split_noSeparator "|" path Hpath).
Qed.

(** The line tmux prints for the session of guild 1234 and channel 5678,
    in a directory whose name holds a vertical bar. *)
Lemma sessionOfLine_recovers_ids_witness :
  JS.startsWith "disco_1234_5678|1700000000|/home/user/a|b"
    DiscoManager.SESSION_PREFIX = true
  /\ DiscoManager.sessionOfLine "disco_1234_5678|1700000000|/home/user/a|b"
     = {| DiscoManager.id := "1234_5678";
          DiscoManager.tmuxName := "disco_1234_5678";
          DiscoManager.directory := "/home/user/a";
          DiscoManager.guildId := "1234";
          DiscoManager.channelId := "5678";
          DiscoManager.attachCommand := "tmux attach -t disco_1234_5678";
          DiscoManager.createdAt := Some (DateOfSeconds "1700000000") |}.
Proof.
  destruct (sessionOfLine_recovers_ids "1234" "5678" "1700000000"
              "/home/user/a|b") as [Hfilter [Hentry _]];
    [unfold noSeparator; simpl; intuition discriminate ..|].
  split; [exact Hfilter | exact Hentry].
Defined.

(** X21. A linked session is listed with its channel: after
    [linkChannel] of a session (an id without vertical bar) and a channel,
    the entry [listSessions] builds from the line of the host listing for
    the tmux name of that session has the id of the session, that tmux
    name and the channel. *)
Theorem sessionOfLine_shows_link `{Node} sessionId channelId rest
    (st : State ClaudeManager.SessionManager) :
  noSeparator "|" sessionId ->
  let m := self (snd (ClaudeManager.linkChannel sessionId channelId st)) in
  let name := ClaudeManager.getTmuxName sessionId in
  let e := ClaudeManager.sessionOfLine m (name +:+ "|" +:+ rest) in
  JS.startsWith (name +:+ "|" +:+ rest) ClaudeManager.SESSION_PREFIX = true
  /\ ClaudeManager.id e = sessionId
  /\ ClaudeManager.tmuxName e = name
  /\ ClaudeManager.channelId e = Some channelId.
Proof.
  intros Hid m name e.
  assert (Hname : noSeparator "|" name).
  { subst name. unfold ClaudeManager.getTmuxName.
    apply SplitFacts.noSeparator_append. split; [|exact Hid].
    unfold noSeparator; simpl; intuition discriminate. }
  assert (Hhd : List.hd EmptyString (JS.split "|" (name +:+ "|" +:+ rest))
                = name).
  { change (name +:+ "|" +:+ rest) with (name +:+ String "|" rest).
    now rewrite (SplitFacts.split_append "|" name rest Hname). }
  assert (Hstrip : JS.replace name ClaudeManager.SESSION_PREFIX EmptyString
                   = sessionId)
    by apply JSFacts.replace_leading.
  split.
  - subst name. unfold ClaudeManager.getTmuxName.
    rewrite <- JSFacts.append_assoc. apply JSFacts.startsWith_app. eauto.
  - subst e. unfold ClaudeManager.sessionOfLine.
    cbn [ClaudeManager.id ClaudeManager.tmuxName ClaudeManager.channelId].
    rewrite Hhd, Hstrip. split; [reflexivity|]. split; [reflexivity|].
    subst m. unfold ClaudeManager.linkChannel. run_method.
    cbn [ClaudeManager.channelMap]. apply lookup_insert_eq.
Qed.

(** The session my-session linked to my-channel, as tmux lists it. *)
Lemma sessionOfLine_shows_link_witness :
  let m :=
    self (snd (@ClaudeManager.linkChannel Scripted.node
                 "my-session" "my-channel"
                 (Scripted.start ClaudeManager.fresh []
                    (Scripted.mkScript [] Scripted.spawnOk [])))) in
  let e := ClaudeManager.sessionOfLine m "claude-my-session|1700000000|/tmp" in
  JS.startsWith "claude-my-session|1700000000|/tmp"
    ClaudeManager.SESSION_PREFIX = true
  /\ ClaudeManager.id e = "my-session"
  /\ ClaudeManager.tmuxName e = "claude-my-session"
  /\ ClaudeManager.channelId e = Some "my-channel".
Proof.
  cbv zeta.
  apply (@sessionOfLine_shows_link Scripted.node "my-session" "my-channel"
           "1700000000|/tmp"
           (Scripted.start ClaudeManager.fresh []
              (Scripted.mkScript [] Scripted.spawnOk []))).
  unfold noSeparator; simpl; intuition discriminate.
Defined.

(** ** Home directories and quotes *)

Lemma getSubstitution_plain (matched before after replacement : string) :
  noSeparator "$" replacement ->
  JS.getSubstitution matched before after replacement = replacement.
Proof.
  induction replacement as [|c r IH]; intros Hno; [reflexivity|].
  apply SplitFacts.noSeparator_cons in Hno as [Hc Hr].
  cbn [JS.getSubstitution].
  destruct (Ascii.eqb c "$") eqn:E; [apply Ascii.eqb_eq in E; contradiction|].
  now rewrite (IH Hr).
Qed.

(** X22. [expandHome], the expansion [createSession], [setAllowedPaths]
    and [ensureSessionWorkspace] apply to a directory: a text that does not
    begin with a tilde is left as it is; a leading tilde is replaced by the
    home directory whatever follows it, a user name included (the home
    directory holding no dollar sign). *)
Theorem expandHome_tilde `{Node} :
  noSeparator "$" homedir ->
  (forall dir, JS.startsWith dir "~" = false -> expandHome dir = dir)
  /\ (forall rest, expandHome ("~" +:+ rest) = homedir +:+ rest).
Proof.
  intros Hhome. split.
  - intros dir Hdir. unfold expandHome. now rewrite Hdir.
  - intros rest. unfold expandHome, JS.replace.
    change (JS.startsWith ("~" +:+ rest) "~") with true. cbv iota.
    rewrite JSFacts.replaceFrom_match by reflexivity.
    rewrite (getSubstitution_plain _ _ _ _ Hhome). reflexivity.
Qed.

Lemma expandHome_tilde_witness :
  (forall dir, JS.startsWith dir "~" = false
               -> @expandHome Scripted.node dir = dir)
  /\ (forall rest, @expandHome Scripted.node ("~" +:+ rest)
                   = "/home/user" +:+ rest).
Proof.
  apply (@expandHome_tilde Scripted.node).
  unfold noSeparator; simpl; intuition discriminate.
Defined.

Lemma escapeQuotes_cons (c : ascii) (text : string) :
  escapeQuotes (String c text)
  = if Ascii.eqb c "'"
    then "'" +:+ backslash +:+ "''" +:+ escapeQuotes text
    else String c (escapeQuotes text).
Proof.
  unfold escapeQuotes. cbn [JS.replaceAllChar].
  destruct (Ascii.eqb c "'"); reflexivity.
Qed.

(** X23. The quoting [sendToSession] applies to the text loses nothing:
    two different texts never become the same escaped text, and a text
    without a single quote is passed on unchanged. *)
Theorem escapeQuotes_injective (text text' : string) :
  (escapeQuotes text = escapeQuotes text' -> text = text')
  /\ (noSeparator "'" text -> escapeQuotes text = text).
Proof.
  split.
  - revert text'. induction text as [|c text IH]; intros [|d text'].
    + reflexivity.
    + rewrite escapeQuotes_cons. destruct (Ascii.eqb d "'"); discriminate.
    + rewrite escapeQuotes_cons. destruct (Ascii.eqb c "'"); discriminate.
    + rewrite !escapeQuotes_cons.
      destruct (Ascii.eqb c "'") eqn:Ec; destruct (Ascii.eqb d "'") eqn:Ed.
      * apply Ascii.eqb_eq in Ec, Ed. subst c d. intros E.
        f_equal. apply IH.
        change ("'" +:+ backslash +:+ "''" +:+ escapeQuotes text)
          with (("'" +:+ backslash +:+ "''") +:+ escapeQuotes text) in E.
        change ("'" +:+ backslash +:+ "''" +:+ escapeQuotes text')
          with (("'" +:+ backslash +:+ "''") +:+ escapeQuotes text') in E.
        exact (JSFacts.append_inj_r _ _ _ E).
      * intros E. injection E as E _. subst d.
        now rewrite Ascii.eqb_refl in Ed.
      * intros E. injection E as E _. subst c.
        now rewrite Ascii.eqb_refl in Ec.
      * intros E. injection E as -> E. f_equal. now apply IH.
  - induction text as [|c text IH]; intros Hno; [reflexivity|].
    apply SplitFacts.noSeparator_cons in Hno as [Hc Ht].
    rewrite escapeQuotes_cons.
    destruct (Ascii.eqb c "'") eqn:E; [apply Ascii.eqb_eq in E; contradiction|].
    now rewrite (IH Ht).
Qed.

(** ** The session template and the workspace *)

Module WorkspaceFacts.
Import JS Workspace.

Lemma afterFirst_length (pattern s rest : string) :
  afterFirst pattern s = Some rest ->
  String.length rest + String.length pattern <= String.length s.
Proof.
  induction s as [|c s IH]; cbn [afterFirst].
  - destruct (startsWith EmptyString pattern) eqn:Hs; [|discriminate].
    apply JSFacts.startsWith_app in Hs as [tail E].
    intros R. injection R as <-.
    destruct pattern; [simpl; lia | discriminate].
  - destruct (startsWith (String c s) pattern) eqn:Hs.
    + apply JSFacts.startsWith_app in Hs as [tail E]. rewrite E.
      intros R. injection R as <-.
      rewrite JSFacts.drop_append, JSFacts.length_append. lia.
    + intros R. apply IH in R. simpl. lia.
Qed.

Lemma stripCommentsFuel_enough (fuel fuel' : nat) (s : string) :
  String.length s < fuel -> String.length s < fuel' ->
  stripCommentsFuel fuel s = stripCommentsFuel fuel' s.
Proof.
  revert fuel' s. induction fuel as [|fuel IH]; intros fuel' s Hf Hf'; [lia|].
  destruct fuel' as [|fuel']; [lia|]. cbn [stripCommentsFuel].
  destruct (startsWith s "<!--") eqn:Hopen.
  - destruct (afterFirst "-->" (drop 4 s)) as [rest|] eqn:Hclose;
      [|reflexivity].
    apply afterFirst_length in Hclose. rewrite JSFacts.length_drop in Hclose.
    simpl in Hclose. apply IH; lia.
  - destruct s as [|c s]; [reflexivity|]. simpl in Hf, Hf'.
    f_equal. apply IH; lia.
Qed.

Lemma stripComments_unfold (s : string) :
  stripComments s
  = if startsWith s "<!--" then
      match afterFirst "-->" (drop 4 s) with
      | Some rest => stripComments rest
      | None => s
      end
    else
      match s with
      | EmptyString => EmptyString
      | String c s' => String c (stripComments s')
      end.
Proof.
  unfold stripComments at 1. cbn [stripCommentsFuel].
  destruct (startsWith s "<!--") eqn:Hopen.
  - destruct (afterFirst "-->" (drop 4 s)) as [rest|] eqn:Hclose;
      [|reflexivity].
    apply afterFirst_length in Hclose. rewrite JSFacts.length_drop in Hclose.
    simpl in Hclose. apply stripCommentsFuel_enough; lia.
  - destruct s as [|c s]; reflexivity.
Qed.

Lemma textIncludes_cons (c : ascii) (s pattern : string) :
  textIncludes (String c s) pattern
  = startsWith (String c s) pattern || textIncludes s pattern.
Proof. reflexivity. Qed.

Lemma closer_not_inside (body post : string) :
  noSeparator ">" body ->
  startsWith (body +:+ "-->" +:+ post) "-->" = true -> body = EmptyString.
Proof.
  intros Hno Hs. destruct body as [|a body]; [reflexivity|]. exfalso.
  rewrite JSFacts.append_cons in Hs. cbn [startsWith] in Hs.
  apply andb_true_iff in Hs as [_ Hs].
  destruct body as [|b body]; [vm_compute in Hs; discriminate|].
  rewrite JSFacts.append_cons in Hs. cbn [startsWith] in Hs.
  apply andb_true_iff in Hs as [_ Hs].
  destruct body as [|c body]; [vm_compute in Hs; discriminate|].
  rewrite JSFacts.append_cons in Hs. cbn [startsWith] in Hs.
  apply andb_true_iff in Hs as [Hc _]. apply Ascii.eqb_eq in Hc. subst c.
  apply Hno. simpl. auto.
Qed.

Lemma afterFirst_closer (body post : string) :
  noSeparator ">" body ->
  afterFirst "-->" (body +:+ "-->" +:+ post) = Some post.
Proof.
  induction body as [|c body IH]; intros Hno.
  - reflexivity.
  - rewrite JSFacts.append_cons. cbn [afterFirst].
    destruct (startsWith (String c (body +:+ "-->" +:+ post)) "-->") eqn:Hs.
    + rewrite <- JSFacts.append_cons in Hs.
      apply closer_not_inside in Hs; [discriminate | exact Hno].
    + apply IH. now apply SplitFacts.noSeparator_cons in Hno as [_ Hno].
Qed.

(** X24. The comment stripping of the session template: a text with no
    comment opener is left as it is, and a comment at the front (its body
    holding no greater-than sign) goes whole, the rest being stripped in
    turn. *)
Theorem stripComments_removes (s body post : string) :
  (textIncludes s "<!--" = false -> stripComments s = s)
  /\ (noSeparator ">" body ->
      stripComments ("<!--" +:+ body +:+ "-->" +:+ post) = stripComments post).
Proof.
  split.
  - induction s as [|c s IH]; intros Hno; [reflexivity|].
    rewrite textIncludes_cons in Hno. apply orb_false_iff in Hno as [Hopen Hs].
    rewrite stripComments_unfold, Hopen. f_equal. now apply IH.
  - intros Hno. rewrite stripComments_unfold.
    change (startsWith ("<!--" +:+ body +:+ "-->" +:+ post) "<!--") with true.
    cbv iota.
    change (drop 4 ("<!--" +:+ body +:+ "-->" +:+ post))
      with (body +:+ "-->" +:+ post).
    now rewrite afterFirst_closer.
Qed.

Lemma stripComments_removes_witness :
  stripComments ("<!--" +:+ " note " +:+ "-->" +:+ "# Title") = "# Title".
Proof.
  transitivity (stripComments "# Title").
  - apply (stripComments_removes EmptyString " note " "# Title").
    unfold noSeparator; simpl; intuition discriminate.
  - apply (stripComments_removes "# Title" EmptyString EmptyString).
    reflexivity.
Defined.

Lemma leadingNewlines_collapse (run : nat) (s : string) :
  leadingNewlines (collapseNewlinesFrom run s) + Nat.min run 2 <= 2.
Proof.
  revert run. induction s as [|c s IH]; intros run; [simpl; lia|].
  cbn [collapseNewlinesFrom]. destruct (Ascii.eqb c LF) eqn:Ec.
  - destruct (2 <=? run) eqn:E2.
    + apply Nat.leb_le in E2. specialize (IH (S run)). lia.
    + apply Nat.leb_gt in E2. cbn [leadingNewlines]. rewrite Ec.
      specialize (IH (S run)). lia.
  - cbn [leadingNewlines]. rewrite Ec. lia.
Qed.

Lemma startsWith_threeNewlines (s : string) :
  startsWith s threeNewlines = true -> 3 <= leadingNewlines s.
Proof.
  unfold threeNewlines. intros Hs.
  destruct s as [|a [|b [|c s]]]; simpl in Hs;
    rewrite ?andb_true_iff in Hs; try (intuition discriminate).
  destruct Hs as [Ha [Hb [Hc _]]]. cbn [leadingNewlines].
  rewrite Ha, Hb, Hc. lia.
Qed.

Lemma collapseNewlinesFrom_no_triple (run : nat) (s : string) :
  textIncludes (collapseNewlinesFrom run s) threeNewlines = false.
Proof.
  revert run. induction s as [|c s IH]; intros run; [reflexivity|].
  cbn [collapseNewlinesFrom]. destruct (Ascii.eqb c LF) eqn:Ec.
  - destruct (2 <=? run) eqn:E2; [apply IH|].
    apply Nat.leb_gt in E2. rewrite textIncludes_cons, IH, orb_false_r.
    destruct (startsWith (String c (collapseNewlinesFrom (S run) s))
                threeNewlines) eqn:Hs; [|reflexivity].
    apply startsWith_threeNewlines in Hs. cbn [leadingNewlines] in Hs.
    rewrite Ec in Hs.
    pose proof (leadingNewlines_collapse (S run) s). lia.
  - rewrite textIncludes_cons, IH, orb_false_r.
    cbn [startsWith threeNewlines]. now rewrite Ec.
Qed.

Lemma leadingNewlines_three (s : string) :
  3 <= leadingNewlines s -> startsWith s threeNewlines = true.
Proof.
  unfold threeNewlines. intros Hlead.
  destruct s as [|a s]; cbn [leadingNewlines] in Hlead; [lia|].
  destruct (Ascii.eqb a LF) eqn:Ea; [|lia].
  destruct s as [|b s]; cbn [leadingNewlines] in Hlead; [lia|].
  destruct (Ascii.eqb b LF) eqn:Eb; [|lia].
  destruct s as [|d s]; cbn [leadingNewlines] in Hlead; [lia|].
  destruct (Ascii.eqb d LF) eqn:Ed; [|lia].
  cbn [startsWith]. now rewrite Ea, Eb, Ed.
Qed.

Lemma leadingNewlines_le_two (s : string) :
  textIncludes s threeNewlines = false -> leadingNewlines s <= 2.
Proof.
  intros Hno.
  destruct (Nat.le_gt_cases (leadingNewlines s) 2) as [Hle | Hgt]; [exact Hle|].
  exfalso. apply leadingNewlines_three in Hgt.
  destruct s as [|c s]; cbn [textIncludes] in Hno; rewrite Hgt in Hno;
    discriminate.
Qed.

Lemma collapseNewlinesFrom_id (run : nat) (s : string) :
  textIncludes s threeNewlines = false ->
  leadingNewlines s + run <= 2 ->
  collapseNewlinesFrom run s = s.
Proof.
  revert run. induction s as [|c s IH]; intros run Hno Hlead; [reflexivity|].
  rewrite textIncludes_cons in Hno. apply orb_false_iff in Hno as [Hhere Hs].
  cbn [collapseNewlinesFrom]. cbn [leadingNewlines] in Hlead.
  pose proof (leadingNewlines_le_two s Hs) as Htwo.
  destruct (Ascii.eqb c LF) eqn:Ec.
  - destruct (2 <=? run) eqn:E2; [apply Nat.leb_le in E2; lia|].
    f_equal. apply IH; [exact Hs | lia].
  - f_equal. apply IH; [exact Hs | lia].
Qed.

(** X25. The newline squeezing of the session template: its result never
    holds three newlines in a row, and a text that holds none is left as it
    is. *)
Theorem collapseNewlines_no_triple (s : string) :
  textIncludes (collapseNewlines s) threeNewlines = false
  /\ (textIncludes s threeNewlines = false -> collapseNewlines s = s).
Proof.
  split; [apply collapseNewlinesFrom_no_triple|].
  intros Hno. apply collapseNewlinesFrom_id; [exact Hno|].
  pose proof (leadingNewlines_le_two s Hno). lia.
Qed.

End WorkspaceFacts.

Module TrimFacts.
Import JS.

Lemma trimStart_head (s : string) :
  trimStart s = EmptyString
  \/ exists c r, trimStart s = String c r /\ isWhiteSpace c = false.
Proof.
  induction s as [|c s IH]; [now left|]. cbn [trimStart].
  destruct (isWhiteSpace c) eqn:E; [exact IH|]. right. eauto.
Qed.

Lemma trimEnd_idempotent (s : string) : trimEnd (trimEnd s) = trimEnd s.
Proof.
  induction s as [|c s IH]; [reflexivity|]. cbn [trimEnd].
  destruct (trimEnd s) as [|d t] eqn:Et.
  - destruct (isWhiteSpace c) eqn:E; [reflexivity|].
    cbn [trimEnd]. now rewrite E.
  - cbn [trimEnd]. cbn [trimEnd] in IH. rewrite IH. reflexivity.
Qed.

Lemma trimEnd_keeps_head (c : ascii) (r : string) :
  isWhiteSpace c = false -> exists t, trimEnd (String c r) = String c t.
Proof.
  intros E. cbn [trimEnd]. destruct (trimEnd r); [rewrite E|]; eauto.
Qed.

Lemma trim_idempotent (s : string) : trim (trim s) = trim s.
Proof.
  unfold trim. destruct (trimStart_head s) as [-> | [c [r [-> E]]]];
    [reflexivity|].
  destruct (trimEnd_keeps_head c r E) as [t Ht]. rewrite Ht.
  cbn [trimStart]. rewrite E. rewrite <- Ht. apply trimEnd_idempotent.
Qed.

Lemma trimStart_suffix (s : string) : exists pre, s = pre +:+ trimStart s.
Proof.
  induction s as [|c s [pre IH]]; [now exists EmptyString|].
  cbn [trimStart]. destruct (isWhiteSpace c).
  - exists (String c pre). rewrite JSFacts.append_cons. now f_equal.
  - now exists EmptyString.
Qed.

Lemma trimEnd_prefix (s : string) : exists post, s = trimEnd s +:+ post.
Proof.
  induction s as [|c s [post IH]]; [now exists EmptyString|].
  cbn [trimEnd]. destruct (trimEnd s) as [|d t] eqn:Et.
  - destruct (isWhiteSpace c).
    + now exists (String c s).
    + exists post. rewrite JSFacts.append_cons. f_equal. exact IH.
  - exists post. rewrite JSFacts.append_cons. f_equal. exact IH.
Qed.

Lemma startsWith_append (a b p : string) :
  startsWith a p = true -> startsWith (a +:+ b) p = true.
Proof.
  intros Hs. apply JSFacts.startsWith_app in Hs as [rest ->].
  rewrite JSFacts.append_assoc. apply JSFacts.startsWith_app. eauto.
Qed.

Lemma textIncludes_append_r (a b p : string) :
  textIncludes b p = true -> textIncludes (a +:+ b) p = true.
Proof.
  intros Hb. induction a as [|c a IH]; [exact Hb|].
  rewrite JSFacts.append_cons. cbn [textIncludes]. rewrite IH.
  apply orb_true_r.
Qed.

Lemma textIncludes_append_l (a b p : string) :
  textIncludes a p = true -> textIncludes (a +:+ b) p = true.
Proof.
  induction a as [|c a IH]; intros Ha.
  - cbn [textIncludes] in Ha. rewrite orb_false_r in Ha.
    destruct p; [|discriminate]. destruct b; reflexivity.
  - rewrite JSFacts.append_cons. cbn [textIncludes] in *.
    apply orb_true_iff in Ha as [Ha | Ha]; apply orb_true_iff.
    + left. rewrite <- JSFacts.append_cons. now apply startsWith_append.
    + right. now apply IH.
Qed.

Lemma textIncludes_trim (s p : string) :
  textIncludes s p = false -> textIncludes (trim s) p = false.
Proof.
  intros Hs. destruct (textIncludes (trim s) p) eqn:Ht; [|reflexivity].
  unfold trim in Ht.
  destruct (trimEnd_prefix (trimStart s)) as [post Hpost].
  destruct (trimStart_suffix s) as [pre Hpre].
  apply (textIncludes_append_l _ post) in Ht. rewrite <- Hpost in Ht.
  apply (textIncludes_append_r pre) in Ht. rewrite <- Hpre in Ht.
  congruence.
Qed.

End TrimFacts.

Section TemplateFacts.
Context `{Workspace.Files}.
Import Workspace.

(** X26. [getSessionTemplate] never throws and changes nothing outside.
    When the template file can be read, the text it returns is the
    template with comments stripped, newline runs squeezed and both ends
    trimmed; when it cannot, the error is written to the console and a
    fixed two-line text is returned.  Either way the text has no white
    space at its ends and never three newlines in a row. *)
Theorem getSessionTemplate_total (st : State (list FsEvent)) :
  let r := getSessionTemplate st in
  world (snd r) = world st
  /\ exists text,
      fst r = Returned text
      /\ JS.trim text = text
      /\ textIncludes text threeNewlines = false
      /\ match readFileSync TEMPLATE_PATH (world st) with
         | Returned template =>
             text = JS.trim (collapseNewlines (stripComments template))
             /\ self (snd r) = self st
         | Thrown err =>
             text = FALLBACK_TEMPLATE
             /\ self (snd r)
                = self st
                  ++ [ConsoleError "Failed to read session template:" err]
         end.
Proof.
  cbv zeta. unfold getSessionTemplate, callReadFileSync, emit.
  unfold_effects. cbn [world self fst snd].
  destruct (readFileSync TEMPLATE_PATH (world st)) as [template|err];
    cbn [world self fst snd]; (split; [reflexivity|]); eexists;
    (split; [reflexivity|]).
  - split; [apply TrimFacts.trim_idempotent|]. split; [|split; reflexivity].
    apply TrimFacts.textIncludes_trim.
    apply WorkspaceFacts.collapseNewlinesFrom_no_triple.
  - repeat split; reflexivity.
Qed.

End TemplateFacts.

Section WorkspaceRunFacts.
Context `{Workspace.Files}.
Import Workspace.

(** X27. [ensureSessionWorkspace] preserves an existing guide: when the
    file CLAUDE.md is there once the two directories have been seen to,
    nothing is written, whatever else had to be created; and when the
    directory, its .claude directory and the file are all there from the
    start, the call does nothing at all. *)
Theorem ensureSessionWorkspace_keeps_guide (dir : string)
    (st : State (list FsEvent)) :
  let resolvedDir := resolve (expandHome dir) in
  let claudeDir := join [resolvedDir; ".claude"] in
  let claudeMdPath := join [claudeDir; "CLAUDE.md"] in
  let w1 := if existsSync resolvedDir (world st) then world st
            else snd (mkdirSync resolvedDir (world st)) in
  let w2 := if existsSync claudeDir w1 then w1
            else snd (mkdirSync claudeDir w1) in
  let r := ensureSessionWorkspace dir st in
  (existsSync claudeMdPath w2 = true ->
   exists events,
     self (snd r) = self st ++ events
     /\ forall path data, ~ In (WriteFile path data) events)
  /\ (existsSync resolvedDir (world st) = true ->
      existsSync claudeDir (world st) = true ->
      existsSync claudeMdPath (world st) = true ->
      r = (Returned tt, st)).
Proof.
  cbv zeta. unfold ensureSessionWorkspace, callExistsSync, callMkdirSync, emit.
  unfold_effects. cbn [world self fst snd calls allowedPaths].
  set (d := resolve (expandHome dir)).
  set (cd := join [d; ".claude"]).
  set (md := join [cd; "CLAUDE.md"]).
  assert (Hdone : forall (events : list FsEvent),
             (forall path data, ~ In (WriteFile path data) events) ->
             exists events',
               self st ++ events = self st ++ events'
               /\ forall path data, ~ In (WriteFile path data) events').
  { intros events Hev. exists events. split; [reflexivity | exact Hev]. }
  split.
  - destruct (existsSync d (world st)) eqn:E1; cbn [negb world self fst snd].
    + destruct (existsSync cd (world st)) eqn:E2; cbn [negb world self fst snd].
      * intros E3. rewrite E3. cbn [negb snd self].
        exists []. split; [now rewrite app_nil_r | intros ? ? []].
      * destruct (mkdirSync cd (world st)) as [[[]|message] wa] eqn:Ea;
          cbn [negb world self fst snd]; intros E3.
        -- rewrite E3. cbn [negb snd self]. apply Hdone.
           intros ? ? [E | []]. discriminate.
        -- apply Hdone. intros ? ? [E | []]. discriminate.
    + destruct (mkdirSync d (world st)) as [[[]|message] wa] eqn:Ea;
        cbn [negb world self fst snd].
      * destruct (existsSync cd wa) eqn:E2; cbn [negb world self fst snd].
        -- intros E3. rewrite E3. cbn [negb snd self].
           rewrite <- app_assoc. apply Hdone.
           intros ? ? [E | [E | []]]; discriminate.
        -- destruct (mkdirSync cd wa) as [[[]|message] wb] eqn:Eb;
             cbn [negb world self fst snd]; intros E3.
           ++ rewrite E3. cbn [negb snd self].
              rewrite <- !app_assoc. apply Hdone.
              intros ? ? [E | [E | [E | []]]]; discriminate.
           ++ rewrite <- !app_assoc. apply Hdone.
              intros ? ? [E | [E | [E | []]]]; discriminate.
      * intros _. apply Hdone. intros ? ? [E | []]. discriminate.
  - intros E1 E2 E3. rewrite E1. cbn [negb world self fst snd].
    rewrite E2. cbn [negb world self fst snd]. rewrite E3. reflexivity.
Qed.

End WorkspaceRunFacts.

(** A workspace whose guide is there while its .claude directory is
    listed as missing: the directory is made and the guide stays. *)
Lemma ensureSessionWorkspace_keeps_guide_witness :
  let st :=
    Scripted.start ([] : list Workspace.FsEvent) []
      (Scripted.mkScript [] Scripted.spawnOk
         ["/home/user/ws"; "/home/user/ws/.claude/CLAUDE.md"]) in
  exists events,
    self (snd (@Workspace.ensureSessionWorkspace _ ScriptedFiles.files
                 "~/ws" st))
    = self st ++ events
    /\ forall path data, ~ In (Workspace.WriteFile path data) events.
Proof.
  cbv zeta.
  apply (@ensureSessionWorkspace_keeps_guide _ ScriptedFiles.files "~/ws"
           (Scripted.start ([] : list Workspace.FsEvent) []
              (Scripted.mkScript [] Scripted.spawnOk
                 ["/home/user/ws"; "/home/user/ws/.claude/CLAUDE.md"]))).
  reflexivity.
Defined.

(** ** Loading the configuration *)

Module ConfigFacts.
Import Config.

Lemma parseList_entries (value : option string) :
  Forall (fun entry => entry <> EmptyString /\ JS.trim entry = entry)
         (parseList value).
Proof.
  unfold parseList. destruct value as [v|]; [|constructor].
  apply Forall_forall. intros entry Hin. apply list_elem_of_In in Hin.
  apply filter_In in Hin as [Hin Htruthy].
  apply in_map_iff in Hin as [part [<- _]]. split.
  - intros E. rewrite E in Htruthy. discriminate.
  - apply TrimFacts.trim_idempotent.
Qed.

Lemma allowAll_true (value : option string) :
  match value with
  | Some v => String.eqb v "true"
  | None => false
  end = true <-> value = Some "true".
Proof.
  destruct value as [v|]; [|split; discriminate].
  rewrite String.eqb_eq. split; [now intros -> | now intros [= ->]].
Qed.

(** X28. Loading the configuration ends the process, always with exit code
    1, unless the bot token and the client id are both set and not empty
    and, besides, either the list of allowed users has an entry or the
    variable ALLOW_ALL_USERS is exactly the text true. *)
Theorem loadConfig_exit_conditions (env : string -> option string)
    (cwd : string) :
  (forall code console, loadConfig env cwd = Exited code console -> code = 1%Z)
  /\ ((exists config console, loadConfig env cwd = Loaded config console)
      <-> envTruthy (env "DISCORD_TOKEN") = true
          /\ envTruthy (env "DISCORD_CLIENT_ID") = true
          /\ (parseList (env "ALLOWED_USERS") <> []
              \/ env "ALLOW_ALL_USERS" = Some "true")).
Proof.
  unfold loadConfig.
  destruct (envTruthy (env "DISCORD_TOKEN")); cbn [negb];
    [|split; [now intros ? ? [= <- _]
             | split; [intros [? [? E]]; discriminate
                      | intros [E _]; discriminate]]].
  destruct (envTruthy (env "DISCORD_CLIENT_ID")); cbn [negb];
    [|split; [now intros ? ? [= <- _]
             | split; [intros [? [? E]]; discriminate
                      | intros [_ [E _]]; discriminate]]].
  cbn [allowedUsers allowAllUsers allowedPaths messageRetentionDays].
  destruct (parseList (env "ALLOWED_USERS")) as [|user users] eqn:Husers;
    cbn [List.length Nat.ltb Nat.leb].
  - pose proof (allowAll_true (env "ALLOW_ALL_USERS")) as Hall.
    destruct (match env "ALLOW_ALL_USERS" with
              | Some v => String.eqb v "true"
              | None => false
              end).
    + split; [intros ? ? E; discriminate|]. split; [|eauto].
      intros _. repeat split. right. now apply Hall.
    + split; [now intros ? ? [= <- _]|]. split.
      * intros [? [? E]]. discriminate.
      * intros [_ [_ [Hne | Hsome]]]; [congruence|].
        apply Hall in Hsome. discriminate.
  - split; [intros ? ? E; discriminate|]. split; [|eauto].
    intros _. repeat split. left. discriminate.
Qed.

(** X29. In a configuration that loads, the token and the client id are
    the values of their variables, and the lists of allowed users and of
    allowed paths are the comma-separated entries of theirs, each trimmed,
    none empty. *)
Theorem loadConfig_lists (env : string -> option string) (cwd : string)
    (config : Config) (console : list ConsoleLine) :
  loadConfig env cwd = Loaded config console ->
  env "DISCORD_TOKEN" = Some (token config)
  /\ env "DISCORD_CLIENT_ID" = Some (clientId config)
  /\ allowedUsers config = parseList (env "ALLOWED_USERS")
  /\ allowedPaths config = parseList (env "ALLOWED_PATHS")
  /\ Forall (fun entry => entry <> EmptyString /\ JS.trim entry = entry)
            (allowedUsers config ++ allowedPaths config).
Proof.
  unfold loadConfig.
  destruct (env "DISCORD_TOKEN") as [[|t0 t]|] eqn:Htoken;
    cbn [envTruthy JS.truthy negb]; try discriminate.
  destruct (env "DISCORD_CLIENT_ID") as [[|c0 c]|] eqn:Hclient;
    cbn [envTruthy JS.truthy negb]; try discriminate.
  cbn [allowedUsers allowAllUsers allowedPaths messageRetentionDays].
  match goal with
  | |- match ?users with Some _ => _ | None => _ end = _ -> _ =>
      destruct users; [|discriminate]
  end.
  intros [= <- _]. cbn [token clientId allowedUsers allowedPaths].
  repeat split.
  apply Forall_app. split; apply parseList_entries.
Qed.

End ConfigFacts.

(** An environment with the two ids, a padded user list and a path list. *)
Lemma loadConfig_lists_witness :
  let env := fun name : string =>
    if String.eqb name "DISCORD_TOKEN" then Some "token"
    else if String.eqb name "DISCORD_CLIENT_ID" then Some "client"
    else if String.eqb name "ALLOWED_USERS" then Some " 11 , ,22,"
    else if String.eqb name "ALLOWED_PATHS" then Some "/srv/a, /srv/b"
    else None in
  match Config.loadConfig env "/srv/bot" with
  | Config.Loaded config _ =>
      Config.allowedUsers config = ["11"; "22"]
      /\ Config.allowedPaths config = ["/srv/a"; "/srv/b"]
      /\ Forall (fun entry => entry <> EmptyString /\ JS.trim entry = entry)
                (Config.allowedUsers config ++ Config.allowedPaths config)
  | Config.Exited _ _ => False
  end.
Proof.
  cbv zeta.
  match goal with
  | |- match ?load with _ => _ end => destruct load as [code console|config console] eqn:E
  end.
  - vm_compute in E. discriminate.
  - destruct (ConfigFacts.loadConfig_lists _ _ _ _ E)
      as (_ & _ & Husers & Hpaths & Hentries).
    split; [exact Husers|]. split; [exact Hpaths | exact Hentries].
Defined.

(** ** The allowlist in use *)

Section GuardFacts.
Context `{Node}.

Lemma isPathAllowed_exists (allowed : list string) (p : string) :
  allowed <> [] ->
  isPathAllowed allowed p
  = existsb (fun root => JS.startsWith (resolve p) (root +:+ "/")
                         || String.eqb (resolve p) root) allowed.
Proof.
  intros Hne. unfold isPathAllowed.
  destruct allowed; [congruence | reflexivity].
Qed.

(** X30. Adding roots to a restricting allowlist never takes access away:
    a path allowed under a list of roots that is not empty stays allowed
    when further roots are configured after them. *)
Theorem setAllowedPaths_more_roots (paths more : list string) (p : string) :
  paths <> [] ->
  isPathAllowed (setAllowedPaths paths) p = true ->
  isPathAllowed (setAllowedPaths (paths ++ more)) p = true.
Proof.
  intros Hne Hallowed.
  rewrite isPathAllowed_exists in Hallowed
    by (unfold setAllowedPaths; destruct paths; [congruence | discriminate]).
  rewrite isPathAllowed_exists
    by (unfold setAllowedPaths; destruct paths; [congruence | discriminate]).
  unfold setAllowedPaths in *. rewrite map_app, existsb_app, Hallowed.
  reflexivity.
Qed.

(** X5. A directory the path guard refuses costs nothing: [createSession]
    of either manager throws the not-allowed error with the resolved
    directory in it and leaves the state exactly as it was, so no call to
    the host has been issued and nothing has been registered. *)
Theorem createSession_refused_directory :
  (forall sessionId directory channelId
          (st : State ClaudeManager.SessionManager),
      let resolvedDir := resolve (expandHome directory) in
      isPathAllowed (allowedPaths st) resolvedDir = false ->
      ClaudeManager.createSession sessionId directory channelId st
      = (Thrown ("Directory not in allowed paths: " +:+ resolvedDir), st))
  /\
  (forall guildId channelId directory
          (st : State DiscoManager.SessionManager),
      let resolvedDir := resolve (expandHome directory) in
      isPathAllowed (allowedPaths st) resolvedDir = false ->
      DiscoManager.createSession guildId channelId directory st
      = (Thrown ("Directory not in allowed paths: " +:+ resolvedDir), st)).
Proof.
  split.
  - intros sessionId directory channelId st resolvedDir Hrefused.
    pose proof (claude_createSession_cases sessionId directory channelId st)
      as Hcases. cbv zeta in Hcases. fold resolvedDir in Hcases.
    now rewrite Hrefused in Hcases.
  - intros guildId channelId directory st resolvedDir Hrefused.
    pose proof (disco_createSession_cases guildId channelId directory st)
      as Hcases. cbv zeta in Hcases. fold resolvedDir in Hcases.
    now rewrite Hrefused in Hcases.
Qed.

End GuardFacts.

Lemma setAllowedPaths_more_roots_witness :
  @isPathAllowed Scripted.node
    (@setAllowedPaths Scripted.node (["/home/user/projects"] ++ ["/var/www"]))
    "/home/user/projects/app" = true.
Proof.
  apply (@setAllowedPaths_more_roots Scripted.node
           ["/home/user/projects"] ["/var/www"] "/home/user/projects/app");
    [discriminate | reflexivity].
Defined.

Lemma createSession_refused_directory_witness :
  let st :=
    Scripted.start ClaudeManager.fresh
      (@setAllowedPaths Scripted.node ["/home/user/projects"])
      (Scripted.mkScript [] Scripted.spawnOk ["/etc"]) in
  @ClaudeManager.createSession Scripted.node "blocked" "/etc" "channel1" st
  = (Thrown "Directory not in allowed paths: /etc", st).
Proof.
  cbv zeta.
  apply (proj1 (@createSession_refused_directory Scripted.node)).
  reflexivity.
Defined.
